(** * NanoHatOLED: a shallow embedding of the display driver and the page
      state machine, with the properties of its specification.

    Source files embedded here:
    - [ext/nanohatoled.go]  (package [nanohatoled]: the SSD1306 driver, the
      canvas and the pixel buffer);
    - the [main] package (page state, [drawPage], the button handlers, the
      heartbeat loop).

    Conventions.
    - Go's [int] is taken at 64 bits; every [int] operation that can leave
      the range is followed by [wrapInt].  [/] and [%] on [int] truncate
      towards zero ([Z.quot], [Z.rem]).
    - A [byte] is a [Z] in [0, 256); [uint16] and [uint32] likewise.
    - [float64] is Rocq's primitive binary64 [float].
    - A method with a pointer receiver becomes a function that takes the
      receiver and returns the new one; a runtime panic (index out of
      range) is [None].
    - Third-party packages (imaging, freetype, i2c, time, the /proc
      readers) are interfaces: type classes whose members are the calls the
      source makes. *)

From Stdlib Require Import ZArith Lia Bool String Ascii.
From Stdlib Require Import Floats Uint63 DecimalString.
From stdpp Require Import base list.

Local Open Scope Z_scope.

(** ** Go's machine integers and numeric conversions *)
Module Go.

Definition intBits : Z := 64.
Definition minInt : Z := - 2 ^ (intBits - 1).
Definition maxInt : Z := 2 ^ (intBits - 1) - 1.

(** Two's-complement wrap-around of an [int] result. *)
Definition wrapInt (z : Z) : Z :=
  (z + 2 ^ (intBits - 1)) mod 2 ^ intBits - 2 ^ (intBits - 1).

Definition uint8 (z : Z) : Z := z mod 256.
Definition uint16 (z : Z) : Z := z mod 65536.
Definition uint32 (z : Z) : Z := z mod 4294967296.

(** [^x] on a byte. *)
Definition byteNot (b : Z) : Z := Z.lxor b 255.
(** [x << k] at type byte. *)
Definition byteShl (b k : Z) : Z := uint8 (Z.shiftl b k).

(** [float64(n)] for an [int64] (or [int]) [n]. *)
Definition float64_of_int (z : Z) : float :=
  if z =? minInt then (- (of_uint63 (Uint63.of_Z (2 ^ 62))) * 2)%float
  else if z <? 0 then (- (of_uint63 (Uint63.of_Z (- z))))%float
  else of_uint63 (Uint63.of_Z z).

(** The exact integer part of a finite float, truncated towards zero. *)
Definition truncSF (f : SpecFloat.spec_float) : option Z :=
  match f with
  | SpecFloat.S754_zero _ => Some 0
  | SpecFloat.S754_finite s m e =>
      let a := if 0 <=? e then Z.pos m * 2 ^ e else Z.pos m / 2 ^ (- e) in
      Some (if s then - a else a)
  | _ => None
  end.

(** [int(f)] for a [float64] [f]: truncation towards zero.  When the value
    does not fit (or is NaN or infinite) Go leaves the result to the
    platform; amd64 yields the least [int], which is what is written
    here. *)
Definition int_of_float64 (f : float) : Z :=
  match truncSF (Prim2SF f) with
  | Some z => if (minInt <=? z) && (z <=? maxInt) then z else minInt
  | None => minInt
  end.

End Go.

(** ** The I2C device ([golang.org/x/exp/io/i2c])

    [Write] either puts the bytes on the wire or fails.  The device carries
    the frames written so far and a script of coming faults ([true]: the
    next write fails); an exhausted script means no fault. *)
Inductive error : Type :=
  | ErrIO                                   (* an i2c write failed *)
  | ErrOutOfScreen (x y w h : Z)            (* "coordinate(%d,%d) out of screen(%dx%d)" *)
  | ErrPixelValue (v : Z)                   (* "pixel value must be 0 or 1, current:%d" *)
  | ErrDrawInit (e : error)                 (* "draw init failed: %w" *)
  | ErrOpenImage                            (* "open image failed: %w" *)
  | ErrOpen (msg : string).                 (* the failures of Open *)

Record Device : Type := mkDevice {
  wire : list (list Z);
  faults : list bool
}.

Definition devWrite (bs : list Z) (d : Device) : option error * Device :=
  match faults d with
  | true :: fs => (Some ErrIO, {| wire := wire d; faults := fs |})
  | false :: fs => (None, {| wire := wire d ++ [bs]; faults := fs |})
  | [] => (None, {| wire := wire d ++ [bs]; faults := [] |})
  end.

(** ** Images ([image.NRGBA], [image/color]) *)
Module Img.

(** [color.NRGBA]: non-premultiplied 8-bit channels. *)
Record Color : Type := mkColor { cR : Z; cG : Z; cB : Z; cA : Z }.

Definition transparent : Color := mkColor 0 0 0 0.
(** [color.White] and [color.Black] after conversion by [NRGBAModel]. *)
Definition White : Color := mkColor 255 255 255 255.
Definition Black : Color := mkColor 0 0 0 255.

(** [color.NRGBA.RGBA]: alpha-premultiplied 16-bit channels. *)
Definition RGBA (c : Color) : Z * Z * Z * Z :=
  let ch v := (Z.lor v (Z.shiftl v 8) * cA c) / 255 in
  (ch (cR c), ch (cG c), ch (cB c), Z.lor (cA c) (Z.shiftl (cA c) 8)).

(** An image with bounds [(0,0)-(Dx,Dy)], pixels in row-major order. *)
Record NRGBA : Type := mkNRGBA { Dx : Z; Dy : Z; Pix : list Color }.

Definition inBounds (img : NRGBA) (x y : Z) : bool :=
  (0 <=? x) && (x <? Dx img) && (0 <=? y) && (y <? Dy img).

Definition offset (img : NRGBA) (x y : Z) : nat := Z.to_nat (y * Dx img + x).

(** [image.NewNRGBA(image.Rect(0, 0, w, h))] *)
Definition NewNRGBA (w h : Z) : NRGBA :=
  mkNRGBA w h (replicate (Z.to_nat (w * h)) transparent).

Definition At (img : NRGBA) (x y : Z) : Color :=
  if inBounds img x y then default transparent (Pix img !! offset img x y)
  else transparent.

Definition Set_ (img : NRGBA) (x y : Z) (c : Color) : NRGBA :=
  if inBounds img x y
  then mkNRGBA (Dx img) (Dy img) (<[offset img x y := c]> (Pix img))
  else img.

(** [draw.Draw(img, img.Bounds(), image.NewUniform(c), image.Point{}, draw.Src)] *)
Definition fill (img : NRGBA) (c : Color) : NRGBA :=
  mkNRGBA (Dx img) (Dy img) (replicate (length (Pix img)) c).

End Img.
Import Img.

(** The calls made into [github.com/disintegration/imaging]. *)
Class Imaging : Type := {
  imagingOpen : string -> option NRGBA;
  imagingFit : NRGBA -> Z -> Z -> NRGBA;
  imagingGrayscale : NRGBA -> NRGBA;
  Rotate90 : NRGBA -> NRGBA;
  Rotate180 : NRGBA -> NRGBA;
  Rotate270 : NRGBA -> NRGBA
}.

Inductive Font : Type := NormalFont | BoldFont.

(** The calls made into [github.com/golang/freetype]: a context set up with
    the fixed DPI, a font, a size, full hinting, a uniform source colour and
    the image as destination and clip, then [DrawString] at a point. *)
Class Freetype : Type := {
  PointToFixed : float -> Z;
  DrawString : Font -> float -> Color -> NRGBA -> string -> Z -> Z -> NRGBA
}.

(** ** The OLED controller ([ext/nanohatoled.go]) *)
Module NanoHatOLED.

Definition ssd1306DisplayOn : Z := 0xAf.
Definition ssd1306DisplayOff : Z := 0xAe.
Definition baseAntiAliasThresh : Z := 90.
Definition sizeThresholdSmall : float := 12%float.
Definition sizeThresholdLarge : float := 24%float.

(** [type NanoOled struct].  The two loaded fonts are fixed once [Open]
    has returned, so [currentFont] is the choice between them; the GPIO
    pins [Btn] belong to the input side and are left out.  [image] is nil
    until the first [Clear] or [New], which every caller in the source
    runs before it draws or flushes; the empty image stands for nil. *)
Record NanoOled : Type := mkOled {
  dev : Device;
  w : Z;
  h : Z;
  buf : list Z;
  rotation : Z;
  rotationState : bool;
  image : NRGBA;
  currentFont : Font;
  fontSize : float
}.

Definition set_dev (d : Device) (o : NanoOled) : NanoOled :=
  mkOled d (w o) (h o) (buf o) (rotation o) (rotationState o) (image o) (currentFont o) (fontSize o).
Definition set_buf (b : list Z) (o : NanoOled) : NanoOled :=
  mkOled (dev o) (w o) (h o) b (rotation o) (rotationState o) (image o) (currentFont o) (fontSize o).
Definition set_rotation (r : Z) (o : NanoOled) : NanoOled :=
  mkOled (dev o) (w o) (h o) (buf o) r (rotationState o) (image o) (currentFont o) (fontSize o).
Definition set_rotationState (b : bool) (o : NanoOled) : NanoOled :=
  mkOled (dev o) (w o) (h o) (buf o) (rotation o) b (image o) (currentFont o) (fontSize o).
Definition set_image (i : NRGBA) (o : NanoOled) : NanoOled :=
  mkOled (dev o) (w o) (h o) (buf o) (rotation o) (rotationState o) i (currentFont o) (fontSize o).
Definition set_currentFont (f : Font) (o : NanoOled) : NanoOled :=
  mkOled (dev o) (w o) (h o) (buf o) (rotation o) (rotationState o) (image o) f (fontSize o).
Definition set_fontSize (s : float) (o : NanoOled) : NanoOled :=
  mkOled (dev o) (w o) (h o) (buf o) (rotation o) (rotationState o) (image o) (currentFont o) s.

(** [nanoOled.dev.Write(bs)] *)
Definition write (bs : list Z) (o : NanoOled) : option error * NanoOled :=
  let '(err, d) := devWrite bs (dev o) in (err, set_dev d o).

(** [func (nanoOled *NanoOled) init() (err error)] *)
Definition init (o : NanoOled) : option error * NanoOled :=
  let '(err, o) :=
    write [0xae; Z.lor 0x00 0x00; Z.lor 0x10 0x00; 0xd5; 0x80;
           0xa8; Go.uint8 (h o - 1); 0xd3; 0x00; Z.lor 0x80 0;
           0x8d; 0x14; 0x20; 0x0; Z.lor 0xA0 0x1; 0xC8] o in
  match err with
  | Some e => (Some e, o)
  | None =>
      let '(_, o) := if h o =? 32 then write [0xda; 0x02; 0x81; 0x8f] o else (None, o) in
      let '(_, o) := if h o =? 64 then write [0xda; 0x12; 0x81; 0x7f] o else (None, o) in
      write [0x9d; 0xf1; 0xdb; 0x40; 0xa4; 0xa6; 0x2e; 0xaf] o
  end.

(** [func Open()], which returns the controller or an error.  What [Open] finds on the host is
    its argument: the bus device if it can be opened, whether both font
    files parse, and whether the three GPIO pins can be claimed. *)
Definition Open (bus : option Device) (fontsLoad gpioReady : bool) : NanoOled + error :=
  match bus with
  | None => inr (ErrOpen "open I2C failed")
  | Some d =>
      let buf0 := <[0%nat := 0x40]> (replicate (Z.to_nat (128 * (64 / 8) + 1)) 0) in
      let oled := mkOled d 128 64 buf0 0 false (mkNRGBA 0 0 []) NormalFont 14%float in
      if negb fontsLoad then inr (ErrOpen "load font failed")
      else
        let '(err, oled) := init oled in
        match err with
        | Some _ => inr (ErrOpen "OLED init failed")
        | None => if negb gpioReady then inr (ErrOpen "GPIO init failed") else inl oled
        end
  end.

(** [On], [Off] *)
Definition On (o : NanoOled) : option error * NanoOled := write [ssd1306DisplayOn] o.
Definition Off (o : NanoOled) : option error * NanoOled := write [ssd1306DisplayOff] o.

(** [func (nanoOled *NanoOled) draw() error] *)
Definition draw (o : NanoOled) : option error * NanoOled :=
  let '(err, o) := write [0xa4; Z.lor 0x40 0; 0x21; 0; Go.uint8 (w o); 0x22; 0; 7] o in
  match err with
  | Some e => (Some (ErrDrawInit e), o)
  | None => write (buf o) o
  end.

(** The loop [for i := 1; i < len(buf); i++ { buf[i] = 0 }]. *)
Definition zeroData (b : list Z) : list Z :=
  foldl (fun acc i => <[i := 0]> acc) b (seq 1 (length b - 1)).

(** [func (nanoOled *NanoOled) Clear() error] *)
Definition Clear (o : NanoOled) : option error * NanoOled :=
  let o :=
    if (rotation o =? 90) || (rotation o =? 270)
    then set_image (NewNRGBA 64 128) o
    else set_image (NewNRGBA 128 64) o in
  let o := set_buf (zeroData (buf o)) o in
  draw o.

(** [func (nanoOled *NanoOled) New(rotation int)] *)
Definition New (rot : Z) (o : NanoOled) : NanoOled :=
  let o := set_rotation rot o in
  let o := set_rotationState false o in
  let '(_, o) := Clear o in
  if (rot =? 90) || (rot =? 270)
  then set_image (NewNRGBA 64 128) o
  else set_image (NewNRGBA 128 64) o.

(** [func (nanoOled *NanoOled) getDynamicThreshold() uint16] *)
Definition getDynamicThreshold (o : NanoOled) : Z :=
  let thresh :=
    if (fontSize o <=? sizeThresholdSmall)%float then baseAntiAliasThresh - 10
    else if (sizeThresholdLarge <=? fontSize o)%float then baseAntiAliasThresh + 10
    else baseAntiAliasThresh in
  Go.uint16 (thresh * 256).

(** [func (nanoOled *NanoOled) setPixel(x, y int, v byte) error].
    The index expression [buf[i]] panics outside [0, len(buf)). *)
Definition setPixel (x y v : Z) (o : NanoOled) : option (option error * NanoOled) :=
  if (w o <=? x) || (h o <=? y) then Some (Some (ErrOutOfScreen x y (w o) (h o)), o)
  else if 1 <? v then Some (Some (ErrPixelValue v), o)
  else
    let i := Go.wrapInt (Go.wrapInt (1 + x) + Go.wrapInt (Z.quot y 8 * w o)) in
    if (i <? 0) || (Z.of_nat (length (buf o)) <=? i) then None
    else
      let b := default 0 (buf o !! Z.to_nat i) in
      let bit := Go.byteShl 1 (Z.land y 7) in
      let b' := if v =? 0 then Z.land b (Go.byteNot bit) else Z.lor b bit in
      Some (None, set_buf (<[Z.to_nat i := b']> (buf o)) o).

(** A counted loop whose body may return an error (which ends the
    enclosing function) or panic. *)
Fixpoint forEach (xs : list Z)
    (body : Z -> NanoOled -> option (option error * NanoOled))
    (o : NanoOled) : option (option error * NanoOled) :=
  match xs with
  | [] => Some (None, o)
  | x :: xs' =>
      match body x o with
      | None => None
      | Some (Some e, o') => Some (Some e, o')
      | Some (None, o') => forEach xs' body o'
      end
  end.

(** The 1-bit value [Send] gives the canvas pixel [(x, y)]. *)
Definition sendBit (o : NanoOled) (x y : Z) : Z :=
  let '(r, g, b, _) := RGBA (At (image o) x y) in
  let gray := Go.uint32 (Go.uint32 (r + g + b) / 3) in
  if Go.uint32 (getDynamicThreshold o) <? gray then 0x1 else 0x0.

Section WithImaging.
Context `{Imaging}.

(** The rotation step at the head of [Send]. *)
Definition applyRotation (o : NanoOled) : NanoOled :=
  if negb (rotationState o) then
    if rotation o =? 90 then set_rotationState true (set_image (Rotate90 (image o)) o)
    else if rotation o =? 180 then set_rotationState true (set_image (Rotate180 (image o)) o)
    else if rotation o =? 270 then set_rotationState true (set_image (Rotate270 (image o)) o)
    else o
  else o.

(** [func (nanoOled *NanoOled) Send() error].  The counters [imgI] and
    [imgY] of the source always equal [i] and [j]. *)
Definition Send (o : NanoOled) : option (option error * NanoOled) :=
  let o := applyRotation o in
  let imgW := Dx (image o) in
  let imgH := Dy (image o) in
  let endX := Go.wrapInt (0 + imgW) in
  let endY := Go.wrapInt (0 + imgH) in
  let endX := if w o <=? endX then w o else endX in
  let endY := if h o <=? endY then h o else endY in
  match forEach (seqZ 0 endX)
          (fun i => forEach (seqZ 0 endY) (fun j o => setPixel i j (sendBit o i j) o)) o with
  | None => None
  | Some (Some e, o) => Some (Some e, o)
  | Some (None, o) => Some (draw o)
  end.

(** The white/black decision [Image] takes for a grayscale pixel. *)
Definition imageBit (o : NanoOled) (grayImg : NRGBA) (x y : Z) : bool :=
  let '(r, g, b, _) := RGBA (At grayImg x y) in
  let gray := Go.uint16 (Go.uint32 (r + g + b) / 3) in
  getDynamicThreshold o <? gray.

(** [func (nanoOled *NanoOled) Image(imagePath string) error] *)
Definition Image (imagePath : string) (o : NanoOled) : option error * NanoOled :=
  match imagingOpen imagePath with
  | None => (Some ErrOpenImage, o)
  | Some img =>
      let img := imagingFit img 128 64 in
      let grayImg := imagingGrayscale img in
      let binaryImg := fill (NewNRGBA (Dx grayImg) (Dy grayImg)) Black in
      let binaryImg :=
        foldl (fun acc y =>
                 foldl (fun acc x =>
                          if imageBit o grayImg x y then Set_ acc x y White else acc)
                       acc (seqZ 0 (Dx grayImg)))
              binaryImg (seqZ 0 (Dy grayImg)) in
      (None, set_image binaryImg o)
  end.
End WithImaging.

(** [SetFontSize], [SetBold] *)
Definition SetFontSize (size : float) (o : NanoOled) : NanoOled :=
  let size := if (32 <? size)%float then 32%float else size in
  set_fontSize size o.

Definition SetBold (isBold : bool) (o : NanoOled) : NanoOled :=
  if isBold then set_currentFont BoldFont o else set_currentFont NormalFont o.

(** [func (nanoOled *NanoOled) Text(x int, y int, text string, textColor bool)] *)
Definition Text `{Freetype} (x y : Z) (text : string) (textColor : bool)
    (o : NanoOled) : NanoOled :=
  let x := if x <? 0 then 0 else x in
  let y := if y <? 0 then 0 else y in
  let maxY := Go.wrapInt (Go.wrapInt (h o - Go.int_of_float64 (fontSize o)) - 2) in
  let y := if maxY <? y then maxY else y in
  let c := if negb textColor then Black else White in
  let baselineOffset :=
    if (fontSize o <=? 12)%float then 2%float
    else if (fontSize o <=? 24)%float then 3%float
    else 4%float in
  let baseY :=
    Go.wrapInt (Go.wrapInt (y + Z.shiftr (PointToFixed (fontSize o)) 6)
                - Go.int_of_float64 baselineOffset) in
  set_image (DrawString (currentFont o) (fontSize o) c (image o) text x baseY) o.

(** [Pixel] *)
Definition Pixel (x y : Z) (pixColor : bool) (o : NanoOled) : NanoOled :=
  if (x <? 0) || (w o <=? x) || (y <? 0) || (h o <=? y) then o
  else set_image (Set_ (image o) x y (if negb pixColor then Black else White)) o.

(** [LineH], [LineV]: the loops [for px <= endX] and [for py <= endY]. *)
Definition LineH (x y length : Z) (lineColor : bool) (o : NanoOled) : NanoOled :=
  let x := if x <? 0 then 0 else x in
  if (y <? 0) || (h o <=? y) then o
  else
    let endX := Go.wrapInt (x + length) in
    let endX := if w o <=? endX then w o - 1 else endX in
    let lColor := if negb lineColor then Black else White in
    set_image (foldl (fun acc px => Set_ acc px y lColor) (image o) (seqZ x (endX - x + 1))) o.

Definition LineV (x y length : Z) (lineColor : bool) (o : NanoOled) : NanoOled :=
  if (x <? 0) || (w o <=? x) then o
  else
    let y := if y <? 0 then 0 else y in
    let endY := Go.wrapInt (y + length) in
    let endY := if h o <=? endY then h o - 1 else endY in
    let lColor := if negb lineColor then Black else White in
    set_image (foldl (fun acc py => Set_ acc x py lColor) (image o) (seqZ y (endY - y + 1))) o.

(** [Rect]: the two nested [for py <= MaxY], [for px <= MaxX] loops. *)
Definition Rect (MinX MinY MaxX MaxY : Z) (rectColor : bool) (o : NanoOled) : NanoOled :=
  let MinX := if MinX <? 0 then 0 else MinX in
  let MinY := if MinY <? 0 then 0 else MinY in
  let MaxX := if w o <=? MaxX then w o - 1 else MaxX in
  let MaxY := if h o <=? MaxY then h o - 1 else MaxY in
  if (MaxX <? MinX) || (MaxY <? MinY) then o
  else
    let rColor := if negb rectColor then Black else White in
    set_image
      (foldl (fun acc py =>
                foldl (fun acc px => Set_ acc px py rColor) acc
                      (seqZ MinX (MaxX - MinX + 1)))
             (image o) (seqZ MinY (MaxY - MinY + 1)))
      o.

End NanoHatOLED.

(** ** What the main package reads from the host

    [time.Now().In(localLoc)] with the values the source derives from it
    through the [time] package, and the strings of the /proc and network
    readers.  Each read is numbered: the [n]-th read of the process gets the
    [n]-th answer. *)
Record Instant : Type := mkInstant {
  unix : Z;                 (* now.Unix() *)
  yearStartUnix : Z;        (* time.Date(now.Year(), 1, 1, 0, 0, 0, 0, localLoc).Unix() *)
  nextYearStartUnix : Z;    (* time.Date(now.Year()+1, 1, 1, 0, 0, 0, 0, localLoc).Unix() *)
  fmtDate : string;         (* now.Format("Mon _2 Jan 2006") *)
  fmtClock : string         (* now.Format("15:04:05") *)
}.

Class Host : Type := {
  timeNow : nat -> Instant;
  getIP : nat -> string;
  getCPULoad : nat -> string;
  getMemUsage : nat -> string;
  getDiskUsage : nat -> string;
  getCPUTemp : nat -> string;
  logoPresent : bool        (* os.Stat(logoPath) finds the file *)
}.

(** ** Formatting ([strings.Repeat], [fmt.Sprintf] with [%.1f]) *)
Module Fmt.
Local Open Scope string_scope.

Fixpoint repeatN (s : string) (n : nat) : string :=
  match n with
  | O => ""
  | S n' => s ++ repeatN s n'
  end.

(** [strings.Repeat(s, count)] for a count that is not negative. *)
Definition Repeat (s : string) (count : Z) : string := repeatN s (Z.to_nat count).

Definition decimal (z : Z) : string := NilZero.string_of_int (Z.to_int z).

(** The integer nearest to [m * 10 * 2^e], ties to even. *)
Definition roundTenths (m : positive) (e : Z) : Z :=
  if (0 <=? e)%Z then (Z.pos m * 10 * 2 ^ e)%Z
  else
    let den := (2 ^ (- e))%Z in
    let q := (Z.pos m * 10 / den)%Z in
    let r := (Z.pos m * 10 mod den)%Z in
    match (2 * r ?= den)%Z with
    | Lt => q
    | Gt => (q + 1)%Z
    | Eq => if Z.even q then q else (q + 1)%Z
    end.

(** [fmt.Sprintf("%.1f", f)]: one decimal, correctly rounded. *)
Definition f1 (f : float) : string :=
  match Prim2SF f with
  | SpecFloat.S754_nan => "NaN"
  | SpecFloat.S754_infinity s => if s then "-Inf" else "+Inf"
  | SpecFloat.S754_zero s => (if s then "-" else "") ++ "0.0"
  | SpecFloat.S754_finite s m e =>
      let t := roundTenths m e in
      (if s then "-" else "") ++ decimal (t / 10) ++ "." ++ decimal (t mod 10)
  end.

(** U+2593 and U+2591 in UTF-8. *)
Definition darkShade : string :=
  String (ascii_of_nat 226) (String (ascii_of_nat 150) (String (ascii_of_nat 147) "")).
Definition lightShade : string :=
  String (ascii_of_nat 226) (String (ascii_of_nat 150) (String (ascii_of_nat 145) "")).
End Fmt.

(** ** The main package *)
Module Main.
Import NanoHatOLED.
Local Open Scope string_scope.

Definition pageSleep : Z := 10.
Definition displayWidth : Z := 128.
Definition displayHeight : Z := 64.
Definition timeX : Z := 8.
Definition timeY : Z := 38.
Definition timeWidth : Z := 110.
Definition timeHeight : Z := 28.

(** The package-level variables.  [pageMutex] is the lock of the
    scheduler further down; [logged] is what went to the logger and
    [reads] counts the host reads made so far; [exited] records that the
    process has left through [os.Exit] or [syscall.Exec]. *)
Record App : Type := mkApp {
  oled : NanoOled;
  pageIndex : Z;
  pageSleepCount : Z;
  drawing : bool;
  shutdownFlag : bool;
  shutdownSelect : Z;
  lastPageIndex : Z;
  lastTimeStr : string;
  lastShutdownSel : Z;
  staticDrawn : bool;
  logged : list string;
  reads : nat;
  exited : bool
}.

Definition set_oled (o : NanoOled) (a : App) : App :=
  mkApp o (pageIndex a) (pageSleepCount a) (drawing a) (shutdownFlag a) (shutdownSelect a)
        (lastPageIndex a) (lastTimeStr a) (lastShutdownSel a) (staticDrawn a) (logged a)
        (reads a) (exited a).
Definition set_pageIndex (v : Z) (a : App) : App :=
  mkApp (oled a) v (pageSleepCount a) (drawing a) (shutdownFlag a) (shutdownSelect a)
        (lastPageIndex a) (lastTimeStr a) (lastShutdownSel a) (staticDrawn a) (logged a)
        (reads a) (exited a).
Definition set_pageSleepCount (v : Z) (a : App) : App :=
  mkApp (oled a) (pageIndex a) v (drawing a) (shutdownFlag a) (shutdownSelect a)
        (lastPageIndex a) (lastTimeStr a) (lastShutdownSel a) (staticDrawn a) (logged a)
        (reads a) (exited a).
Definition set_drawing (v : bool) (a : App) : App :=
  mkApp (oled a) (pageIndex a) (pageSleepCount a) v (shutdownFlag a) (shutdownSelect a)
        (lastPageIndex a) (lastTimeStr a) (lastShutdownSel a) (staticDrawn a) (logged a)
        (reads a) (exited a).
Definition set_shutdownFlag (v : bool) (a : App) : App :=
  mkApp (oled a) (pageIndex a) (pageSleepCount a) (drawing a) v (shutdownSelect a)
        (lastPageIndex a) (lastTimeStr a) (lastShutdownSel a) (staticDrawn a) (logged a)
        (reads a) (exited a).
Definition set_shutdownSelect (v : Z) (a : App) : App :=
  mkApp (oled a) (pageIndex a) (pageSleepCount a) (drawing a) (shutdownFlag a) v
        (lastPageIndex a) (lastTimeStr a) (lastShutdownSel a) (staticDrawn a) (logged a)
        (reads a) (exited a).
Definition set_lastPageIndex (v : Z) (a : App) : App :=
  mkApp (oled a) (pageIndex a) (pageSleepCount a) (drawing a) (shutdownFlag a) (shutdownSelect a)
        v (lastTimeStr a) (lastShutdownSel a) (staticDrawn a) (logged a)
        (reads a) (exited a).
Definition set_lastTimeStr (v : string) (a : App) : App :=
  mkApp (oled a) (pageIndex a) (pageSleepCount a) (drawing a) (shutdownFlag a) (shutdownSelect a)
        (lastPageIndex a) v (lastShutdownSel a) (staticDrawn a) (logged a)
        (reads a) (exited a).
Definition set_lastShutdownSel (v : Z) (a : App) : App :=
  mkApp (oled a) (pageIndex a) (pageSleepCount a) (drawing a) (shutdownFlag a) (shutdownSelect a)
        (lastPageIndex a) (lastTimeStr a) v (staticDrawn a) (logged a)
        (reads a) (exited a).
Definition set_staticDrawn (v : bool) (a : App) : App :=
  mkApp (oled a) (pageIndex a) (pageSleepCount a) (drawing a) (shutdownFlag a) (shutdownSelect a)
        (lastPageIndex a) (lastTimeStr a) (lastShutdownSel a) v (logged a)
        (reads a) (exited a).
Definition set_reads (v : nat) (a : App) : App :=
  mkApp (oled a) (pageIndex a) (pageSleepCount a) (drawing a) (shutdownFlag a) (shutdownSelect a)
        (lastPageIndex a) (lastTimeStr a) (lastShutdownSel a) (staticDrawn a) (logged a)
        v (exited a).
Definition set_exited (v : bool) (a : App) : App :=
  mkApp (oled a) (pageIndex a) (pageSleepCount a) (drawing a) (shutdownFlag a) (shutdownSelect a)
        (lastPageIndex a) (lastTimeStr a) (lastShutdownSel a) (staticDrawn a) (logged a)
        (reads a) v.

(** [logger.Println(msg)] (the timestamp prefix is left out). *)
Definition logPrintln (msg : string) (a : App) : App :=
  mkApp (oled a) (pageIndex a) (pageSleepCount a) (drawing a) (shutdownFlag a) (shutdownSelect a)
        (lastPageIndex a) (lastTimeStr a) (lastShutdownSel a) (staticDrawn a)
        (logged a ++ [msg]) (reads a) (exited a).

(** A call on the global [oled] whose result the caller drops. *)
Definition onOled (f : NanoOled -> NanoOled) (a : App) : App := set_oled (f (oled a)) a.
Definition oledClear (a : App) : App := set_oled (snd (Clear (oled a))) a.
Definition oledSend `{Imaging} (a : App) : option App :=
  match Send (oled a) with
  | None => None
  | Some (_, o) => Some (set_oled o a)
  end.

(** [func getYearProgressText() string], on the instant it reads. *)
Definition yearPercent (now : Instant) : float :=
  let start := yearStartUnix now in
  let end_ := nextYearStartUnix now in
  (Go.float64_of_int (Go.wrapInt (unix now - start))
   / Go.float64_of_int (Go.wrapInt (end_ - start)) * 100)%float.

Definition yearBarLen (now : Instant) : Z :=
  let barLen := Go.int_of_float64 (yearPercent now / 10)%float in
  if (barLen <? 0)%Z then 0%Z else if (10 <? barLen)%Z then 10%Z else barLen.

Definition getYearProgressText (now : Instant) : string :=
  let percent := yearPercent now in
  let barLen := yearBarLen now in
  let bar := Fmt.Repeat Fmt.darkShade barLen ++ Fmt.Repeat Fmt.lightShade (10 - barLen) in
  bar ++ Fmt.f1 percent ++ "%".

Section WithHost.
Context `{Imaging} `{Freetype} `{Host}.

(** One read of the host: the answer and the bumped counter. *)
Definition readHost {A : Type} (q : nat -> A) (a : App) : A * App :=
  (q (reads a), set_reads (S (reads a)) a).

(** [func clearTimeArea()] *)
Definition clearTimeArea (a : App) : App :=
  let a := onOled (Rect (timeX - 1) (timeY + 2) (timeX + timeWidth + 10) (timeY + timeHeight) false) a in
  let a := onOled (SetFontSize 24) a in
  let a := onOled (SetBold true) a in
  onOled (Text timeX timeY "               " false) a.

(** [func drawTimePageStatic()] *)
Definition drawTimePageStatic (a : App) : option App :=
  let a := oledClear a in
  let a := onOled (New 0) a in
  let a := onOled (SetFontSize 14) a in
  let a := onOled (SetBold false) a in
  let '(t1, a) := readHost timeNow a in
  let a := onOled (Text 2 2 (fmtDate t1) true) a in
  let '(t2, a) := readHost timeNow a in
  let a := onOled (Text 2 20 (getYearProgressText t2) true) a in
  let a := onOled (SetFontSize 24) a in
  let a := onOled (SetBold true) a in
  let '(t3, a) := readHost timeNow a in
  let currentTime := fmtClock t3 in
  let a := onOled (Text timeX timeY currentTime true) a in
  match oledSend a with
  | None => None
  | Some a => Some (set_staticDrawn true (set_lastTimeStr currentTime a))
  end.

(** [func updateTimeOnly()] *)
Definition updateTimeOnly (a : App) : option App :=
  let '(t, a) := readHost timeNow a in
  let currentTime := fmtClock t in
  if String.eqb currentTime (lastTimeStr a) then Some a
  else
    let a := clearTimeArea a in
    let a := onOled (Text timeX timeY currentTime true) a in
    match oledSend a with
    | None => None
    | Some a => Some (set_lastTimeStr currentTime a)
    end.

(** [func drawNonTimePage()] *)
Definition drawNonTimePage (a : App) : option App :=
  let a := oledClear a in
  let a := onOled (New 0) a in
  let a :=
    if (pageIndex a =? 1)%Z then
      let a := onOled (SetFontSize 10) a in
      let a := onOled (SetBold false) a in
      let '(ip, a) := readHost getIP a in
      let a := onOled (Text 2 0 ("IP: " ++ ip) true) a in
      let '(s, a) := readHost getCPULoad a in
      let a := onOled (Text 2 12 s true) a in
      let '(s, a) := readHost getMemUsage a in
      let a := onOled (Text 2 24 s true) a in
      let '(s, a) := readHost getDiskUsage a in
      let a := onOled (Text 2 36 s true) a in
      let '(s, a) := readHost getCPUTemp a in
      onOled (Text 2 48 s true) a
    else if (pageIndex a =? 3)%Z then
      let a := onOled (SetFontSize 14) a in
      let a := onOled (SetBold true) a in
      let a := onOled (Text 2 2 "Shutdown?" true) a in
      let a := onOled (SetFontSize 11) a in
      let a := onOled (SetBold false) a in
      if (shutdownSelect a =? 0)%Z then
        let a := onOled (Rect 2 20 (displayWidth - 4) 36 true) a in
        let a := onOled (Text 4 22 "Yes" false) a in
        let a := onOled (Rect 2 38 (displayWidth - 4) 54 false) a in
        onOled (Text 4 40 "No" true) a
      else
        let a := onOled (Rect 2 20 (displayWidth - 4) 36 false) a in
        let a := onOled (Text 4 22 "Yes" true) a in
        let a := onOled (Rect 2 38 (displayWidth - 4) 54 true) a in
        onOled (Text 4 40 "No" false) a
    else a in
  match oledSend a with
  | None => None
  | Some a => Some (set_lastShutdownSel (shutdownSelect a) (set_lastPageIndex (pageIndex a) a))
  end.

(** [func drawPage()], between [pageMutex.Lock()] and the deferred
    [pageMutex.Unlock()].  The deferred [drawing = false] runs on every
    return after [drawing = true]. *)
Definition drawPage (a : App) : option App :=
  if drawing a || shutdownFlag a then Some a
  else if (pageSleepCount a <=? 0)%Z then
    if (pageSleepCount a =? 0)%Z then
      let a := oledClear a in
      match oledSend a with
      | None => None
      | Some a =>
          let a := set_staticDrawn false a in
          let a := set_lastPageIndex (-1) a in
          Some (set_pageSleepCount (-1) a)
      end
    else Some a
  else
    let a := set_pageSleepCount (Go.wrapInt (pageSleepCount a - 1)) a in
    let a := set_drawing true a in
    let r :=
      if (pageIndex a =? 0)%Z then
        if negb (staticDrawn a) || negb (lastPageIndex a =? 0)%Z then
          match drawTimePageStatic a with
          | None => None
          | Some a => Some (set_lastPageIndex 0 a)
          end
        else updateTimeOnly a
      else if (pageIndex a =? 1)%Z || (pageIndex a =? 3)%Z then
        if negb (pageIndex a =? lastPageIndex a)%Z
           || ((pageIndex a =? 3)%Z && negb (shutdownSelect a =? lastShutdownSel a)%Z)
        then drawNonTimePage a
        else Some a
      else Some a in
    match r with
    | None => None
    | Some a => Some (set_drawing false a)
    end.

(** [func resetSleepCount()], between its [Lock] and [Unlock]. *)
Definition resetSleepCount (a : App) : App :=
  set_staticDrawn false (set_pageSleepCount pageSleep a).

(** The locked parts of [handleK1], [handleK2], [handleK3]. *)
Definition handleK1_locked (a : App) : App :=
  if (pageIndex a =? 3)%Z
  then set_shutdownSelect (Z.rem (Go.wrapInt (shutdownSelect a + 1)) 2) a
  else set_pageIndex 0 a.

Definition handleK2_locked (a : App) : App :=
  if (pageIndex a =? 3)%Z then
    if (shutdownSelect a =? 0)%Z then set_shutdownFlag true a
    else set_pageIndex 0 a
  else set_pageIndex 1 a.

Definition handleK3_locked (a : App) : App :=
  if (pageIndex a =? 3)%Z then set_pageIndex 0 a
  else set_shutdownSelect 1 (set_pageIndex 3 a).

(** [func handleK1()], [handleK2()], [handleK3()] run alone. *)
Definition handleK1 (a : App) : App :=
  handleK1_locked (resetSleepCount (logPrintln "K1 pressed" a)).
Definition handleK2 (a : App) : App :=
  handleK2_locked (resetSleepCount (logPrintln "K2 pressed" a)).
Definition handleK3 (a : App) : App :=
  handleK3_locked (resetSleepCount (logPrintln "K3 pressed" a)).

(** [func doShutdown()], from its [Lock] to the exit of the process. *)
Definition doShutdown (a : App) : option App :=
  let a := logPrintln "Executing shutdown..." a in
  let a := oledClear a in
  let a := onOled (New 0) a in
  let a := onOled (SetFontSize 14) a in
  let a := onOled (SetBold true) a in
  let a := onOled (Text 2 2 "Shutting down" true) a in
  let a := onOled (SetFontSize 11) a in
  let a := onOled (SetBold false) a in
  let a := onOled (Text 2 20 "Please wait..." true) a in
  match oledSend a with
  | None => None
  | Some a =>
      let a := oledClear a in
      match oledSend a with
      | None => None
      | Some a => Some (set_exited true a)
      end
  end.

(** [func main()] from the logo to the start of the button watchers,
    on the controller [Open] returned.  Package variables start at their
    zero values; [shutdownSelect = 1] is the first statement of [main]. *)
Definition startup (o : NanoOled) : option App :=
  let a := mkApp o 0 0 false false 1 0 "" 0 false [] 0 false in
  let a := logPrintln "Display logo..." a in
  let a := oledClear a in
  let a := onOled (New 0) a in
  let a :=
    if negb logoPresent then
      onOled (Text 2 20 "No Logo" true) (logPrintln "Logo not found" a)
    else
      let '(err, o) := Image "/etc/NanoHatOLED/logo.png" (oled a) in
      let a := set_oled o a in
      match err with
      | Some _ => onOled (Text 2 20 "Logo Err" true) (logPrintln "Logo load failed" a)
      | None => a
      end in
  match oledSend a with
  | None => None
  | Some a =>
      let a := set_pageIndex 0 a in
      let a := set_pageSleepCount pageSleep a in
      let a := set_drawing false a in
      let a := set_shutdownFlag false a in
      let a := set_lastPageIndex (-1) a in
      let a := set_lastTimeStr "" a in
      let a := set_lastShutdownSel (-1) a in
      Some (set_staticDrawn false a)
  end.
End WithHost.

End Main.

(** ** The goroutines and [pageMutex]

    [watchButtons] starts one goroutine per button; [main] runs the
    heartbeat.  A goroutine is a program counter over the locked sections
    the source writes: each section is entered by [pageMutex.Lock()] (which
    waits while another goroutine holds the mutex), runs, and is left by
    [pageMutex.Unlock()].  Go's mutex does not check who touches the
    variables: that sections only run under the lock is a property of the
    program, proved below, not of the machine. *)
Module Sched.
Import NanoHatOLED Main.

Inductive Thread : Type := K1 | K2 | K3 | Heartbeat.

#[global] Instance Thread_eq_dec : EqDecision Thread.
Proof. solve_decision. Defined.

(** The locked sections: [resetSleepCount], the locked part of a handler,
    [drawPage], the flag check of the main loop, [doShutdown]. *)
Inductive Section_ : Type := SecReset | SecHandle | SecDraw | SecCheck | SecShutdown.

Inductive Phase : Type := Acquire | Run | Release.

(** [Idle]: in [WaitForEdge] or waiting for the ticker.  [Entered]: the
    handler has been called and is about to log the press. *)
Inductive PC : Type := Idle | Entered | In (s : Section_) (p : Phase).

#[global] Instance Section_eq_dec : EqDecision Section_.
Proof. solve_decision. Defined.

Record Machine : Type := mkMachine {
  app : App;
  holder : option Thread;          (* who holds pageMutex *)
  pcs : Thread -> PC;
  isShutdown : bool;               (* the local of the main loop *)
  trace : list (Thread * Section_) (* the sections run so far, in order *)
}.

Definition set_pc (t : Thread) (pc : PC) (f : Thread -> PC) : Thread -> PC :=
  fun t' => if decide (t' = t) then pc else f t'.

Definition pressMessage (t : Thread) : string :=
  match t with
  | K1 => "K1 pressed"
  | K2 => "K2 pressed"
  | K3 => "K3 pressed"
  | Heartbeat => ""
  end.

Section WithHost.
Context `{Imaging} `{Freetype} `{Host}.

(** What a section does to the package variables. *)
Definition action (t : Thread) (s : Section_) (a : App) : option App :=
  match s with
  | SecReset => Some (resetSleepCount a)
  | SecHandle =>
      match t with
      | K1 => Some (handleK1_locked a)
      | K2 => Some (handleK2_locked a)
      | K3 => Some (handleK3_locked a)
      | Heartbeat => Some a
      end
  | SecDraw => drawPage a
  | SecCheck => Some a
  | SecShutdown => doShutdown a
  end.

(** Where a goroutine goes when it leaves a section. *)
Definition next (t : Thread) (s : Section_) (isShutdown : bool) : PC :=
  match s with
  | SecReset => In SecHandle Acquire
  | SecHandle => In SecDraw Acquire
  | SecDraw => Idle
  | SecCheck => if isShutdown then In SecShutdown Acquire else In SecDraw Acquire
  | SecShutdown => Idle
  end.

(** One step of goroutine [t]; [None] when [t] cannot move (it waits for
    the mutex, the process has exited) or the step panics. *)
Definition step (t : Thread) (m : Machine) : option Machine :=
  if exited (app m) then None
  else
    match pcs m t with
    | Idle =>
        (* an edge arrives after the debounce sleep, or the ticker fires *)
        let pc := match t with Heartbeat => In SecCheck Acquire | _ => Entered end in
        Some (mkMachine (app m) (holder m) (set_pc t pc (pcs m)) (isShutdown m) (trace m))
    | Entered =>
        Some (mkMachine (logPrintln (pressMessage t) (app m)) (holder m)
                        (set_pc t (In SecReset Acquire) (pcs m)) (isShutdown m) (trace m))
    | In s Acquire =>
        match holder m with
        | Some _ => None
        | None =>
            Some (mkMachine (app m) (Some t) (set_pc t (In s Run) (pcs m))
                            (isShutdown m) (trace m))
        end
    | In s Run =>
        match action t s (app m) with
        | None => None
        | Some a =>
            let flag := if decide (s = SecCheck) then shutdownFlag a else isShutdown m in
            Some (mkMachine a (holder m) (set_pc t (In s Release) (pcs m))
                            flag (trace m ++ [(t, s)]))
        end
    | In s Release =>
        Some (mkMachine (app m) None (set_pc t (next t s (isShutdown m)) (pcs m))
                        (isShutdown m) (trace m))
    end.

(** A schedule names the goroutine that moves at each step. *)
Fixpoint run (sched : list Thread) (m : Machine) : option Machine :=
  match sched with
  | [] => Some m
  | t :: rest =>
      match step t m with
      | None => None
      | Some m' => run rest m'
      end
  end.

(** The machine when [main] starts the watchers and enters its loop. *)
Definition boot (a : App) : Machine :=
  mkMachine a None (fun _ => Idle) false [].

Inductive reachable (a : App) : Machine -> Prop :=
  | reach_boot : reachable a (boot a)
  | reach_step m t m' : reachable a m -> step t m = Some m' -> reachable a m'.
End WithHost.

(** A press is atomic in a trace when the locked part of each handler is
    directly followed by the [drawPage] of the same goroutine. *)
Fixpoint pressAtomic (tr : list (Thread * Section_)) : bool :=
  match tr with
  | (t, SecHandle) :: (((t', s') :: _) as rest) =>
      bool_decide (t' = t) && bool_decide (s' = SecDraw) && pressAtomic rest
  | _ :: rest => pressAtomic rest
  | [] => true
  end.

Definition holdsLock (pc : PC) : bool :=
  match pc with
  | In _ Run | In _ Release => true
  | _ => false
  end.


(** A goroutine is inside a locked section exactly when it is the holder
    of the mutex. *)
Definition lockInv (m : Machine) : Prop :=
  forall t, holdsLock (pcs m t) = true <-> holder m = Some t.

(** K1 is pressed and runs up to the end of its handler (8 steps), K3
    does the same, then K1 takes the mutex for its [drawPage]. *)
Definition interleaved : list Thread :=
  replicate 8 K1 ++ replicate 8 K3 ++ [K1].

End Sched.

(** ** A bench: concrete stand-ins for the interfaces, to run the code on *)
Module Bench.
Import NanoHatOLED Main.
Local Open Scope string_scope.

(** Rotations with the dimension swap and pixel mapping of the imaging
    package (90 and 270 degrees counter-clockwise). *)
Definition remap (W H : Z) (src : NRGBA) (f : Z -> Z -> Z * Z) : NRGBA :=
  mkNRGBA W H
    (map (fun k => let '(sx, sy) := f (k mod W)%Z (k / W)%Z in At src sx sy)
         (seqZ 0 (W * H))).

#[global] Instance imaging : Imaging := {|
  imagingOpen := fun _ => None;
  imagingFit := fun img _ _ => img;
  imagingGrayscale := fun img => img;
  Rotate90 := fun src => remap (Dy src) (Dx src) src (fun x y => (Dx src - y - 1, x)%Z);
  Rotate180 := fun src => remap (Dx src) (Dy src) src (fun x y => (Dx src - 1 - x, Dy src - 1 - y)%Z);
  Rotate270 := fun src => remap (Dy src) (Dx src) src (fun x y => (y, Dy src - x - 1)%Z)
|}.

(** A rasterizer that marks one pixel per character along the baseline. *)
#[global] Instance freetype : Freetype := {|
  PointToFixed := fun f => Go.int_of_float64 (0.5 + f * 64)%float;
  DrawString := fun _ _ c img s x y =>
    foldl (fun acc k => Set_ acc (x + k) y c) img (seqZ 0 (Z.of_nat (String.length s)))
|}.

(** New Year 2025 (UTC), one second per read. *)
Definition instant (n : nat) : Instant :=
  mkInstant (1735689600 + Z.of_nat n) 1735689600 1767225600 "Wed  1 Jan 2025"
            (if Nat.even n then "00:00:00" else "00:00:01").

#[global] Instance host : Host := {|
  timeNow := instant;
  getIP := fun _ => "192.168.1.1";
  getCPULoad := fun _ => "CPU Load: 0.10";
  getMemUsage := fun _ => "Mem: 100/512MB 19.5%";
  getDiskUsage := fun _ => "Disk: 1.0/8.0GB 13%";
  getCPUTemp := fun _ => "CPU TEMP: 40";
  logoPresent := false
|}.

(** The controller as [Open] leaves it on a healthy bus. *)
Definition bootOled : NanoOled :=
  mkOled (mkDevice
            [[0xae; 0x00; 0x10; 0xd5; 0x80; 0xa8; 63; 0xd3; 0x00; 0x80;
              0x8d; 0x14; 0x20; 0x0; 0xA1; 0xC8];
             [0xda; 0x12; 0x81; 0x7f];
             [0x9d; 0xf1; 0xdb; 0x40; 0xa4; 0xa6; 0x2e; 0xaf]] [])
         128 64 (0x40 :: replicate 1024 0%Z) 0 false (mkNRGBA 0 0 []) NormalFont 14%float.

(** The first and the last second of 2025 (UTC). *)
Definition newYear : Instant := instant 0.
Definition newYearsEve : Instant :=
  mkInstant 1767225599 1735689600 1767225600 "Wed 31 Dec 2025" "23:59:59".

(** The package variables as [main] sets them before its loop. *)
Definition bootApp : App :=
  mkApp bootOled 0 pageSleep false false 1 (-1) "" (-1) false [] 0 false.

End Bench.

(** ** Observations used in the statements *)
Module Obs.
Import NanoHatOLED Main.

(** The invariant [Open] establishes: a 128x64 panel and a buffer of
    [1 + 128 * 8] bytes. *)
Definition wfOled (o : NanoOled) : Prop :=
  w o = 128 /\ h o = 64 /\ length (buf o) = 1025%nat
  /\ Forall (fun b => 0 <= b < 256) (buf o).

(** Where the pixel [(x, y)] lives in the buffer, and its bit there. *)
Definition pixelIndex (x y : Z) : nat := Z.to_nat (1 + x + Z.quot y 8 * 128).

Definition pixelBit (o : NanoOled) (x y : Z) : bool :=
  Z.testbit (default 0 (buf o !! pixelIndex x y)) (Z.land y 7).

(** The byte [setPixel] stores for an in-range pixel. *)
Definition stored (o : NanoOled) (x y v : Z) : Z :=
  let b := default 0 (buf o !! pixelIndex x y) in
  let bit := Go.byteShl 1 (Z.land y 7) in
  if v =? 0 then Z.land b (Go.byteNot bit) else Z.lor b bit.

(** Every byte after the framing byte is zero. *)
Definition dataCleared (b : list Z) : Prop :=
  forall i, (1 <= i < length b)%nat -> b !! i = Some 0.

(** Two controllers that differ at most in the pixel buffer and in what
    went over the bus. *)
Definition sameCanvas (o o' : NanoOled) : Prop :=
  w o' = w o /\ h o' = h o /\ rotation o' = rotation o
  /\ rotationState o' = rotationState o /\ image o' = image o
  /\ currentFont o' = currentFont o /\ fontSize o' = fontSize o.

(** The rotation [Send] applies for a configured angle. *)
Definition rotateBy `{Imaging} (angle : Z) (img : NRGBA) : NRGBA :=
  if angle =? 90 then Rotate90 img
  else if angle =? 180 then Rotate180 img
  else if angle =? 270 then Rotate270 img
  else img.

(** Pixels with 8-bit channels, as every [color.NRGBA] has. *)
Definition validColor (c : Color) : Prop :=
  0 <= cR c < 256 /\ 0 <= cG c < 256 /\ 0 <= cB c < 256 /\ 0 <= cA c < 256.

Definition validPixels (img : NRGBA) : Prop := Forall validColor (Pix img).

(** The canvas [Clear] and [New] allocate for a rotation. *)
Definition freshCanvas (rot : Z) : NRGBA :=
  if (rot =? 90) || (rot =? 270) then NewNRGBA 64 128 else NewNRGBA 128 64.

(** The floor of the exact value of a finite float. *)
Definition floorSF (f : SpecFloat.spec_float) : option Z :=
  match f with
  | SpecFloat.S754_zero _ => Some 0
  | SpecFloat.S754_finite s m e =>
      let v := if s then Z.neg m else Z.pos m in
      Some (if 0 <=? e then v * 2 ^ e else v / 2 ^ (- e))
  | _ => None
  end.

(** A year of 365 or of 366 days, in seconds. *)
Definition wholeYear (now : Instant) : Prop :=
  nextYearStartUnix now - yearStartUnix now = 31536000
  \/ nextYearStartUnix now - yearStartUnix now = 31622400.

Inductive Button : Type := BtnK1 | BtnK2 | BtnK3.

(** A button press run alone: the handler of the button. *)
Definition press (b : Button) (a : App) : App :=
  match b with
  | BtnK1 => handleK1 a
  | BtnK2 => handleK2 a
  | BtnK3 => handleK3 a
  end.

Definition presses (bs : list Button) (a : App) : App :=
  foldl (fun a b => press b a) a bs.

(** What happens to the page state, one event after the other: a press
    is its handler followed by [drawPage], a tick of the heartbeat is
    [drawPage]. *)
Inductive Event : Type := Pressed (b : Button) | Tick.

Definition handleEvent `{Imaging} `{Freetype} `{Host} (ev : Event) (a : App) : option App :=
  match ev with
  | Pressed b => drawPage (press b a)
  | Tick => drawPage a
  end.

Fixpoint runEvents `{Imaging} `{Freetype} `{Host} (evs : list Event) (a : App) : option App :=
  match evs with
  | [] => Some a
  | ev :: rest =>
      match handleEvent ev a with
      | None => None
      | Some a' => runEvents rest a'
      end
  end.

(** The machine a schedule leads to from the start of the main loop. *)
Definition machineAfter `{Imaging} `{Freetype} `{Host}
    (sched : list Sched.Thread) (a : App) : Sched.Machine :=
  default (Sched.boot a) (Sched.run sched (Sched.boot a)).

(** [n] heartbeat calls of [drawPage] in a row. *)
Fixpoint heartbeats `{Imaging} `{Freetype} `{Host} (n : nat) (a : App) : option App :=
  match n with
  | O => Some a
  | S n' =>
      match drawPage a with
      | None => None
      | Some a' => heartbeats n' a'
      end
  end.

(** The checks all bytes and bit positions pass (see [byte_facts]). *)
Definition byteFacts (b k : Z) : bool :=
  let bit := Go.byteShl 1 k in
  let set := Z.lor b bit in
  let clr := Z.land b (Go.byteNot bit) in
  (0 <=? set) && (set <? 256) && (0 <=? clr) && (clr <? 256)
  && Z.testbit set k && negb (Z.testbit clr k)
  && (if Z.testbit b k then (set =? b) && (Z.lor clr bit =? b)
      else (clr =? b) && (Z.land set (Go.byteNot bit) =? b))
  && (Z.lor set bit =? set) && (Z.land clr (Go.byteNot bit) =? clr)
  && (Z.land set (Go.byteNot bit) =? clr) && (Z.lor clr bit =? set).

(** An image whose pixel slice has one entry per point of its bounds. *)
Definition wfImage (img : NRGBA) : Prop :=
  length (Pix img) = Z.to_nat (Dx img * Dy img).

(** The colour the drawing primitives paint for a [bool]. *)
Definition paint (c : bool) : Color := if negb c then Black else White.

(** A well-formed controller with no rotation configured, as [main] keeps
    it: every canvas there comes from [New(0)]. *)
Definition okOled (o : NanoOled) : Prop := wfOled o /\ rotation o = 0.

(** The goroutine that serves an event, the steps it takes from idle back
    to idle when it runs alone, and the locked sections it goes through. *)
Definition eventThread (ev : Event) : Sched.Thread :=
  match ev with
  | Pressed BtnK1 => Sched.K1
  | Pressed BtnK2 => Sched.K2
  | Pressed BtnK3 => Sched.K3
  | Tick => Sched.Heartbeat
  end.

Definition eventSections (ev : Event) : list Sched.Section_ :=
  match ev with
  | Pressed _ => [Sched.SecReset; Sched.SecHandle; Sched.SecDraw]
  | Tick => [Sched.SecCheck; Sched.SecDraw]
  end.

Definition eventSteps (ev : Event) : nat :=
  match ev with
  | Pressed _ => 11
  | Tick => 7
  end.

(** The values the page variables take while the program runs. *)
Definition pageStateOk (a : App) : Prop :=
  (shutdownSelect a = 0 \/ shutdownSelect a = 1)
  /\ (pageIndex a = 0 \/ pageIndex a = 1 \/ pageIndex a = 3)
  /\ -1 <= pageSleepCount a <= pageSleep.

(** A coordinate on the 128x64 panel. *)
Definition onPanel (x y : Z) : Prop := 0 <= x < 128 /\ 0 <= y < 64.

End Obs.

(** * Properties *)

(** ** Machine integers and bytes *)
Module GoFacts.
Import Go Obs.

Lemma wrapInt_small z : minInt <= z <= maxInt -> wrapInt z = z.
Proof.
  unfold wrapInt, minInt, maxInt, intBits. intros Hz.
  rewrite Z.mod_small; lia.
Qed.

Lemma land7_range y : 0 <= Z.land y 7 < 8.
Proof.
  change 7 with (Z.ones 3). rewrite Z.land_ones by lia.
  apply Z.mod_pos_bound. lia.
Qed.

(** Setting and clearing one bit of a byte, checked on all 256 x 8 cases. *)
Lemma byte_facts b k : 0 <= b < 256 -> 0 <= k < 8 -> byteFacts b k = true.
Proof.
  intros Hb Hk.
  assert (Hall : forallb (fun b => forallb (byteFacts b) (seqZ 0 8)) (seqZ 0 256) = true)
    by (vm_compute; reflexivity).
  rewrite forallb_forall in Hall.
  assert (Hin : In b (seqZ 0 256)) by (apply list_elem_of_In, elem_of_seqZ; lia).
  specialize (Hall b Hin). rewrite forallb_forall in Hall.
  apply Hall. apply list_elem_of_In, elem_of_seqZ. lia.
Qed.

End GoFacts.

(** ** The pixel buffer: [setPixel] *)
Module PixelBuffer.
Import NanoHatOLED Obs GoFacts.

Lemma pixelIndex_range x y :
  0 <= x < 128 -> 0 <= y < 64 -> (1 <= pixelIndex x y < 1025)%nat.
Proof.
  intros Hx Hy. unfold pixelIndex.
  rewrite Z.quot_div_nonneg by lia.
  assert (0 <= y / 8 < 8) by (split; [apply Z.div_pos; lia | apply Z.div_lt_upper_bound; lia]).
  lia.
Qed.

Lemma wf_lookup o i :
  wfOled o -> (i < 1025)%nat -> 0 <= default 0 (buf o !! i) < 256.
Proof.
  intros (_ & _ & Hlen & Hall) Hi.
  destruct (buf o !! i) as [b|] eqn:Hb; simpl; [|lia].
  rewrite Forall_forall in Hall. apply Hall.
  eapply list_elem_of_lookup_2; eauto.
Qed.

Lemma setPixel_in o x y v :
  wfOled o -> 0 <= x < 128 -> 0 <= y < 64 -> v = 0 \/ v = 1 ->
  setPixel x y v o = Some (None, set_buf (<[pixelIndex x y := stored o x y v]> (buf o)) o).
Proof.
  intros Hwf Hx Hy Hv.
  pose proof (pixelIndex_range x y Hx Hy) as Hi.
  destruct Hwf as (Hw & Hh & Hlen & Hall).
  unfold setPixel. rewrite Hw, Hh, Hlen.
  replace (128 <=? x) with false by (symmetry; apply Z.leb_gt; lia).
  replace (64 <=? y) with false by (symmetry; apply Z.leb_gt; lia).
  replace (1 <? v) with false by (symmetry; apply Z.ltb_ge; lia).
  simpl orb. cbv iota.
  assert (Hq : 0 <= Z.quot y 8 < 8).
  { rewrite Z.quot_div_nonneg by lia.
    split; [apply Z.div_pos; lia | apply Z.div_lt_upper_bound; lia]. }
  assert (Hidx : Go.wrapInt (Go.wrapInt (1 + x) + Go.wrapInt (Z.quot y 8 * 128))
                 = 1 + x + Z.quot y 8 * 128).
  { rewrite !wrapInt_small; unfold Go.minInt, Go.maxInt, Go.intBits; try lia.
    rewrite !wrapInt_small; unfold Go.minInt, Go.maxInt, Go.intBits; lia. }
  rewrite Hidx. fold (pixelIndex x y).
  replace (1 + x + Z.quot y 8 * 128 <? 0) with false by (symmetry; apply Z.ltb_ge; lia).
  replace (Z.of_nat 1025 <=? 1 + x + Z.quot y 8 * 128) with false
    by (symmetry; apply Z.leb_gt; lia).
  reflexivity.
Qed.

Lemma stored_range o x y v :
  wfOled o -> 0 <= x < 128 -> 0 <= y < 64 -> 0 <= stored o x y v < 256.
Proof.
  intros Hwf Hx Hy.
  pose proof (pixelIndex_range x y Hx Hy) as Hi.
  pose proof (wf_lookup o (pixelIndex x y) Hwf ltac:(lia)) as Hb.
  pose proof (byte_facts _ _ Hb (land7_range y)) as Hf.
  unfold byteFacts in Hf. cbv zeta in Hf.
  repeat (apply andb_prop in Hf; destruct Hf as [Hf ?]).
  unfold stored. cbv zeta. destruct (v =? 0); lia.
Qed.

Lemma setPixel_wf o x y v o' e :
  wfOled o -> 0 <= x < 128 -> 0 <= y < 64 -> v = 0 \/ v = 1 ->
  setPixel x y v o = Some (e, o') -> e = None /\ wfOled o' /\ sameCanvas o o'.
Proof.
  intros Hwf Hx Hy Hv Hs.
  rewrite (setPixel_in o x y v Hwf Hx Hy Hv) in Hs. injection Hs as <- <-.
  pose proof (stored_range o x y v Hwf Hx Hy) as Hr.
  destruct Hwf as (Hw & Hh & Hlen & Hall).
  split; [reflexivity|]. split.
  - unfold wfOled. simpl. rewrite length_insert.
    repeat split; try assumption.
    apply Forall_insert; assumption.
  - unfold sameCanvas. simpl. repeat split.
Qed.

(** What the guards of [setPixel] do reject: a coordinate at or beyond
    the width or the height, and (inside those) a value above 1.  The
    buffer, like the rest of the controller, is returned as it was. *)
Lemma setPixel_rejects o x y v :
  (w o <= x \/ h o <= y -> setPixel x y v o = Some (Some (ErrOutOfScreen x y (w o) (h o)), o))
  /\ (x < w o -> y < h o -> 1 < v -> setPixel x y v o = Some (Some (ErrPixelValue v), o)).
Proof.
  unfold setPixel. split.
  - intros Hout.
    assert (Hc : (w o <=? x) || (h o <=? y) = true).
    { apply orb_true_iff. destruct Hout; [left | right]; apply Z.leb_le; lia. }
    rewrite Hc. reflexivity.
  - intros Hx Hy Hv.
    replace (w o <=? x) with false by (symmetry; apply Z.leb_gt; lia).
    replace (h o <=? y) with false by (symmetry; apply Z.leb_gt; lia).
    replace (1 <? v) with true by (symmetry; apply Z.ltb_lt; lia).
    reflexivity.
Qed.

End PixelBuffer.

(** ** [setPixel]: rejected inputs and the set/clear round trip *)
Module PixelClaims.
Import NanoHatOLED Obs GoFacts PixelBuffer Bench.

Lemma bootOled_wf : wfOled bootOled.
Proof.
  unfold wfOled. change (buf bootOled) with (0x40 :: replicate 1024 0).
  split; [reflexivity|]. split; [reflexivity|]. split.
  - cbn [length]. rewrite length_replicate. reflexivity.
  - apply Forall_cons. split; [lia|]. apply Forall_replicate. lia.
Qed.

Lemma Open_bootOled : Open (Some (mkDevice [] [])) true true = inl bootOled.
Proof. vm_compute. reflexivity. Qed.

(** C3.  [setPixel] does not reject negative coordinates: on the
    controller as [Open] leaves it, [setPixel(-1, 0, 1)] returns no error
    and turns the framing byte [0x40] into [0x41]; [setPixel(0, -1, 1)]
    returns no error and sets bit 7 of the first data byte;
    [setPixel(-2, 0, 1)] indexes the buffer at [-1] and panics. *)
Theorem setPixel_negative_coordinates :
  (exists o', setPixel (-1) 0 1 bootOled = Some (None, o')
              /\ buf bootOled !! 0%nat = Some 0x40 /\ buf o' !! 0%nat = Some 0x41)
  /\ (exists o', setPixel 0 (-1) 1 bootOled = Some (None, o')
                 /\ buf bootOled !! 1%nat = Some 0 /\ buf o' !! 1%nat = Some 0x80)
  /\ setPixel (-2) 0 1 bootOled = None.
Proof.
  split; [|split].
  - eexists. split; [vm_compute; reflexivity|]. split; reflexivity.
  - eexists. split; [vm_compute; reflexivity|]. split; reflexivity.
  - vm_compute. reflexivity.
Qed.

Lemma lookup_default (o : NanoOled) i :
  wfOled o -> (i < 1025)%nat -> buf o !! i = Some (default 0 (buf o !! i)).
Proof.
  intros (_ & _ & Hlen & _) Hi.
  destruct (lookup_lt_is_Some_2 (buf o) i) as [b Hb]; [lia|].
  rewrite Hb. reflexivity.
Qed.

Lemma set_buf_same o : set_buf (buf o) o = o.
Proof. destruct o. reflexivity. Qed.

(** C6 (as stated, refuted).  On the cleared buffer the bit of pixel
    [(0, 0)] is 0; after [setPixel(0, 0, 0)] and [setPixel(0, 0, 1)] it
    is 1, not what it was before the first call. *)
Lemma setPixel_complement_counterexample :
  wfOled bootOled
  /\ exists o1 o2,
       setPixel 0 0 0 bootOled = Some (None, o1)
       /\ setPixel 0 0 (1 - 0) o1 = Some (None, o2)
       /\ pixelBit bootOled 0 0 = false
       /\ pixelBit o2 0 0 = true.
Proof.
  split; [apply bootOled_wf|].
  do 2 eexists. split; [vm_compute; reflexivity|].
  split; [vm_compute; reflexivity|].
  split; vm_compute; reflexivity.
Qed.

(** C6 (amended).  For an in-range pixel and [v] in {0, 1},
    [setPixel(x, y, v)] followed by [setPixel(x, y, 1 - v)] both succeed,
    leave the addressed bit equal to [1 - v] and every other byte of the
    buffer as it was; when the bit held [1 - v] before the first call, the
    whole controller, buffer included, is back in its first state. *)
Theorem setPixel_complement o x y v :
  wfOled o -> 0 <= x < 128 -> 0 <= y < 64 -> v = 0 \/ v = 1 ->
  exists o1 o2,
    setPixel x y v o = Some (None, o1)
    /\ setPixel x y (1 - v) o1 = Some (None, o2)
    /\ pixelBit o2 x y = (v =? 0)
    /\ (forall i, i <> pixelIndex x y -> buf o2 !! i = buf o !! i)
    /\ (pixelBit o x y = (v =? 0) -> o2 = o).
Proof.
  intros Hwf Hx Hy Hv.
  pose proof (pixelIndex_range x y Hx Hy) as Hi.
  pose proof (setPixel_in o x y v Hwf Hx Hy Hv) as H1.
  destruct (setPixel_wf _ _ _ _ _ _ Hwf Hx Hy Hv H1) as (_ & Hwf1 & _).
  set (o1 := set_buf (<[pixelIndex x y := stored o x y v]> (buf o)) o) in *.
  assert (Hv' : 1 - v = 0 \/ 1 - v = 1) by lia.
  pose proof (setPixel_in o1 x y (1 - v) Hwf1 Hx Hy Hv') as H2.
  exists o1, (set_buf (<[pixelIndex x y := stored o1 x y (1 - v)]> (buf o1)) o1).
  split; [exact H1|]. split; [exact H2|].
  pose proof (wf_lookup o (pixelIndex x y) Hwf ltac:(lia)) as Hb.
  pose proof (byte_facts _ _ Hb (land7_range y)) as Hf.
  pose proof (lookup_default o (pixelIndex x y) Hwf ltac:(lia)) as Hlk.
  destruct Hwf as (Hw & Hh & Hlen & Hall).
  assert (Hb1 : default 0 (buf o1 !! pixelIndex x y) = stored o x y v).
  { unfold o1. simpl. rewrite list_lookup_insert_eq by lia. reflexivity. }
  assert (Hbuf2 : <[pixelIndex x y := stored o1 x y (1 - v)]> (buf o1)
                  = <[pixelIndex x y := stored o1 x y (1 - v)]> (buf o)).
  { unfold o1 at 2. simpl. apply list_insert_insert_eq. }
  unfold byteFacts in Hf. cbv zeta in Hf.
  repeat (apply andb_prop in Hf; destruct Hf as [Hf ?]).
  assert (Hst : stored o1 x y (1 - v)
                = if v =? 0
                  then Z.lor (default 0 (buf o !! pixelIndex x y)) (Go.byteShl 1 (Z.land y 7))
                  else Z.land (default 0 (buf o !! pixelIndex x y))
                              (Go.byteNot (Go.byteShl 1 (Z.land y 7)))).
  { unfold stored at 1. cbv zeta. rewrite Hb1. unfold stored. cbv zeta.
    destruct Hv as [-> | ->]; simpl; lia. }
  split; [|split].
  - unfold pixelBit. cbn [buf set_buf]. rewrite Hbuf2.
    rewrite list_lookup_insert_eq by lia. simpl. rewrite Hst.
    destruct Hv as [-> | ->]; simpl.
    + assumption.
    + apply negb_true_iff. assumption.
  - intros i Hne. cbn [buf set_buf]. rewrite Hbuf2.
    rewrite list_lookup_insert_ne by congruence. reflexivity.
  - intros Hbit. unfold pixelBit in Hbit.
    assert (Heq : stored o1 x y (1 - v) = default 0 (buf o !! pixelIndex x y)).
    { rewrite Hst. rewrite Hbit in *.
      destruct Hv as [-> | ->]; simpl in *; lia. }
    rewrite Hbuf2, Heq, list_insert_id by exact Hlk.
    unfold o1. destruct o. reflexivity.
Qed.

Lemma setPixel_complement_witness :
  exists o1 o2,
    setPixel 5 9 1 bootOled = Some (None, o1)
    /\ setPixel 5 9 (1 - 1) o1 = Some (None, o2)
    /\ pixelBit o2 5 9 = (1 =? 0)
    /\ (forall i, i <> pixelIndex 5 9 -> buf o2 !! i = buf bootOled !! i)
    /\ (pixelBit bootOled 5 9 = (1 =? 0) -> o2 = bootOled).
Proof.
  apply (setPixel_complement bootOled 5 9 1); [apply bootOled_wf | lia | lia | right; reflexivity].
Defined.

End PixelClaims.

(** ** The dynamic threshold *)
Module Threshold.
Import NanoHatOLED Obs GoFacts SpecFloat.

Lemma SF_12 : Prim2SF 12 = S754_finite false 6755399441055744 (-49).
Proof. vm_compute. reflexivity. Qed.

Lemma SF_24 : Prim2SF 24 = S754_finite false 6755399441055744 (-48).
Proof. vm_compute. reflexivity. Qed.







(** Order facts on [spec_float], stated for arbitrary mantissas and
    exponents. *)
Lemma SFcompare_antisym x y c :
  SFcompare x y = Some c -> SFcompare y x = Some (CompOpp c).
Proof.
  destruct x as [[]|[]| |[] m1 e1], y as [[]|[]| |[] m2 e2]; simpl;
    intros Hc; try discriminate Hc; try (injection Hc as <-; reflexivity).
  - injection Hc as <-. rewrite (Z.compare_antisym e1 e2).
    change (Pos.compare_cont Eq) with Pos.compare.
    rewrite (Pos.compare_antisym m1 m2).
    destruct (e1 ?= e2), (m1 ?= m2)%positive; reflexivity.
  - injection Hc as <-. rewrite (Z.compare_antisym e1 e2).
    change (Pos.compare_cont Eq) with Pos.compare.
    rewrite (Pos.compare_antisym m1 m2).
    destruct (e1 ?= e2), (m1 ?= m2)%positive; reflexivity.
Qed.

Lemma SFltb_not_SFleb x y : SFltb x y = true -> SFleb y x = false.
Proof.
  unfold SFltb, SFleb. destruct (SFcompare x y) as [[]|] eqn:Hc; try discriminate.
  intros _. rewrite (SFcompare_antisym _ _ _ Hc). reflexivity.
Qed.

Lemma SFleb_gap m1 e1 m2 e2 y :
  e2 < e1 ->
  SFleb (S754_finite false m1 e1) y = true -> SFleb y (S754_finite false m2 e2) = false.
Proof.
  intros He. unfold SFleb.
  destruct y as [[]|[]| |[] m e]; simpl; try discriminate; try reflexivity.
  destruct (Z.compare_spec e1 e), (Z.compare_spec e e2); try lia;
    try discriminate; try reflexivity.
Qed.

Lemma above_12_not_small f : (12 <? f)%float = true -> (f <=? 12)%float = false.
Proof. rewrite FloatAxioms.ltb_spec, FloatAxioms.leb_spec. apply SFltb_not_SFleb. Qed.

Lemma below_24_not_large f : (f <? 24)%float = true -> (24 <=? f)%float = false.
Proof. rewrite FloatAxioms.ltb_spec, FloatAxioms.leb_spec. apply SFltb_not_SFleb. Qed.

Lemma large_not_small f : (24 <=? f)%float = true -> (f <=? 12)%float = false.
Proof.
  rewrite !FloatAxioms.leb_spec, SF_12, SF_24. apply SFleb_gap. lia.
Qed.

Lemma lor_shift_range v : 0 <= v < 256 -> 0 <= Z.lor v (Z.shiftl v 8) <= 65535.
Proof.
  intros Hv.
  assert (Hall : forallb (fun v => let c := Z.lor v (Z.shiftl v 8) in (0 <=? c) && (c <=? 65535))
                         (seqZ 0 256) = true) by (vm_compute; reflexivity).
  rewrite forallb_forall in Hall.
  specialize (Hall v ltac:(apply list_elem_of_In, elem_of_seqZ; lia)).
  cbv zeta in Hall. apply andb_prop in Hall. lia.
Qed.

Lemma channel_range v a :
  0 <= v < 256 -> 0 <= a < 256 -> 0 <= (Z.lor v (Z.shiftl v 8) * a) / 255 <= 65535.
Proof.
  intros Hv Ha. pose proof (lor_shift_range v Hv) as Hc.
  split.
  - apply Z.div_pos; nia.
  - apply Z.div_le_upper_bound; nia.
Qed.

Lemma At_valid img x y : validPixels img -> validColor (At img x y).
Proof.
  intros Hv. unfold At.
  destruct (inBounds img x y); [|unfold validColor; simpl; lia].
  destruct (Pix img !! offset img x y) as [c|] eqn:Hc; simpl.
  - unfold validPixels in Hv. rewrite Forall_forall in Hv.
    apply Hv. eapply list_elem_of_lookup_2; eauto.
  - unfold validColor; simpl; lia.
Qed.

Lemma threshold_values o :
  getDynamicThreshold o = 20480 \/ getDynamicThreshold o = 23040
  \/ getDynamicThreshold o = 25600.
Proof.
  unfold getDynamicThreshold.
  destruct (fontSize o <=? sizeThresholdSmall)%float; [left; reflexivity|].
  destruct (sizeThresholdLarge <=? fontSize o)%float; [right; right|right; left]; reflexivity.
Qed.

(** C8.  The threshold is [(90-10)*256] for a font size [<= 12],
    [90*256] for a size strictly between 12 and 24 and [(90+10)*256] for a
    size [>= 24]; the three values increase strictly; and on every pixel
    of 8-bit channels the white/black test of [Image] and the bit [Send]
    computes are the same comparison against [getDynamicThreshold]. *)
Theorem dynamic_threshold :
  (forall o, (fontSize o <=? 12)%float = true -> getDynamicThreshold o = (90 - 10) * 256)
  /\ (forall o, (12 <? fontSize o)%float = true -> (fontSize o <? 24)%float = true ->
                getDynamicThreshold o = 90 * 256)
  /\ (forall o, (24 <=? fontSize o)%float = true -> getDynamicThreshold o = (90 + 10) * 256)
  /\ (forall o1 o2 o3,
        (fontSize o1 <=? 12)%float = true ->
        (12 <? fontSize o2)%float = true -> (fontSize o2 <? 24)%float = true ->
        (24 <=? fontSize o3)%float = true ->
        getDynamicThreshold o1 < getDynamicThreshold o2 < getDynamicThreshold o3)
  /\ (forall o grayImg x y,
        validPixels grayImg ->
        imageBit o grayImg x y = (sendBit (set_image grayImg o) x y =? 1)).
Proof.
  assert (Hs : forall o, (fontSize o <=? 12)%float = true -> getDynamicThreshold o = 20480).
  { intros o Hle. unfold getDynamicThreshold, sizeThresholdSmall. rewrite Hle. reflexivity. }
  assert (Hm : forall o, (12 <? fontSize o)%float = true -> (fontSize o <? 24)%float = true ->
                         getDynamicThreshold o = 23040).
  { intros o H1 H2. unfold getDynamicThreshold, sizeThresholdSmall, sizeThresholdLarge.
    rewrite (above_12_not_small _ H1), (below_24_not_large _ H2). reflexivity. }
  assert (Hl : forall o, (24 <=? fontSize o)%float = true -> getDynamicThreshold o = 25600).
  { intros o Hge. unfold getDynamicThreshold, sizeThresholdSmall, sizeThresholdLarge.
    rewrite (large_not_small _ Hge), Hge. reflexivity. }
  split; [exact Hs|]. split; [exact Hm|]. split; [exact Hl|]. split.
  - intros o1 o2 o3 H1 H2 H2' H3.
    rewrite (Hs _ H1), (Hm _ H2 H2'), (Hl _ H3). lia.
  - intros o grayImg x y Hv.
    pose proof (At_valid grayImg x y Hv) as (Hr & Hg & Hb & Ha).
    unfold imageBit, sendBit. cbn [image set_image].
    change (getDynamicThreshold (set_image grayImg o)) with (getDynamicThreshold o).
    unfold RGBA.
    pose proof (channel_range _ _ Hr Ha) as Cr.
    pose proof (channel_range _ _ Hg Ha) as Cg.
    pose proof (channel_range _ _ Hb Ha) as Cb.
    set (r := Z.lor (cR _) _ * _ / 255) in *.
    set (g := Z.lor (cG _) _ * _ / 255) in *.
    set (b := Z.lor (cB _) _ * _ / 255) in *.
    assert (Hsum : Go.uint32 (r + g + b) = r + g + b)
      by (unfold Go.uint32; apply Z.mod_small; lia).
    assert (Hq : 0 <= (r + g + b) / 3 <= 65535)
      by (split; [apply Z.div_pos; lia | apply Z.div_le_upper_bound; lia]).
    rewrite Hsum.
    unfold Go.uint16, Go.uint32. rewrite !(Z.mod_small ((r + g + b) / 3)) by lia.
    destruct (threshold_values o) as [-> | [-> | ->]];
      rewrite Z.mod_small by lia;
      destruct (_ <? (r + g + b) / 3); reflexivity.
Qed.

Lemma dynamic_threshold_witness :
  getDynamicThreshold (SetFontSize 10 Bench.bootOled) = (90 - 10) * 256
  /\ getDynamicThreshold (SetFontSize 14 Bench.bootOled) = 90 * 256
  /\ getDynamicThreshold (SetFontSize 24 Bench.bootOled) = (90 + 10) * 256
  /\ imageBit Bench.bootOled (Set_ (NewNRGBA 2 2) 1 1 White) 1 1
     = (sendBit (set_image (Set_ (NewNRGBA 2 2) 1 1 White) Bench.bootOled) 1 1 =? 1).
Proof.
  destruct dynamic_threshold as (Hs & Hm & Hl & _ & Hsame).
  split; [apply Hs; reflexivity|].
  split; [apply Hm; reflexivity|].
  split; [apply Hl; reflexivity|].
  apply Hsame. vm_compute. repeat constructor; discriminate.
Defined.

End Threshold.

(** ** The canvas: [Clear], [New], [Send] *)
Module Canvas.
Import NanoHatOLED Obs GoFacts PixelBuffer.

Lemma sameCanvas_refl o : sameCanvas o o.
Proof. unfold sameCanvas. repeat split. Qed.

Lemma sameCanvas_trans o1 o2 o3 : sameCanvas o1 o2 -> sameCanvas o2 o3 -> sameCanvas o1 o3.
Proof. unfold sameCanvas. intuition congruence. Qed.

(** The clearing loop, read through lookups. *)
Lemma zero_loop_lookup n : forall s (b : list Z) i,
  foldl (fun acc i => <[i := 0]> acc) b (seq s n) !! i
  = if decide (s <= i < s + n /\ i < length b)%nat then Some 0 else b !! i.
Proof.
  induction n as [|n IH]; intros s b i; simpl.
  - destruct (decide _) as [Hd|Hd]; [lia | reflexivity].
  - rewrite IH, length_insert.
    destruct (decide (i = s)) as [->|Hne].
    + destruct (decide (S s <= s < S s + n /\ s < length b)%nat) as [Hd|_]; [lia|].
      destruct (decide (s <= s < s + S n /\ s < length b)%nat) as [Hd|Hd].
      * apply list_lookup_insert_eq. lia.
      * rewrite list_insert_ge by lia. reflexivity.
    + rewrite list_lookup_insert_ne by congruence.
      destruct (decide (S s <= i < S s + n /\ i < length b)%nat) as [Hd|Hd];
        destruct (decide (s <= i < s + S n /\ i < length b)%nat) as [Hd'|Hd'];
        try reflexivity; lia.
Qed.

Lemma zero_loop_length n : forall s (b : list Z),
  length (foldl (fun acc i => <[i := 0]> acc) b (seq s n)) = length b.
Proof.
  induction n as [|n IH]; intros s b; simpl; [reflexivity|].
  rewrite IH, length_insert. reflexivity.
Qed.

Lemma zeroData_lookup (b : list Z) i :
  zeroData b !! i = if decide (1 <= i < length b)%nat then Some 0 else b !! i.
Proof.
  unfold zeroData. rewrite zero_loop_lookup.
  destruct (decide (1 <= i < 1 + (length b - 1) /\ i < length b)%nat);
    destruct (decide (1 <= i < length b)%nat); try reflexivity; lia.
Qed.

Lemma zeroData_length (b : list Z) : length (zeroData b) = length b.
Proof. apply zero_loop_length. Qed.

Lemma zeroData_cleared (b : list Z) : dataCleared (zeroData b).
Proof.
  intros i Hi. rewrite zeroData_length in Hi. rewrite zeroData_lookup.
  destruct (decide _); [reflexivity | lia].
Qed.

Lemma zeroData_head (b : list Z) : zeroData b !! 0%nat = b !! 0%nat.
Proof. rewrite zeroData_lookup. destruct (decide _); [lia | reflexivity]. Qed.

Lemma zeroData_bytes (b : list Z) :
  Forall (fun x => 0 <= x < 256) b -> Forall (fun x => 0 <= x < 256) (zeroData b).
Proof.
  intros Hb. apply Forall_lookup. intros i x Hx.
  rewrite zeroData_lookup in Hx. destruct (decide _).
  - injection Hx as <-. lia.
  - rewrite Forall_lookup in Hb. eapply Hb; eauto.
Qed.

(** [draw] and [Clear] touch the bus and, for [Clear], the canvas and the
    data bytes; nothing else. *)
Lemma draw_spec o : exists e d, draw o = (e, set_dev d o).
Proof.
  unfold draw, write.
  destruct (devWrite _ (dev o)) as [[e|] d]; simpl.
  - eexists _, d. reflexivity.
  - destruct (devWrite (buf o) d) as [e' d']. eexists e', d'.
    destruct o; reflexivity.
Qed.

Lemma Clear_spec o :
  exists e d,
    Clear o = (e, set_dev d (set_buf (zeroData (buf o)) (set_image (freshCanvas (rotation o)) o))).
Proof.
  unfold Clear, freshCanvas.
  destruct ((rotation o =? 90) || (rotation o =? 270)); apply draw_spec.
Qed.

Lemma zeroed_wf o : wfOled o -> wfOled (set_buf (zeroData (buf o)) o).
Proof.
  intros (Hw & Hh & Hlen & Hall). unfold wfOled. cbn [w h buf set_buf].
  rewrite zeroData_length. repeat split; try assumption.
  apply zeroData_bytes; assumption.
Qed.

Lemma New_spec rot o :
  exists d,
    New rot o
    = set_dev d (set_buf (zeroData (buf o))
                         (set_image (freshCanvas rot)
                                    (set_rotationState false (set_rotation rot o)))).
Proof.
  unfold New.
  destruct (Clear_spec (set_rotationState false (set_rotation rot o))) as (e & d & ->).
  exists d. unfold freshCanvas. cbn [rotation set_rotation set_rotationState].
  destruct ((rot =? 90) || (rot =? 270)); destruct o; reflexivity.
Qed.

(** A loop whose body keeps an invariant and returns no error runs to
    its end. *)
Lemma forEach_inv (P : NanoOled -> Prop) xs body o :
  P o ->
  (forall x o1, x ∈ xs -> P o1 -> exists o2, body x o1 = Some (None, o2) /\ P o2) ->
  exists o', forEach xs body o = Some (None, o') /\ P o'.
Proof.
  revert o. induction xs as [|x xs IH]; intros o HP Hbody; simpl.
  - exists o. split; [reflexivity | assumption].
  - destruct (Hbody x o ltac:(left) HP) as (o2 & -> & HP2).
    apply IH; [assumption|].
    intros y o1 Hy. apply Hbody. right. assumption.
Qed.

Lemma sendBit_binary o x y : sendBit o x y = 0 \/ sendBit o x y = 1.
Proof.
  unfold sendBit. destruct (RGBA _) as [[[r g] b] a].
  destruct (_ <? _); [right | left]; reflexivity.
Qed.

Section WithImaging.
Context `{Imaging}.

Lemma applyRotation_wf o : wfOled o -> wfOled (applyRotation o).
Proof.
  intros Hwf. unfold applyRotation.
  destruct (negb (rotationState o)); [|assumption].
  destruct (rotation o =? 90); [exact Hwf|].
  destruct (rotation o =? 180); [exact Hwf|].
  destruct (rotation o =? 270); [exact Hwf|assumption].
Qed.

(** On a well-formed controller [Send] neither panics nor fails in
    [setPixel]; it changes the buffer and the bus and, through the
    rotation step, the canvas and the flag. *)
Lemma Send_spec o :
  wfOled o ->
  exists e o',
    Send o = Some (e, o') /\ wfOled o' /\ sameCanvas (applyRotation o) o'.
Proof.
  intros Hwf. apply applyRotation_wf in Hwf.
  unfold Send. set (o_r := applyRotation o) in *.
  set (endX := if w o_r <=? _ then w o_r else _).
  set (endY := if h o_r <=? _ then h o_r else _).
  assert (HX : endX <= 128).
  { unfold endX. destruct Hwf as (-> & _). destruct (128 <=? _) eqn:E; [lia|].
    apply Z.leb_gt in E. lia. }
  assert (HY : endY <= 64).
  { unfold endY. destruct Hwf as (_ & -> & _). destruct (64 <=? _) eqn:E; [lia|].
    apply Z.leb_gt in E. lia. }
  destruct (forEach_inv (fun o' => wfOled o' /\ sameCanvas o_r o')
              (seqZ 0 endX)
              (fun i => forEach (seqZ 0 endY) (fun j o => setPixel i j (sendBit o i j) o))
              o_r) as (o1 & -> & Hwf1 & Hsame1).
  - split; [assumption | apply sameCanvas_refl].
  - intros i o1 Hi (Hwf1 & Hs1). apply elem_of_seqZ in Hi.
    apply (forEach_inv (fun o' => wfOled o' /\ sameCanvas o_r o')).
    + split; assumption.
    + intros j o2 Hj (Hwf2 & Hs2). apply elem_of_seqZ in Hj.
      destruct (setPixel i j (sendBit o2 i j) o2) as [[e o3]|] eqn:Hsp.
      * destruct (setPixel_wf o2 i j _ o3 e Hwf2 ltac:(lia) ltac:(lia)
                    (sendBit_binary o2 i j) Hsp) as (-> & Hwf3 & Hs3).
        exists o3. split; [reflexivity|]. split; [assumption|].
        eapply sameCanvas_trans; eassumption.
      * rewrite (setPixel_in o2 i j _ Hwf2 ltac:(lia) ltac:(lia) (sendBit_binary o2 i j)) in Hsp.
        discriminate Hsp.
  - destruct (draw_spec o1) as (e & d & ->).
    exists e, (set_dev d o1). split; [reflexivity|].
    split; [exact Hwf1 | exact Hsame1].
Qed.
End WithImaging.

Lemma At_fresh W H x y : At (NewNRGBA W H) x y = transparent.
Proof.
  unfold At, NewNRGBA. destruct (inBounds _ x y); [|reflexivity].
  cbn [Pix]. destruct (replicate _ transparent !! _) as [c|] eqn:Hc; [|reflexivity].
  apply lookup_replicate in Hc as [-> _]. reflexivity.
Qed.

Lemma sendBit_fresh o rot x y : image o = freshCanvas rot -> sendBit o x y = 0.
Proof.
  intros Himg. unfold sendBit. rewrite Himg.
  assert (Hat : At (freshCanvas rot) x y = transparent)
    by (unfold freshCanvas; destruct ((rot =? 90) || (rot =? 270)); apply At_fresh).
  rewrite Hat. change (RGBA transparent) with (0, 0, 0, 0). cbv beta iota zeta.
  change (Go.uint32 (Go.uint32 (0 + 0 + 0) / 3)) with 0.
  destruct (Z.ltb_spec (Go.uint32 (getDynamicThreshold o)) 0) as [Hlt|_]; [|reflexivity].
  unfold Go.uint32 in Hlt.
  pose proof (Z.mod_pos_bound (getDynamicThreshold o) 4294967296 ltac:(lia)). lia.
Qed.

(** Clearing a pixel of a buffer whose data bytes are zero changes nothing. *)
Lemma setPixel_cleared o x y :
  wfOled o -> dataCleared (buf o) -> 0 <= x < 128 -> 0 <= y < 64 ->
  setPixel x y 0 o = Some (None, o).
Proof.
  intros Hwf Hz Hx Hy.
  rewrite (setPixel_in o x y 0 Hwf Hx Hy ltac:(left; reflexivity)).
  pose proof (pixelIndex_range x y Hx Hy) as Hi.
  assert (Hlk : buf o !! pixelIndex x y = Some 0).
  { apply Hz. destruct Hwf as (_ & _ & -> & _). lia. }
  unfold stored. cbv zeta. rewrite Hlk. cbn [default Z.eqb].
  rewrite Z.land_0_l, list_insert_id by exact Hlk.
  destruct o; reflexivity.
Qed.

Section Flush.
Context `{Imaging}.

(** Flushing a blank canvas over a cleared buffer, with no rotation
    configured: the pixel loops change nothing and the buffer goes to
    the bus as it is. *)
Lemma Send_blank o :
  wfOled o -> rotation o = 0 -> image o = freshCanvas 0 -> dataCleared (buf o) ->
  Send o = Some (draw o).
Proof.
  intros Hwf Hrot Himg Hz.
  assert (Hr : applyRotation o = o).
  { unfold applyRotation. rewrite Hrot. destruct (negb _); reflexivity. }
  unfold Send. rewrite Hr.
  set (endX := if w o <=? _ then w o else _).
  set (endY := if h o <=? _ then h o else _).
  assert (HX : endX <= 128).
  { unfold endX. destruct Hwf as (-> & _). destruct (128 <=? _) eqn:E; [lia|].
    apply Z.leb_gt in E. lia. }
  assert (HY : endY <= 64).
  { unfold endY. destruct Hwf as (_ & -> & _). destruct (64 <=? _) eqn:E; [lia|].
    apply Z.leb_gt in E. lia. }
  destruct (forEach_inv (fun o' => o' = o) (seqZ 0 endX)
              (fun i => forEach (seqZ 0 endY) (fun j o => setPixel i j (sendBit o i j) o))
              o eq_refl) as (o1 & -> & ->); [|reflexivity].
  intros i o1 Hi ->. apply elem_of_seqZ in Hi.
  apply (forEach_inv (fun o' => o' = o)); [reflexivity|].
  intros j o2 Hj ->. apply elem_of_seqZ in Hj.
  exists o. split; [|reflexivity].
  rewrite (sendBit_fresh o 0 i j Himg).
  apply setPixel_cleared; try assumption; lia.
Qed.

(** C9.  With a rotation of 90, 180 or 270 degrees configured and the
    flag clear, [Send] replaces the canvas by its rotation and sets the
    flag; with the flag set, [Send] leaves the canvas as it is and the
    flag set; [New] clears the flag and installs a fresh canvas; so after
    [New] the first [Send] rotates the fresh canvas and the second does
    not rotate again. *)
Theorem Send_rotates_once :
  (forall o, wfOled o -> rotationState o = false ->
             rotation o = 90 \/ rotation o = 180 \/ rotation o = 270 ->
             exists e o', Send o = Some (e, o')
                          /\ image o' = rotateBy (rotation o) (image o)
                          /\ rotationState o' = true /\ rotation o' = rotation o
                          /\ wfOled o')
  /\ (forall o, wfOled o -> rotationState o = true ->
                exists e o', Send o = Some (e, o')
                             /\ image o' = image o
                             /\ rotationState o' = true /\ rotation o' = rotation o
                             /\ wfOled o')
  /\ (forall o rot, wfOled o ->
                    rotationState (New rot o) = false /\ rotation (New rot o) = rot
                    /\ image (New rot o) = freshCanvas rot /\ wfOled (New rot o))
  /\ (forall o rot, wfOled o -> rot = 90 \/ rot = 180 \/ rot = 270 ->
                    exists e1 o1 e2 o2,
                      Send (New rot o) = Some (e1, o1)
                      /\ image o1 = rotateBy rot (freshCanvas rot)
                      /\ Send o1 = Some (e2, o2)
                      /\ image o2 = image o1).
Proof.
  assert (First : forall o, wfOled o -> rotationState o = false ->
             rotation o = 90 \/ rotation o = 180 \/ rotation o = 270 ->
             exists e o', Send o = Some (e, o')
                          /\ image o' = rotateBy (rotation o) (image o)
                          /\ rotationState o' = true /\ rotation o' = rotation o
                          /\ wfOled o').
  { intros o Hwf Hflag Hrot.
    destruct (Send_spec o Hwf) as (e & o' & Hs & Hwf' & Hsame).
    exists e, o'. split; [exact Hs|].
    destruct Hsame as (_ & _ & Hr & Hrs & Himg & _).
    unfold applyRotation, rotateBy in *. rewrite Hflag in *. cbn [negb] in *.
    destruct Hrot as [E | [E | E]]; rewrite E in *; cbn in Himg, Hrs, Hr |- *;
      rewrite E in Hr; exact (conj Himg (conj Hrs (conj Hr Hwf'))). }
  assert (Later : forall o, wfOled o -> rotationState o = true ->
                exists e o', Send o = Some (e, o')
                             /\ image o' = image o
                             /\ rotationState o' = true /\ rotation o' = rotation o
                             /\ wfOled o').
  { intros o Hwf Hflag.
    destruct (Send_spec o Hwf) as (e & o' & Hs & Hwf' & Hsame).
    exists e, o'. split; [exact Hs|].
    destruct Hsame as (_ & _ & Hr & Hrs & Himg & _).
    unfold applyRotation in *. rewrite Hflag in *. cbn [negb] in *.
    rewrite Hflag in Hrs. exact (conj Himg (conj Hrs (conj Hr Hwf'))). }
  assert (Reset : forall o rot, wfOled o ->
                    rotationState (New rot o) = false /\ rotation (New rot o) = rot
                    /\ image (New rot o) = freshCanvas rot /\ wfOled (New rot o)).
  { intros o rot Hwf. destruct (New_spec rot o) as (d & ->).
    repeat split; try reflexivity; try apply Hwf.
    - cbn [buf set_dev set_buf]. rewrite zeroData_length. apply Hwf.
    - cbn [buf set_dev set_buf]. apply zeroData_bytes, Hwf. }
  split; [exact First|]. split; [exact Later|]. split; [exact Reset|].
  intros o rot Hwf Hrot.
  destruct (Reset o rot Hwf) as (Hflag & Hr & Himg & Hwf0).
  destruct (First (New rot o) Hwf0 Hflag ltac:(rewrite Hr; exact Hrot))
    as (e1 & o1 & Hs1 & Himg1 & Hflag1 & _ & Hwf1).
  destruct (Later o1 Hwf1 Hflag1) as (e2 & o2 & Hs2 & Himg2 & _).
  exists e1, o1, e2, o2. rewrite Hr, Himg in Himg1.
  exact (conj Hs1 (conj Himg1 (conj Hs2 Himg2))).
Qed.
End Flush.

Lemma Send_rotates_once_witness :
  exists e1 o1 e2 o2,
    Send (New 90 Bench.bootOled) = Some (e1, o1)
    /\ image o1 = rotateBy 90 (freshCanvas 90)
    /\ Send o1 = Some (e2, o2)
    /\ image o2 = image o1.
Proof.
  destruct (@Send_rotates_once Bench.imaging) as (_ & _ & _ & Hboth).
  apply (Hboth Bench.bootOled 90 PixelClaims.bootOled_wf). left. reflexivity.
Defined.

End Canvas.

(** ** The drawing paths never panic *)
Module Drawing.
Import NanoHatOLED Main Obs Canvas.

Lemma Clear_wf o : wfOled o -> wfOled (snd (Clear o)).
Proof.
  intros Hwf. destruct (Clear_spec o) as (e & d & ->). cbn [snd].
  apply (zeroed_wf o) in Hwf. exact Hwf.
Qed.

Lemma New_wf rot o : wfOled o -> wfOled (New rot o).
Proof.
  intros Hwf. destruct (New_spec rot o) as (d & ->).
  apply (zeroed_wf o) in Hwf. exact Hwf.
Qed.

Lemma set_image_wf img o : wfOled o -> wfOled (set_image img o).
Proof. intros Hwf. exact Hwf. Qed.

Lemma SetFontSize_wf size o : wfOled o -> wfOled (SetFontSize size o).
Proof. intros Hwf. exact Hwf. Qed.

Lemma SetBold_wf isBold o : wfOled o -> wfOled (SetBold isBold o).
Proof. intros Hwf. destruct isBold; exact Hwf. Qed.

Lemma Rect_wf x0 y0 x1 y1 c o : wfOled o -> wfOled (Rect x0 y0 x1 y1 c o).
Proof.
  intros Hwf. unfold Rect. cbv zeta.
  match goal with |- context [if ?c then o else _] => destruct c end; exact Hwf.
Qed.

Lemma Text_wf `{Freetype} x y text c o : wfOled o -> wfOled (Text x y text c o).
Proof. intros Hwf. exact Hwf. Qed.

Section WithHost.
Context `{Imaging} `{Freetype} `{Host}.

Lemma oledSend_total a :
  wfOled (oled a) -> exists o, oledSend a = Some (set_oled o a) /\ wfOled o.
Proof.
  intros Hwf. destruct (Send_spec (oled a) Hwf) as (e & o & Hs & Hwf' & _).
  exists o. unfold oledSend. rewrite Hs. split; [reflexivity | exact Hwf'].
Qed.

(** The lemmas above, applied along the syntax of the drawing calls. *)
Ltac wf_steps Hwf :=
  repeat lazymatch goal with
    | |- wfOled (Text _ _ _ _ _) => apply Text_wf
    | |- wfOled (Rect _ _ _ _ _ _) => apply Rect_wf
    | |- wfOled (SetFontSize _ _) => apply SetFontSize_wf
    | |- wfOled (SetBold _ _) => apply SetBold_wf
    | |- wfOled (New _ _) => apply New_wf
    | |- wfOled (snd (Clear _)) => apply Clear_wf
    | |- wfOled (set_image _ _) => apply set_image_wf
    end;
  exact Hwf.

Ltac app_fields :=
  cbn [oled pageIndex pageSleepCount drawing shutdownFlag shutdownSelect lastPageIndex
       lastTimeStr lastShutdownSel staticDrawn logged reads exited
       set_oled set_pageIndex set_pageSleepCount set_drawing set_shutdownFlag
       set_shutdownSelect set_lastPageIndex set_lastTimeStr set_lastShutdownSel
       set_staticDrawn set_reads set_exited].

(** Flush the state [x] the goal sends, then close the goal: the result is
    [x] with the flushed controller and the page fields the caller sets. *)
Ltac send_and_close Hwf :=
  match goal with
  | |- context [oledSend ?x] =>
      let o' := fresh "o'" in
      let Hwf' := fresh "Hwf'" in
      destruct (oledSend_total x ltac:(app_fields; wf_steps Hwf)) as (o' & -> & Hwf');
      eexists; split; [reflexivity|]; app_fields;
      split; [exact Hwf'|]; repeat split
  end.

(** [drawNonTimePage] returns, having recorded the page it drew. *)
Lemma drawNonTimePage_total a :
  wfOled (oled a) ->
  exists a', drawNonTimePage a = Some a' /\ wfOled (oled a')
             /\ lastPageIndex a' = pageIndex a /\ lastShutdownSel a' = shutdownSelect a
             /\ pageIndex a' = pageIndex a /\ shutdownSelect a' = shutdownSelect a
             /\ drawing a' = drawing a /\ shutdownFlag a' = shutdownFlag a
             /\ pageSleepCount a' = pageSleepCount a.
Proof.
  intros Hwf. destruct a as [o pi psc dr sf ss lpi lts lss sd lg rd ex].
  cbn [oled] in Hwf.
  unfold drawNonTimePage, readHost, onOled, oledClear. app_fields.
  destruct (pi =? 1); [|destruct (pi =? 3); [destruct (ss =? 0)|]];
    send_and_close Hwf.
Qed.

Lemma drawTimePageStatic_total a :
  wfOled (oled a) ->
  exists a', drawTimePageStatic a = Some a' /\ wfOled (oled a')
             /\ pageIndex a' = pageIndex a /\ shutdownSelect a' = shutdownSelect a
             /\ shutdownFlag a' = shutdownFlag a /\ pageSleepCount a' = pageSleepCount a.
Proof.
  intros Hwf. destruct a as [o pi psc dr sf ss lpi lts lss sd lg rd ex].
  cbn [oled] in Hwf.
  unfold drawTimePageStatic, readHost, onOled, oledClear. app_fields.
  send_and_close Hwf.
Qed.

Lemma updateTimeOnly_total a :
  wfOled (oled a) ->
  exists a', updateTimeOnly a = Some a' /\ wfOled (oled a')
             /\ pageIndex a' = pageIndex a /\ shutdownSelect a' = shutdownSelect a
             /\ shutdownFlag a' = shutdownFlag a /\ pageSleepCount a' = pageSleepCount a
             /\ lastPageIndex a' = lastPageIndex a.
Proof.
  intros Hwf. destruct a as [o pi psc dr sf ss lpi lts lss sd lg rd ex].
  cbn [oled] in Hwf.
  unfold updateTimeOnly, clearTimeArea, readHost, onOled. app_fields.
  destruct (String.eqb _ lts).
  - eexists. split; [reflexivity|]. app_fields. split; [exact Hwf|]. repeat split.
  - send_and_close Hwf.
Qed.

(** [drawPage] returns on every state whose controller is well formed, and
    leaves it well formed. *)
Lemma drawPage_total a :
  wfOled (oled a) -> exists a', drawPage a = Some a' /\ wfOled (oled a').
Proof.
  intros Hwf. unfold drawPage.
  destruct (drawing a || shutdownFlag a); [exists a; split; [reflexivity | exact Hwf]|].
  destruct (pageSleepCount a <=? 0).
  - destruct (pageSleepCount a =? 0); [|exists a; split; [reflexivity | exact Hwf]].
    destruct (oledSend_total (oledClear a)) as (o' & -> & Hwf');
      [unfold oledClear; cbn [oled set_oled]; apply Clear_wf, Hwf|].
    eexists. split; [reflexivity | exact Hwf'].
  - set (a0 := set_drawing true (set_pageSleepCount _ a)).
    assert (Hwf0 : wfOled (oled a0)) by exact Hwf.
    destruct (pageIndex a0 =? 0).
    + destruct (negb (staticDrawn a0) || negb (lastPageIndex a0 =? 0)).
      * destruct (drawTimePageStatic_total a0 Hwf0) as (a' & -> & Hwf' & _).
        eexists. split; [reflexivity | exact Hwf'].
      * destruct (updateTimeOnly_total a0 Hwf0) as (a' & -> & Hwf' & _).
        eexists. split; [reflexivity | exact Hwf'].
    + destruct ((pageIndex a0 =? 1) || (pageIndex a0 =? 3));
        [|eexists; split; [reflexivity | exact Hwf0]].
      destruct (negb (pageIndex a0 =? lastPageIndex a0)
                || (pageIndex a0 =? 3) && negb (shutdownSelect a0 =? lastShutdownSel a0));
        [|eexists; split; [reflexivity | exact Hwf0]].
      destruct (drawNonTimePage_total a0 Hwf0) as (a' & -> & Hwf' & _).
      eexists. split; [reflexivity | exact Hwf'].
Qed.

(** With the gate open and the countdown running, [drawPage] on page 3
    draws the confirmation page whenever it is not the page last drawn. *)
Lemma drawPage_draws_confirm a :
  wfOled (oled a) -> drawing a = false -> shutdownFlag a = false ->
  0 < pageSleepCount a -> pageIndex a = 3 -> lastPageIndex a <> 3 ->
  exists a', drawPage a = Some a' /\ lastPageIndex a' = 3
             /\ lastShutdownSel a' = shutdownSelect a /\ pageIndex a' = 3.
Proof.
  intros Hwf Hd Hf Hc Hp Hl. unfold drawPage. rewrite Hd, Hf. cbn [orb].
  replace (pageSleepCount a <=? 0) with false by (symmetry; apply Z.leb_gt; lia).
  set (a0 := set_drawing true (set_pageSleepCount _ a)).
  assert (Hwf0 : wfOled (oled a0)) by exact Hwf.
  change (pageIndex a0) with (pageIndex a). change (lastPageIndex a0) with (lastPageIndex a).
  rewrite Hp.
  replace (3 =? lastPageIndex a) with false by (symmetry; apply Z.eqb_neq; congruence).
  change (3 =? 0) with false. change ((3 =? 1) || (3 =? 3)) with true.
  cbn [negb orb].
  destruct (drawNonTimePage_total a0 Hwf0) as (a' & -> & _ & Hl' & Hs' & Hp' & _).
  eexists. split; [reflexivity|]. cbn [lastPageIndex lastShutdownSel pageIndex set_drawing].
  change (pageIndex a0) with (pageIndex a) in *.
  change (shutdownSelect a0) with (shutdownSelect a) in *.
  rewrite Hl', Hs', Hp', Hp. repeat split.
Qed.

(** [main] reaches its loop on every well-formed controller, with the page
    variables of [Bench.bootApp]. *)
Lemma startup_total o :
  wfOled o ->
  exists a, startup o = Some a /\ wfOled (oled a)
            /\ pageIndex a = 0 /\ pageSleepCount a = pageSleep /\ drawing a = false
            /\ shutdownFlag a = false /\ shutdownSelect a = 1 /\ lastPageIndex a = -1
            /\ lastShutdownSel a = -1 /\ staticDrawn a = false.
Proof.
  intros Hwf. unfold startup, onOled, oledClear, logPrintln. app_fields.
  destruct (negb logoPresent).
  - send_and_close Hwf.
  - unfold Image. destruct (imagingOpen _); app_fields; send_and_close Hwf.
Qed.
End WithHost.

End Drawing.

(** ** The page state machine: handlers and [drawPage] *)
Module Pages.
Import NanoHatOLED Main Obs GoFacts PixelBuffer Canvas.

Lemma toggle_select v : v = 0 \/ v = 1 -> Z.rem (Go.wrapInt (v + 1)) 2 = 1 - v.
Proof. intros [-> | ->]; vm_compute; reflexivity. Qed.

(** C1.  With [shutdownSelect] in {0, 1}: a K1 press on page 3 keeps the
    page and toggles [shutdownSelect], on any other page it sets the page
    to 0; a K3 press on page 3 sets the page to 0, on any other page it
    sets the page to 3 and [shutdownSelect] to 1. *)
Theorem K1_K3_transitions a :
  shutdownSelect a = 0 \/ shutdownSelect a = 1 ->
  (pageIndex a = 3 ->
     pageIndex (handleK1 a) = 3 /\ shutdownSelect (handleK1 a) = 1 - shutdownSelect a
     /\ (shutdownSelect (handleK1 a) = 0 \/ shutdownSelect (handleK1 a) = 1))
  /\ (pageIndex a <> 3 ->
        pageIndex (handleK1 a) = 0 /\ shutdownSelect (handleK1 a) = shutdownSelect a)
  /\ (pageIndex a = 3 ->
        pageIndex (handleK3 a) = 0 /\ shutdownSelect (handleK3 a) = shutdownSelect a)
  /\ (pageIndex a <> 3 ->
        pageIndex (handleK3 a) = 3 /\ shutdownSelect (handleK3 a) = 1).
Proof.
  intros Hsel.
  unfold handleK1, handleK3, handleK1_locked, handleK3_locked, resetSleepCount, logPrintln.
  cbn [pageIndex shutdownSelect set_staticDrawn set_pageSleepCount].
  split; [|split; [|split]]; intros Hp.
  - rewrite Hp. cbn. rewrite (toggle_select _ Hsel). repeat split; lia.
  - apply Z.eqb_neq in Hp. rewrite Hp. split; reflexivity.
  - rewrite Hp. split; reflexivity.
  - apply Z.eqb_neq in Hp. rewrite Hp. split; reflexivity.
Qed.

Lemma K1_K3_transitions_witness :
  pageIndex (handleK1 (handleK3 Bench.bootApp)) = 3
  /\ shutdownSelect (handleK1 (handleK3 Bench.bootApp)) = 1 - shutdownSelect (handleK3 Bench.bootApp)
  /\ (shutdownSelect (handleK1 (handleK3 Bench.bootApp)) = 0
      \/ shutdownSelect (handleK1 (handleK3 Bench.bootApp)) = 1).
Proof.
  apply (K1_K3_transitions (handleK3 Bench.bootApp)); [right; reflexivity | reflexivity].
Defined.

(** The handlers keep [shutdownSelect] in {0, 1}, where [main] puts it. *)
Lemma press_keeps_select b a :
  shutdownSelect a = 0 \/ shutdownSelect a = 1 ->
  shutdownSelect (press b a) = 0 \/ shutdownSelect (press b a) = 1.
Proof.
  intros Hsel. destruct b; unfold press.
  - destruct (Z.eq_dec (pageIndex a) 3) as [Hp|Hp].
    + apply (K1_K3_transitions a Hsel), Hp.
    + destruct (K1_K3_transitions a Hsel) as (_ & H2 & _).
      destruct (H2 Hp) as (_ & ->). exact Hsel.
  - unfold handleK2, handleK2_locked, resetSleepCount, logPrintln.
    cbn [pageIndex shutdownSelect set_staticDrawn set_pageSleepCount].
    destruct (pageIndex a =? 3); [destruct (shutdownSelect a =? 0)|]; exact Hsel.
  - destruct (Z.eq_dec (pageIndex a) 3) as [Hp|Hp].
    + destruct (K1_K3_transitions a Hsel) as (_ & _ & H3 & _).
      destruct (H3 Hp) as (_ & ->). exact Hsel.
    + destruct (K1_K3_transitions a Hsel) as (_ & _ & _ & H4).
      destruct (H4 Hp) as (_ & ->). right. reflexivity.
Qed.

(** No handler lowers the shutdown flag, and every handler re-arms the
    sleep countdown and drops the static-part flag. *)
Lemma press_keeps_flag b a : shutdownFlag a = true -> shutdownFlag (press b a) = true.
Proof.
  intros Hf. destruct b; unfold press, handleK1, handleK2, handleK3, handleK1_locked,
    handleK2_locked, handleK3_locked, resetSleepCount, logPrintln;
    cbn [pageIndex shutdownSelect set_staticDrawn set_pageSleepCount];
    destruct (pageIndex a =? 3); try destruct (shutdownSelect a =? 0); cbn; try assumption;
    reflexivity.
Qed.

Lemma press_rearms b a :
  pageSleepCount (press b a) = pageSleep /\ staticDrawn (press b a) = false
  /\ oled (press b a) = oled a /\ drawing (press b a) = drawing a
  /\ lastPageIndex (press b a) = lastPageIndex a.
Proof.
  destruct b; unfold press, handleK1, handleK2, handleK3, handleK1_locked,
    handleK2_locked, handleK3_locked, resetSleepCount, logPrintln;
    cbn [pageIndex shutdownSelect set_staticDrawn set_pageSleepCount];
    destruct (pageIndex a =? 3); try destruct (shutdownSelect a =? 0);
    repeat split.
Qed.

Section WithHost.
Context `{Imaging} `{Freetype} `{Host}.

(** The gate at the head of [drawPage]. *)
Lemma drawPage_gate a :
  drawing a = true \/ shutdownFlag a = true -> drawPage a = Some a.
Proof.
  intros Hg. unfold drawPage.
  assert (Hc : drawing a || shutdownFlag a = true)
    by (apply orb_true_iff; exact Hg).
  rewrite Hc. reflexivity.
Qed.

Lemma runEvents_after_shutdown evs : forall a,
  shutdownFlag a = true ->
  exists a',
    runEvents evs a = Some a' /\ shutdownFlag a' = true
    /\ oled a' = oled a /\ lastPageIndex a' = lastPageIndex a.
Proof.
  induction evs as [|ev evs IH]; intros a Hf; simpl.
  - exists a. repeat split; assumption.
  - destruct ev as [b|]; unfold handleEvent.
    + pose proof (press_keeps_flag b a Hf) as Hf'.
      rewrite (drawPage_gate _ (or_intror Hf')).
      destruct (IH _ Hf') as (a' & Hr & Hfa & Ho & Hl).
      destruct (press_rearms b a) as (_ & _ & Ho' & _ & Hl').
      exists a'. rewrite Hr, Ho, Hl, Ho', Hl'. repeat split; assumption.
    + rewrite (drawPage_gate _ (or_intror Hf)). apply IH, Hf.
Qed.
End WithHost.

(** C2 (as stated, refuted).  From the state [main] starts with, K3, K1
    and K2 raise the shutdown flag on page 3; a further K3 press then
    sets the page to 0: the handlers do not look at the flag. *)
Lemma shutdown_flag_counterexample :
  shutdownFlag (presses [BtnK3; BtnK1; BtnK2] Bench.bootApp) = true
  /\ pageIndex (presses [BtnK3; BtnK1; BtnK2] Bench.bootApp) = 3
  /\ pageIndex (press BtnK3 (presses [BtnK3; BtnK1; BtnK2] Bench.bootApp)) = 0.
Proof. repeat split. Qed.

(** C2 (amended).  With [shutdownSelect] in {0, 1}: a K2 press on page 3
    raises the shutdown flag when [shutdownSelect = 0] and sets the page
    to 0 when [shutdownSelect = 1]; on any other page it sets the page to
    1.  Once the flag is raised it stays raised through every later press
    and heartbeat, each [drawPage] is a no-op, and the controller (canvas,
    buffer, bus) and the last drawn page stay as they were. *)
Theorem K2_transitions `{Imaging} `{Freetype} `{Host} a :
  shutdownSelect a = 0 \/ shutdownSelect a = 1 ->
  (pageIndex a = 3 -> shutdownSelect a = 0 ->
     shutdownFlag (handleK2 a) = true /\ pageIndex (handleK2 a) = 3)
  /\ (pageIndex a = 3 -> shutdownSelect a = 1 ->
        pageIndex (handleK2 a) = 0 /\ shutdownFlag (handleK2 a) = shutdownFlag a)
  /\ (pageIndex a <> 3 ->
        pageIndex (handleK2 a) = 1 /\ shutdownFlag (handleK2 a) = shutdownFlag a)
  /\ (shutdownFlag a = true ->
        forall evs, exists a',
          runEvents evs a = Some a' /\ shutdownFlag a' = true
          /\ oled a' = oled a /\ lastPageIndex a' = lastPageIndex a).
Proof.
  intros Hsel.
  unfold handleK2, handleK2_locked, resetSleepCount, logPrintln.
  cbn [pageIndex shutdownSelect set_staticDrawn set_pageSleepCount].
  split; [|split; [|split]].
  - intros Hp Hs. rewrite Hp, Hs. split; reflexivity.
  - intros Hp Hs. rewrite Hp, Hs. split; reflexivity.
  - intros Hp. apply Z.eqb_neq in Hp. rewrite Hp. split; reflexivity.
  - intros Hf evs. apply runEvents_after_shutdown, Hf.
Qed.

Lemma K2_transitions_witness :
  shutdownFlag (handleK2 (presses [BtnK3; BtnK1] Bench.bootApp)) = true
  /\ pageIndex (handleK2 (presses [BtnK3; BtnK1] Bench.bootApp)) = 3.
Proof.
  apply (@K2_transitions Bench.imaging Bench.freetype Bench.host
           (presses [BtnK3; BtnK1] Bench.bootApp));
    [left; reflexivity | reflexivity | reflexivity].
Defined.

Section Sleep.
Context `{Imaging} `{Freetype} `{Host}.

Lemma heartbeats_fixed a : drawPage a = Some a -> forall n, heartbeats n a = Some a.
Proof.
  intros Hd n. induction n as [|n IH]; simpl; [reflexivity|].
  rewrite Hd. exact IH.
Qed.

(** C4.  With the gate open (no draw in progress, no shutdown) and no
    rotation configured, as in [main]: when the countdown is 0,
    [drawPage] clears the data bytes of the buffer, keeps the framing
    byte, and pins the countdown at -1; every further heartbeat
    [drawPage] returns the state as it is, buffer and bus included; a
    press of any button sets the countdown back to [pageSleep] and
    clears [staticDrawn]. *)
Theorem sleep_clears_once a :
  wfOled (oled a) -> rotation (oled a) = 0 ->
  drawing a = false -> shutdownFlag a = false -> pageSleepCount a = 0 ->
  exists a1,
    drawPage a = Some a1
    /\ pageSleepCount a1 = -1
    /\ dataCleared (buf (oled a1))
    /\ buf (oled a1) !! 0%nat = buf (oled a) !! 0%nat
    /\ (forall n, heartbeats n a1 = Some a1)
    /\ (forall b, pageSleepCount (press b a1) = pageSleep
                  /\ staticDrawn (press b a1) = false).
Proof.
  intros Hwf Hrot Hd Hf Hc.
  destruct (Clear_spec (oled a)) as (e & d & HClear).
  set (o1 := set_dev d (set_buf (zeroData (buf (oled a)))
                                (set_image (freshCanvas (rotation (oled a))) (oled a)))) in *.
  assert (Hwf1 : wfOled o1) by (apply (zeroed_wf (oled a)) in Hwf; exact Hwf).
  assert (HSend : Send o1 = Some (draw o1)).
  { apply Send_blank; [exact Hwf1 | exact Hrot | | apply zeroData_cleared].
    unfold o1. cbn [image set_dev set_buf set_image]. rewrite Hrot. reflexivity. }
  destruct (draw_spec o1) as (e2 & d2 & Hdraw).
  set (a1 := set_pageSleepCount (-1)
               (set_lastPageIndex (-1)
                  (set_staticDrawn false (set_oled (set_dev d2 o1) a)))).
  assert (Hrun : drawPage a = Some a1).
  { unfold drawPage. rewrite Hd, Hf, Hc. cbn [orb Z.leb Z.eqb Z.compare].
    unfold oledClear, oledSend. rewrite HClear. cbn [snd oled set_oled].
    rewrite HSend, Hdraw. reflexivity. }
  exists a1. split; [exact Hrun|]. split; [reflexivity|].
  split; [apply zeroData_cleared|]. split; [apply zeroData_head|]. split.
  - apply heartbeats_fixed. unfold drawPage.
    change (drawing a1) with (drawing a). change (shutdownFlag a1) with (shutdownFlag a).
    rewrite Hd, Hf. reflexivity.
  - intros b. destruct (press_rearms b a1) as (Hp & Hs & _). split; assumption.
Qed.
End Sleep.

Lemma sleep_clears_once_witness :
  exists a1,
    drawPage (set_pageSleepCount 0 Bench.bootApp) = Some a1
    /\ pageSleepCount a1 = -1
    /\ dataCleared (buf (oled a1))
    /\ buf (oled a1) !! 0%nat = buf (oled (set_pageSleepCount 0 Bench.bootApp)) !! 0%nat
    /\ (forall n, heartbeats n a1 = Some a1)
    /\ (forall b, pageSleepCount (press b a1) = pageSleep
                  /\ staticDrawn (press b a1) = false).
Proof.
  apply (@sleep_clears_once Bench.imaging Bench.freetype Bench.host
           (set_pageSleepCount 0 Bench.bootApp));
    [exact PixelClaims.bootOled_wf | reflexivity | reflexivity | reflexivity | reflexivity].
Defined.

End Pages.

(** ** The goroutines under [pageMutex] *)
Module Locking.
Import NanoHatOLED Main Obs Sched Pages.

Lemma set_pc_same t pc f : set_pc t pc f t = pc.
Proof. unfold set_pc. destruct (decide (t = t)); [reflexivity | congruence]. Qed.

Lemma set_pc_other t t' pc f : t' <> t -> set_pc t pc f t' = f t'.
Proof. intros Hne. unfold set_pc. destruct (decide (t' = t)); [congruence | reflexivity]. Qed.

Lemma entry_not_holding t :
  holdsLock (match t with Heartbeat => In SecCheck Acquire | _ => Entered end) = false.
Proof. destruct t; reflexivity. Qed.

Lemma next_not_holding t s b : holdsLock (next t s b) = false.
Proof. destruct s; try reflexivity. destruct b; reflexivity. Qed.

Section WithHost.
Context `{Imaging} `{Freetype} `{Host}.

Lemma lockInv_boot a : lockInv (boot a).
Proof. intros t. cbn. split; discriminate. Qed.

(** A move that neither takes nor gives the mutex, by a goroutine whose
    holding status does not change. *)
Lemma lockInv_move m t pc' a' flag tr :
  lockInv m -> holdsLock pc' = holdsLock (pcs m t) ->
  lockInv (mkMachine a' (holder m) (set_pc t pc' (pcs m)) flag tr).
Proof.
  intros Hinv Hsame t'. cbn [pcs holder].
  destruct (decide (t' = t)) as [->|Hne].
  - rewrite set_pc_same, Hsame. apply Hinv.
  - rewrite set_pc_other by exact Hne. apply Hinv.
Qed.

Lemma lockInv_step t m m' : lockInv m -> step t m = Some m' -> lockInv m'.
Proof.
  intros Hinv Hstep. unfold step in Hstep.
  destruct (exited (app m)); [discriminate|].
  destruct (pcs m t) as [| |s [| |]] eqn:Hpc.
  - injection Hstep as <-. apply lockInv_move; [exact Hinv|].
    rewrite Hpc. apply entry_not_holding.
  - injection Hstep as <-. apply lockInv_move; [exact Hinv|].
    rewrite Hpc. reflexivity.
  - destruct (holder m) as [t0|] eqn:Hh; [discriminate|].
    injection Hstep as <-. intros t'. cbn [pcs holder].
    destruct (decide (t' = t)) as [->|Hne].
    + rewrite set_pc_same. split; reflexivity.
    + rewrite set_pc_other by exact Hne. split.
      * intros Hl. apply Hinv in Hl. congruence.
      * intros Heq. congruence.
  - destruct (action t s (app m)) as [a'|]; [|discriminate].
    injection Hstep as <-. apply lockInv_move; [exact Hinv|].
    rewrite Hpc. reflexivity.
  - injection Hstep as <-. intros t'. cbn [pcs holder].
    assert (Hheld : holder m = Some t) by (apply Hinv; rewrite Hpc; reflexivity).
    destruct (decide (t' = t)) as [->|Hne].
    + rewrite set_pc_same, next_not_holding. split; discriminate.
    + rewrite set_pc_other by exact Hne. split; [|discriminate].
      intros Hl. apply Hinv in Hl. congruence.
Qed.

Lemma lockInv_reachable a m : reachable a m -> lockInv m.
Proof.
  induction 1 as [|m t m' _ IH Hstep]; [apply lockInv_boot|].
  eapply lockInv_step; eassumption.
Qed.

(** [drawing] is set and cleared inside one locked section. *)
Lemma oledSend_spec a a' : oledSend a = Some a' -> exists o, a' = set_oled o a.
Proof.
  unfold oledSend. destruct (Send (oled a)) as [[e o]|]; [|discriminate].
  intros [= <-]. exists o. reflexivity.
Qed.

Lemma drawPage_drawing a a' :
  drawPage a = Some a' -> drawing a = false -> drawing a' = false.
Proof.
  unfold drawPage. intros Hrun Hd. rewrite Hd in Hrun. cbn [orb] in Hrun.
  destruct (shutdownFlag a); [injection Hrun as <-; exact Hd|].
  destruct (pageSleepCount a <=? 0).
  - destruct (pageSleepCount a =? 0); [|injection Hrun as <-; exact Hd].
    destruct (oledSend (oledClear a)) as [a2|] eqn:Hs; [|discriminate].
    injection Hrun as <-. apply oledSend_spec in Hs as (o & ->). exact Hd.
  - match type of Hrun with
    | match ?r with _ => _ end = _ => destruct r as [a2|]; [|discriminate]
    end.
    injection Hrun as <-. reflexivity.
Qed.

Lemma doShutdown_drawing a a' : doShutdown a = Some a' -> drawing a' = drawing a.
Proof.
  unfold doShutdown. intros Hrun.
  match type of Hrun with
  | match oledSend ?x with _ => _ end = _ =>
      destruct (oledSend x) as [a2|] eqn:Hs1; [|discriminate]
  end.
  destruct (oledSend (oledClear a2)) as [a3|] eqn:Hs2; [|discriminate].
  injection Hrun as <-.
  apply oledSend_spec in Hs1 as (o1 & ->). apply oledSend_spec in Hs2 as (o2 & ->).
  reflexivity.
Qed.

Lemma action_drawing t s a a' :
  action t s a = Some a' -> drawing a = false -> drawing a' = false.
Proof.
  destruct s; cbn [action]; intros Hrun Hd.
  - injection Hrun as <-. exact Hd.
  - destruct t; injection Hrun as <-; try exact Hd;
      unfold handleK1_locked, handleK2_locked, handleK3_locked;
      destruct (pageIndex a =? 3); try destruct (shutdownSelect a =? 0); exact Hd.
  - eapply drawPage_drawing; eassumption.
  - injection Hrun as <-. exact Hd.
  - rewrite (doShutdown_drawing _ _ Hrun). exact Hd.
Qed.

Lemma drawing_reachable a m : drawing a = false -> reachable a m -> drawing (app m) = false.
Proof.
  intros Hd. induction 1 as [|m t m' _ IH Hstep]; [exact Hd|].
  unfold step in Hstep.
  destruct (exited (app m)); [discriminate|].
  destruct (pcs m t) as [| |s [| |]].
  - injection Hstep as <-. exact IH.
  - injection Hstep as <-. exact IH.
  - destruct (holder m); [discriminate|]. injection Hstep as <-. exact IH.
  - destruct (action t s (app m)) as [a'|] eqn:Ha; [|discriminate].
    injection Hstep as <-. eapply action_drawing; eassumption.
  - injection Hstep as <-. exact IH.
Qed.

(** C5.  [drawPage] returns the state as it is (pixel buffer, canvas and
    bus included) whenever [drawing] or [shutdownFlag] is set; and in
    every state the goroutines can reach, two goroutines are never both
    inside a locked section, so never both in [drawPage], and [drawing]
    is clear whenever a section is entered. *)
Theorem drawPage_gated :
  (forall a, drawing a = true \/ shutdownFlag a = true -> drawPage a = Some a)
  /\ (forall a m, drawing a = false -> reachable a m ->
        drawing (app m) = false
        /\ forall t1 t2 s1 s2,
             pcs m t1 = In s1 Run -> pcs m t2 = In s2 Run -> t1 = t2).
Proof.
  split; [exact drawPage_gate|].
  intros a m Hd Hreach. split; [eapply drawing_reachable; eassumption|].
  intros t1 t2 s1 s2 H1' H2'.
  pose proof (lockInv_reachable a m Hreach) as Hinv.
  assert (E1 : holder m = Some t1) by (apply Hinv; rewrite H1'; reflexivity).
  assert (E2 : holder m = Some t2) by (apply Hinv; rewrite H2'; reflexivity).
  congruence.
Qed.
End WithHost.

Lemma drawPage_gated_witness :
  drawPage (set_shutdownFlag true Bench.bootApp) = Some (set_shutdownFlag true Bench.bootApp)
  /\ drawing (app (boot Bench.bootApp)) = false.
Proof.
  destruct (@drawPage_gated Bench.imaging Bench.freetype Bench.host) as (Hgate & Hmutex).
  split.
  - apply Hgate. right. reflexivity.
  - apply (Hmutex Bench.bootApp (boot Bench.bootApp)); [reflexivity | apply reach_boot].
Defined.

Lemma run_reachable `{Imaging} `{Freetype} `{Host} a sched : forall m0 m,
  reachable a m0 -> run sched m0 = Some m -> reachable a m.
Proof.
  induction sched as [|t rest IH]; intros m0 m Hr Hrun; simpl in Hrun.
  - injection Hrun as <-. exact Hr.
  - destruct (step t m0) as [m1|] eqn:Hs; [|discriminate].
    eapply IH; [|exact Hrun]. eapply reach_step; eassumption.
Qed.

(** C10 (as stated, refuted).  K1 is pressed, its handler sets page 0 and
    releases the mutex; before K1's [drawPage] takes the mutex, K3's
    handler runs and sets page 3.  K1 then holds the mutex at the start of
    its [drawPage] with K3's sections in the trace after its own handler,
    and that [drawPage] draws page 3. *)
Lemma press_atomic_counterexample :
  option_map (fun m => pageIndex (app m)) (run (replicate 8 K1) (boot Bench.bootApp)) = Some 0
  /\ run interleaved (boot Bench.bootApp) = Some (machineAfter interleaved Bench.bootApp)
  /\ trace (machineAfter interleaved Bench.bootApp)
     = [(K1, SecReset); (K1, SecHandle); (K3, SecReset); (K3, SecHandle)]
  /\ pressAtomic (trace (machineAfter interleaved Bench.bootApp)) = false
  /\ pcs (machineAfter interleaved Bench.bootApp) K1 = In SecDraw Run
  /\ holder (machineAfter interleaved Bench.bootApp) = Some K1
  /\ pageIndex (app (machineAfter interleaved Bench.bootApp)) = 3
  /\ exists a', drawPage (app (machineAfter interleaved Bench.bootApp)) = Some a'
                /\ lastPageIndex a' = 3.
Proof.
  assert (E : app (machineAfter interleaved Bench.bootApp)
              = mkApp Bench.bootOled 3 10 false false 1 (-1) "" (-1) false
                      ["K1 pressed"%string; "K3 pressed"%string] 0 false)
    by (vm_compute; reflexivity).
  repeat (split; [vm_compute; reflexivity|]).
  rewrite E.
  destruct (Drawing.drawPage_draws_confirm
              (mkApp Bench.bootOled 3 10 false false 1 (-1) "" (-1) false
                     ["K1 pressed"%string; "K3 pressed"%string] 0 false))
    as (a' & Hrun & Hlast & _).
  - exact PixelClaims.bootOled_wf.
  - reflexivity.
  - reflexivity.
  - reflexivity.
  - reflexivity.
  - discriminate.
  - exists a'. split; assumption.
Qed.

(** C10 (amended).  In every state the goroutines can reach: a goroutine
    that is running or leaving a locked section (the countdown reset, the
    locked part of a handler, [drawPage], the flag check, [doShutdown])
    holds [pageMutex]; no two goroutines are inside locked sections at
    once; and a goroutine that is about to enter a section - as each
    handler is between its mutation and its [drawPage] - does not hold the
    mutex. *)
Theorem sections_serialized `{Imaging} `{Freetype} `{Host} a m :
  reachable a m ->
  (forall t s, pcs m t = In s Run \/ pcs m t = In s Release -> holder m = Some t)
  /\ (forall t1 t2, holdsLock (pcs m t1) = true -> holdsLock (pcs m t2) = true -> t1 = t2)
  /\ (forall t s, pcs m t = In s Acquire -> holder m <> Some t).
Proof.
  intros Hreach. pose proof (lockInv_reachable a m Hreach) as Hinv.
  split; [|split].
  - intros t s [Hpc | Hpc]; apply Hinv; rewrite Hpc; reflexivity.
  - intros t1 t2 H1' H2'. apply Hinv in H1', H2'. congruence.
  - intros t s Hpc Hheld. apply Hinv in Hheld. rewrite Hpc in Hheld. discriminate.
Qed.

Lemma sections_serialized_witness :
  holder (machineAfter [K1; K1; K1; K1] Bench.bootApp) = Some K1.
Proof.
  destruct (@sections_serialized Bench.imaging Bench.freetype Bench.host Bench.bootApp
              (machineAfter [K1; K1; K1; K1] Bench.bootApp)) as (Hheld & _).
  - apply (run_reachable Bench.bootApp [K1; K1; K1; K1] (boot Bench.bootApp));
      [apply reach_boot | vm_compute; reflexivity].
  - apply (Hheld K1 SecReset). right. vm_compute. reflexivity.
Defined.

End Locking.

(** ** The year-progress bar *)
Module Progress.
Import Main Obs GoFacts SpecFloat.
Local Open Scope string_scope.
Local Open Scope Z_scope.

Lemma trunc_floor_clamp f t fl :
  Go.truncSF f = Some t -> floorSF f = Some fl ->
  Go.minInt <= fl <= Go.maxInt ->
  Go.minInt <= t <= Go.maxInt /\ Z.max 0 (Z.min 10 t) = Z.max 0 (Z.min 10 fl).
Proof.
  unfold Go.minInt, Go.maxInt, Go.intBits.
  destruct f as [s|s| |s m e]; simpl; try discriminate.
  - intros [= <-] [= <-]. lia.
  - intros [= <-] [= <-].
    destruct (0 <=? e) eqn:He.
    + destruct s; lia.
    + destruct s; [|lia].
      apply Z.leb_gt in He.
      assert (Hd : 0 < 2 ^ (- e)) by (apply Z.pow_pos_nonneg; lia).
      pose proof (Z.div_mod (Z.pos m) (2 ^ (- e)) ltac:(lia)) as E1.
      pose proof (Z.mod_pos_bound (Z.pos m) (2 ^ (- e)) Hd) as B1.
      pose proof (Z.div_mod (Z.neg m) (2 ^ (- e)) ltac:(lia)) as E2.
      pose proof (Z.mod_pos_bound (Z.neg m) (2 ^ (- e)) Hd) as B2.
      set (d := 2 ^ (- e)) in *.
      set (q1 := Z.pos m / d) in *. set (q2 := Z.neg m / d) in *.
      assert (0 <= q1) by (apply Z.div_pos; lia).
      assert (q2 <= - q1) by nia.
      intros Hfl. lia.
Qed.

Lemma yearBarLen_range now : 0 <= yearBarLen now <= 10.
Proof.
  unfold yearBarLen.
  destruct (Z.ltb_spec (Go.int_of_float64 (yearPercent now / 10)) 0); [lia|].
  destruct (Z.ltb_spec 10 (Go.int_of_float64 (yearPercent now / 10))); lia.
Qed.

(** C7 (as stated, refuted).  One second before 2026 the elapsed share is
    99.99999683 percent: its tenth truncates to 9, so 9 cells are filled,
    not 10, while the text shows the rounded [100.0%]. *)
Lemma year_end_counterexample :
  Bench.newYearsEve
    = mkInstant (nextYearStartUnix Bench.newYearsEve - 1) 1735689600 1767225600
                "Wed 31 Dec 2025" "23:59:59"
  /\ yearBarLen Bench.newYearsEve = 9
  /\ getYearProgressText Bench.newYearsEve
     = Fmt.Repeat Fmt.darkShade 9 ++ Fmt.Repeat Fmt.lightShade 1 ++ "100.0%".
Proof. repeat split; vm_compute; reflexivity. Qed.

(** C7 (amended).  The text is a bar of [n] filled and [10 - n] unfilled
    cells followed by the percentage to one decimal and a percent sign,
    where [n], between 0 and 10, is the floor of a tenth of the percentage
    clamped to [0, 10].  In a year of 365 or 366 days: at the first second
    of the year no cell is filled and the text ends in [0.0%]; one second
    before the next year 9 cells are filled and the text ends in
    [100.0%]. *)
Theorem year_progress now :
  getYearProgressText now
    = (Fmt.Repeat Fmt.darkShade (yearBarLen now)
       ++ Fmt.Repeat Fmt.lightShade (10 - yearBarLen now))
      ++ Fmt.f1 (yearPercent now) ++ "%"
  /\ 0 <= yearBarLen now <= 10
  /\ (forall fl, floorSF (Prim2SF (yearPercent now / 10)) = Some fl ->
                 Go.minInt <= fl <= Go.maxInt ->
                 yearBarLen now = Z.max 0 (Z.min 10 fl))
  /\ (wholeYear now -> unix now = yearStartUnix now ->
        yearBarLen now = 0
        /\ getYearProgressText now = Fmt.Repeat Fmt.lightShade 10 ++ "0.0%")
  /\ (wholeYear now -> unix now = nextYearStartUnix now - 1 ->
        yearBarLen now = 9
        /\ getYearProgressText now
           = Fmt.Repeat Fmt.darkShade 9 ++ Fmt.Repeat Fmt.lightShade 1 ++ "100.0%").
Proof.
  split; [reflexivity|]. split; [apply yearBarLen_range|]. split; [|split].
  - intros fl Hfl Hr. unfold yearBarLen, Go.int_of_float64.
    destruct (Go.truncSF (Prim2SF (yearPercent now / 10))) as [t|] eqn:Ht.
    + destruct (trunc_floor_clamp _ _ _ Ht Hfl Hr) as (Hin & Hclamp).
      replace ((Go.minInt <=? t) && (t <=? Go.maxInt)) with true
        by (symmetry; apply andb_true_iff; split; apply Z.leb_le; lia).
      rewrite <- Hclamp.
      destruct (Z.ltb_spec t 0); [lia|]. destruct (Z.ltb_spec 10 t); lia.
    + destruct (Prim2SF (yearPercent now / 10)); simpl in *; discriminate.
  - intros Hyear Hnow.
    unfold getYearProgressText, yearBarLen, yearPercent. rewrite Hnow, Z.sub_diag.
    destruct Hyear as [-> | ->]; split; vm_compute; reflexivity.
  - intros Hyear Hnow.
    unfold getYearProgressText, yearBarLen, yearPercent. rewrite Hnow.
    replace (nextYearStartUnix now - 1 - yearStartUnix now)
      with (nextYearStartUnix now - yearStartUnix now - 1) by lia.
    destruct Hyear as [-> | ->]; split; vm_compute; reflexivity.
Qed.

Lemma year_progress_witness :
  yearBarLen Bench.newYear = 0
  /\ getYearProgressText Bench.newYear = Fmt.Repeat Fmt.lightShade 10 ++ "0.0%".
Proof.
  destruct (year_progress Bench.newYear) as (_ & _ & _ & Hstart & _).
  apply Hstart; [left; reflexivity | reflexivity].
Defined.

End Progress.

(** ** More on [setPixel]: one call, one pixel *)
Module PixelExtra.
Import NanoHatOLED Obs GoFacts PixelBuffer.

Lemma byteShl_pow k : 0 <= k < 8 -> Go.byteShl 1 k = 2 ^ k.
Proof.
  intros Hk. unfold Go.byteShl, Go.uint8. rewrite Z.shiftl_1_l.
  apply Z.mod_small. split; [apply Z.pow_nonneg; lia|].
  change 256 with (2 ^ 8). apply Z.pow_lt_mono_r; lia.
Qed.

Lemma testbit_255 k : 0 <= k < 8 -> Z.testbit 255 k = true.
Proof. intros Hk. change 255 with (Z.ones 8). apply Z.ones_spec_low. lia. Qed.

Lemma set_keeps_other_bits b k k' :
  0 <= k < 8 -> 0 <= k' -> k' <> k ->
  Z.testbit (Z.lor b (Go.byteShl 1 k)) k' = Z.testbit b k'.
Proof.
  intros Hk Hk' Hne. rewrite byteShl_pow by exact Hk.
  rewrite Z.lor_spec, Z.pow2_bits_eqb by lia.
  replace (k =? k') with false by (symmetry; apply Z.eqb_neq; lia).
  apply orb_false_r.
Qed.

Lemma clear_keeps_other_bits b k k' :
  0 <= k < 8 -> 0 <= k' < 8 -> k' <> k ->
  Z.testbit (Z.land b (Go.byteNot (Go.byteShl 1 k))) k' = Z.testbit b k'.
Proof.
  intros Hk Hk' Hne. rewrite byteShl_pow by exact Hk. unfold Go.byteNot.
  rewrite Z.land_spec, Z.lxor_spec, Z.pow2_bits_eqb, testbit_255 by lia.
  replace (k =? k') with false by (symmetry; apply Z.eqb_neq; lia).
  apply andb_true_r.
Qed.

Lemma stored_bit o x y v :
  wfOled o -> onPanel x y -> v = 0 \/ v = 1 ->
  Z.testbit (stored o x y v) (Z.land y 7) = (v =? 1).
Proof.
  intros Hwf (Hx & Hy) Hv.
  pose proof (pixelIndex_range x y Hx Hy) as Hi.
  pose proof (wf_lookup o (pixelIndex x y) Hwf ltac:(lia)) as Hb.
  pose proof (byte_facts _ _ Hb (land7_range y)) as Hf.
  unfold byteFacts in Hf. cbv zeta in Hf.
  repeat (apply andb_prop in Hf; destruct Hf as [Hf ?]).
  unfold stored. cbv zeta. destruct Hv as [-> | ->]; cbn [Z.eqb Pos.eqb].
  - apply negb_true_iff. assumption.
  - assumption.
Qed.

Lemma stored_other_bits o x y v k' :
  0 <= k' < 8 -> k' <> Z.land y 7 ->
  Z.testbit (stored o x y v) k' = Z.testbit (default 0 (buf o !! pixelIndex x y)) k'.
Proof.
  intros Hk' Hne. unfold stored. cbv zeta.
  destruct (v =? 0).
  - apply clear_keeps_other_bits; [apply land7_range | exact Hk' | exact Hne].
  - apply set_keeps_other_bits; [apply land7_range | lia | exact Hne].
Qed.

(** Two panel coordinates with the same byte and the same bit are equal. *)
Lemma pixel_address_injective x y x' y' :
  onPanel x y -> onPanel x' y' ->
  pixelIndex x y = pixelIndex x' y' -> Z.land y 7 = Z.land y' 7 -> x = x' /\ y = y'.
Proof.
  intros (Hx & Hy) (Hx' & Hy') Hi Hb.
  unfold pixelIndex in Hi. rewrite !Z.quot_div_nonneg in Hi by lia.
  change 7 with (Z.ones 3) in Hb. rewrite !Z.land_ones in Hb by lia.
  change (2 ^ 3) with 8 in Hb.
  assert (0 <= y / 8 < 8) by (split; [apply Z.div_pos; lia | apply Z.div_lt_upper_bound; lia]).
  assert (0 <= y' / 8 < 8) by (split; [apply Z.div_pos; lia | apply Z.div_lt_upper_bound; lia]).
  apply Z2Nat.inj in Hi; [|lia|lia].
  pose proof (Z.div_mod y 8 ltac:(lia)). pose proof (Z.div_mod y' 8 ltac:(lia)).
  lia.
Qed.

(** The bits of the buffer once the byte [setPixel] computes is stored. *)
Lemma setPixel_bits o x y v :
  wfOled o -> onPanel x y -> v = 0 \/ v = 1 ->
  pixelBit (set_buf (<[pixelIndex x y := stored o x y v]> (buf o)) o) x y = (v =? 1)
  /\ (forall x' y', onPanel x' y' -> (x', y') <> (x, y) ->
         pixelBit (set_buf (<[pixelIndex x y := stored o x y v]> (buf o)) o) x' y'
         = pixelBit o x' y').
Proof.
  intros Hwf Hp Hv. pose proof Hp as (Hx & Hy).
  pose proof (pixelIndex_range x y Hx Hy) as Hi.
  pose proof Hwf as (Hw & Hh & Hlen & Hall).
  split.
  - unfold pixelBit. cbn [buf set_buf].
    rewrite list_lookup_insert_eq by lia. cbn [default].
    apply stored_bit; assumption.
  - intros x' y' Hp' Hne. unfold pixelBit. cbn [buf set_buf].
    destruct (decide (pixelIndex x' y' = pixelIndex x y)) as [Heq|Hneq].
    + rewrite Heq, list_lookup_insert_eq by lia. cbn [default].
      apply stored_other_bits; [apply land7_range|].
      intros Hbit. destruct (pixel_address_injective x' y' x y Hp' Hp Heq Hbit).
      congruence.
    + rewrite list_lookup_insert_ne by congruence. reflexivity.
Qed.

(** X1.  Inside the panel and with [v] in {0, 1}, [setPixel] returns no
    error, makes the addressed bit equal to [v], leaves the bit of every
    other panel pixel and the framing byte as they were, and touches
    nothing but the buffer. *)
Theorem setPixel_sets_one_pixel o x y v :
  wfOled o -> onPanel x y -> v = 0 \/ v = 1 ->
  exists o',
    setPixel x y v o = Some (None, o')
    /\ pixelBit o' x y = (v =? 1)
    /\ (forall x' y', onPanel x' y' -> (x', y') <> (x, y) ->
                      pixelBit o' x' y' = pixelBit o x' y')
    /\ buf o' !! 0%nat = buf o !! 0%nat
    /\ dev o' = dev o /\ sameCanvas o o' /\ wfOled o'.
Proof.
  intros Hwf Hp Hv. pose proof Hp as (Hx & Hy).
  pose proof (pixelIndex_range x y Hx Hy) as Hi.
  pose proof (setPixel_in o x y v Hwf Hx Hy Hv) as Hs.
  destruct (setPixel_wf _ _ _ _ _ _ Hwf Hx Hy Hv Hs) as (_ & Hwf' & Hsame).
  destruct (setPixel_bits o x y v Hwf Hp Hv) as (Hbit & Hothers).
  eexists. split; [exact Hs|].
  split; [exact Hbit|]. split; [exact Hothers|]. split.
  - cbn [buf set_buf]. rewrite list_lookup_insert_ne by lia. reflexivity.
  - split; [reflexivity|]. split; [exact Hsame | exact Hwf'].
Qed.

Lemma setPixel_sets_one_pixel_witness :
  exists o',
    setPixel 127 63 1 Bench.bootOled = Some (None, o')
    /\ pixelBit o' 127 63 = (1 =? 1)
    /\ (forall x' y', onPanel x' y' -> (x', y') <> (127, 63) ->
                      pixelBit o' x' y' = pixelBit Bench.bootOled x' y')
    /\ buf o' !! 0%nat = buf Bench.bootOled !! 0%nat
    /\ dev o' = dev Bench.bootOled /\ sameCanvas Bench.bootOled o' /\ wfOled o'.
Proof.
  apply (setPixel_sets_one_pixel Bench.bootOled 127 63 1);
    [exact PixelClaims.bootOled_wf | unfold onPanel; lia | right; reflexivity].
Defined.

(** X2.  What [setPixel] rejects: a coordinate at or beyond the width or
    the height gives the out-of-screen error, and inside those limits a
    value above 1 gives the pixel-value error; either way the controller
    is returned unchanged.  The coordinate test comes first. *)
Theorem setPixel_rejected o x y v :
  (w o <= x \/ h o <= y -> setPixel x y v o = Some (Some (ErrOutOfScreen x y (w o) (h o)), o))
  /\ (x < w o -> y < h o -> 1 < v -> setPixel x y v o = Some (Some (ErrPixelValue v), o)).
Proof. apply setPixel_rejects. Qed.

Lemma setPixel_rejected_witness :
  setPixel 128 0 7 Bench.bootOled = Some (Some (ErrOutOfScreen 128 0 128 64), Bench.bootOled)
  /\ setPixel 3 4 2 Bench.bootOled = Some (Some (ErrPixelValue 2), Bench.bootOled).
Proof.
  destruct (setPixel_rejected Bench.bootOled 128 0 7) as (Hout & _).
  destruct (setPixel_rejected Bench.bootOled 3 4 2) as (_ & Hval).
  split.
  - apply Hout. left. cbn. lia.
  - apply Hval; cbn; lia.
Defined.

(** X3.  Writing the same value to the same pixel twice is the same as
    writing it once. *)
Theorem setPixel_idempotent o x y v :
  wfOled o -> onPanel x y -> v = 0 \/ v = 1 ->
  exists o',
    setPixel x y v o = Some (None, o') /\ setPixel x y v o' = Some (None, o').
Proof.
  intros Hwf Hp Hv. pose proof Hp as (Hx & Hy).
  pose proof (pixelIndex_range x y Hx Hy) as Hi.
  pose proof (setPixel_in o x y v Hwf Hx Hy Hv) as Hs.
  destruct (setPixel_wf _ _ _ _ _ _ Hwf Hx Hy Hv Hs) as (_ & Hwf' & _).
  eexists. split; [exact Hs|].
  rewrite (setPixel_in _ x y v Hwf' Hx Hy Hv).
  pose proof (wf_lookup o (pixelIndex x y) Hwf ltac:(lia)) as Hb.
  pose proof (byte_facts _ _ Hb (land7_range y)) as Hf.
  unfold byteFacts in Hf. cbv zeta in Hf.
  repeat (apply andb_prop in Hf; destruct Hf as [Hf ?]).
  destruct Hwf as (Hw & Hh & Hlen & Hall).
  assert (Hst : stored (set_buf (<[pixelIndex x y := stored o x y v]> (buf o)) o) x y v
                = stored o x y v).
  { unfold stored at 1. cbv zeta. cbn [buf set_buf].
    rewrite list_lookup_insert_eq by lia. cbn [default].
    unfold stored. cbv zeta. cbn [id]. destruct Hv as [-> | ->]; cbn [Z.eqb]; lia. }
  rewrite Hst. cbn [buf set_buf]. rewrite list_insert_insert_eq. reflexivity.
Qed.

Lemma setPixel_idempotent_witness :
  exists o',
    setPixel 0 0 1 Bench.bootOled = Some (None, o') /\ setPixel 0 0 1 o' = Some (None, o').
Proof.
  apply (setPixel_idempotent Bench.bootOled 0 0 1);
    [exact PixelClaims.bootOled_wf | unfold onPanel; lia | right; reflexivity].
Defined.

End PixelExtra.

(** ** The bus side of the driver: [draw], [init], [Open], [Clear] *)
Module BusExtra.
Import NanoHatOLED Obs GoFacts PixelBuffer Canvas.

(** X4.  [draw] never changes anything but the device.  By the faults the
    bus has in store: with none, the addressing-window command and then the
    whole buffer (framing byte first) go out as two frames; when the first
    write fails nothing is sent and the error is wrapped as a draw-init
    error; when only the second fails the window command alone went out and
    the bare write error is returned. *)
Theorem draw_frames o :
  (faults (dev o) = [] ->
     draw o = (None,
               set_dev (mkDevice (wire (dev o)
                                    ++ [[0xa4; 0x40; 0x21; 0; Go.uint8 (w o); 0x22; 0; 7]]
                                    ++ [buf o]) []) o))
  /\ (forall fs, faults (dev o) = true :: fs ->
        draw o = (Some (ErrDrawInit ErrIO), set_dev (mkDevice (wire (dev o)) fs) o))
  /\ (forall fs, faults (dev o) = false :: true :: fs ->
        draw o = (Some ErrIO,
                  set_dev (mkDevice (wire (dev o)
                                       ++ [[0xa4; 0x40; 0x21; 0; Go.uint8 (w o); 0x22; 0; 7]])
                                    fs) o))
  /\ (forall fs, faults (dev o) = false :: false :: fs ->
        draw o = (None,
                  set_dev (mkDevice (wire (dev o)
                                       ++ [[0xa4; 0x40; 0x21; 0; Go.uint8 (w o); 0x22; 0; 7]]
                                       ++ [buf o]) fs) o)).
Proof.
  unfold draw, write, devWrite.
  split; [|split; [|split]].
  - intros ->. cbn. rewrite <- app_assoc. destruct o; reflexivity.
  - intros fs ->. cbn. reflexivity.
  - intros fs ->. cbn. destruct o; reflexivity.
  - intros fs ->. cbn. rewrite <- app_assoc. destruct o; reflexivity.
Qed.

Lemma draw_frames_witness :
  draw Bench.bootOled
  = (None,
     set_dev (mkDevice (wire (dev Bench.bootOled)
                          ++ [[0xa4; 0x40; 0x21; 0; Go.uint8 (w Bench.bootOled); 0x22; 0; 7]]
                          ++ [buf Bench.bootOled]) []) Bench.bootOled).
Proof.
  destruct (draw_frames Bench.bootOled) as (Hok & _). apply Hok. reflexivity.
Defined.

(** X5.  [init] on a 64-row panel makes three writes.  A failure of the
    first is returned at once, with nothing else attempted; a failure of
    the second (COM pins and contrast) is overwritten by the result of the
    third and never reported. *)
Theorem init_reports o f1 f2 f3 fs :
  h o = 64 -> faults (dev o) = f1 :: f2 :: f3 :: fs ->
  fst (init o) = (if f1 then Some ErrIO else if f3 then Some ErrIO else None)
  /\ faults (dev (snd (init o))) = (if f1 then f2 :: f3 :: fs else fs)
  /\ (f1 = true -> wire (dev (snd (init o))) = wire (dev o))
  /\ buf (snd (init o)) = buf o.
Proof.
  intros Hh Hf. destruct o as [[wr fl] w0 h0 b r rs img cf sz].
  cbn in Hh, Hf. subst h0 fl. unfold init, write, devWrite.
  destruct f1, f2, f3; cbn;
    (split; [reflexivity|split; [reflexivity|split; [first [reflexivity | discriminate]|reflexivity]]]).
Qed.

Lemma init_reports_witness :
  fst (init (set_dev (mkDevice [] [false; true; false]) Bench.bootOled))
  = (if false then Some ErrIO else if false then Some ErrIO else None).
Proof.
  apply (init_reports (set_dev (mkDevice [] [false; true; false]) Bench.bootOled)
           false true false []); reflexivity.
Defined.

(** X6.  Whatever [Open] returns as a controller is the 128x64 panel with
    a buffer of 1025 bytes, the framing byte [0x40] followed by zeros, no
    rotation, the regular font at size 14; it only returns one when the bus
    opened, the fonts loaded and the pins were claimed. *)
Theorem Open_controller bus fontsLoad gpioReady o :
  Open bus fontsLoad gpioReady = inl o ->
  wfOled o /\ buf o = 0x40 :: replicate 1024 0
  /\ rotation o = 0 /\ rotationState o = false
  /\ currentFont o = NormalFont /\ fontSize o = 14%float
  /\ bus <> None /\ fontsLoad = true /\ gpioReady = true.
Proof.
  unfold Open. destruct bus as [d|]; [|discriminate].
  destruct fontsLoad; [|discriminate]. cbn [negb].
  set (b0 := <[0%nat := 0x40]> (replicate (Z.to_nat (128 * (64 / 8) + 1)) 0)).
  assert (Hb0 : b0 = 0x40 :: replicate 1024 0) by (vm_compute; reflexivity).
  destruct (init _) as [[e|] o1] eqn:Hi; [discriminate|].
  destruct gpioReady; [|discriminate]. cbn [negb]. intros [= <-].
  assert (Hsame : exists d', o1 = mkOled d' 128 64 b0 0 false (mkNRGBA 0 0 []) NormalFont 14%float).
  { unfold init, write, devWrite in Hi. cbn in Hi.
    destruct (faults d) as [|[] l1]; cbn in Hi; try discriminate;
      try (destruct l1 as [|[] l2]; cbn in Hi; try discriminate;
           try (destruct l2 as [|[] l3]; cbn in Hi; try discriminate));
      injection Hi as <-; eexists; reflexivity. }
  destruct Hsame as (d' & ->).
  cbn [buf rotation rotationState currentFont fontSize]. rewrite Hb0.
  split; [|repeat split; congruence].
  unfold wfOled. cbn [w h buf]. split; [reflexivity|]. split; [reflexivity|]. split.
  - cbn [length]. rewrite length_replicate. reflexivity.
  - apply Forall_cons. split; [lia|]. apply Forall_replicate. lia.
Qed.

Lemma Open_controller_witness :
  wfOled Bench.bootOled /\ buf Bench.bootOled = 0x40 :: replicate 1024 0
  /\ rotation Bench.bootOled = 0 /\ rotationState Bench.bootOled = false
  /\ currentFont Bench.bootOled = NormalFont /\ fontSize Bench.bootOled = 14%float
  /\ Some (mkDevice [] []) <> None /\ true = true /\ true = true.
Proof.
  apply (Open_controller (Some (mkDevice [] [])) true true Bench.bootOled).
  exact PixelClaims.Open_bootOled.
Defined.

(** X7.  [Clear], whether or not the bus takes the frame: the buffer keeps
    its length and its framing byte, every data byte is zero, the canvas is
    a fresh transparent one sized for the rotation; the rotation, the
    rotation-applied flag and the font settings stay as they were. *)
Theorem Clear_effect o :
  length (buf (snd (Clear o))) = length (buf o)
  /\ buf (snd (Clear o)) !! 0%nat = buf o !! 0%nat
  /\ dataCleared (buf (snd (Clear o)))
  /\ image (snd (Clear o)) = freshCanvas (rotation o)
  /\ (forall x y, At (image (snd (Clear o))) x y = transparent)
  /\ rotation (snd (Clear o)) = rotation o
  /\ rotationState (snd (Clear o)) = rotationState o
  /\ currentFont (snd (Clear o)) = currentFont o
  /\ fontSize (snd (Clear o)) = fontSize o.
Proof.
  destruct (Clear_spec o) as (e & d & ->). cbn [snd buf image rotation rotationState
    currentFont fontSize set_dev set_buf set_image].
  split; [apply zeroData_length|]. split; [apply zeroData_head|].
  split; [apply zeroData_cleared|]. split; [reflexivity|].
  split; [|repeat split].
  intros x y. unfold freshCanvas. destruct (_ || _); apply At_fresh.
Qed.

Section WithImaging.
Context `{Imaging}.

(** X8.  [Clear] does not re-arm the rotation: after a first [Send] has
    rotated the canvas and set the flag, [Clear] installs a fresh canvas
    and the next [Send] flushes it as it is, unrotated. *)
Theorem Clear_keeps_rotation_flag o :
  wfOled o -> rotationState o = false ->
  rotation o = 90 \/ rotation o = 180 \/ rotation o = 270 ->
  exists e1 o1 e2 o2,
    Send o = Some (e1, o1) /\ rotationState o1 = true
    /\ Send (snd (Clear o1)) = Some (e2, o2)
    /\ image o2 = freshCanvas (rotation o) /\ rotationState o2 = true.
Proof.
  intros Hwf Hflag Hrot.
  destruct Send_rotates_once as (First & Later & _).
  destruct (First o Hwf Hflag Hrot) as (e1 & o1 & Hs1 & _ & Hflag1 & Hrot1 & Hwf1).
  destruct (Clear_effect o1) as (_ & _ & _ & Himg & _ & Hrot2 & Hflag2 & _).
  assert (Hwf2 : wfOled (snd (Clear o1))).
  { destruct (Clear_spec o1) as (e & d & ->). cbn [snd].
    apply (zeroed_wf o1) in Hwf1. exact Hwf1. }
  destruct (Later (snd (Clear o1)) Hwf2 ltac:(congruence))
    as (e2 & o2 & Hs2 & Himg2 & Hflag3 & _).
  exists e1, o1, e2, o2. rewrite Himg2, Himg, Hrot1.
  repeat split; assumption.
Qed.
End WithImaging.

Lemma Clear_keeps_rotation_flag_witness :
  exists e1 o1 e2 o2,
    Send (set_rotation 90 Bench.bootOled) = Some (e1, o1) /\ rotationState o1 = true
    /\ Send (snd (Clear o1)) = Some (e2, o2)
    /\ image o2 = freshCanvas (rotation (set_rotation 90 Bench.bootOled))
    /\ rotationState o2 = true.
Proof.
  apply (@Clear_keeps_rotation_flag Bench.imaging (set_rotation 90 Bench.bootOled));
    [exact PixelClaims.bootOled_wf | reflexivity | left; reflexivity].
Defined.

End BusExtra.

(** ** The canvas primitives: [Pixel], [LineH], [LineV], [Rect], [Image] *)
Module CanvasExtra.
Import NanoHatOLED Obs GoFacts.

Lemma inBounds_spec img x y :
  inBounds img x y = true <-> 0 <= x < Dx img /\ 0 <= y < Dy img.
Proof.
  unfold inBounds. rewrite !andb_true_iff, !Z.leb_le, !Z.ltb_lt. lia.
Qed.

Lemma offset_lt img x y :
  wfImage img -> inBounds img x y = true -> (offset img x y < length (Pix img))%nat.
Proof.
  intros Hwf Hin. apply inBounds_spec in Hin. unfold offset. rewrite Hwf.
  apply Z2Nat.inj_lt; nia.
Qed.

Lemma offset_inj img x y x' y' :
  inBounds img x y = true -> inBounds img x' y' = true ->
  offset img x y = offset img x' y' -> x = x' /\ y = y'.
Proof.
  intros Hin Hin' Ho. apply inBounds_spec in Hin, Hin'. unfold offset in Ho.
  apply Z2Nat.inj in Ho; [|nia|nia].
  assert (y = y') by nia. subst. lia.
Qed.

Lemma Set_wf img x y c :
  wfImage img ->
  wfImage (Set_ img x y c) /\ Dx (Set_ img x y c) = Dx img /\ Dy (Set_ img x y c) = Dy img.
Proof.
  intros Hwf. unfold Set_. destruct (inBounds img x y); [|repeat split; exact Hwf].
  unfold wfImage. cbn [Pix Dx Dy]. rewrite length_insert. repeat split. exact Hwf.
Qed.

Lemma inBounds_Set img x y c x' y' :
  inBounds (Set_ img x y c) x' y' = inBounds img x' y'.
Proof. unfold Set_. destruct (inBounds img x y); reflexivity. Qed.

(** Reading a pixel after a write. *)
Lemma At_Set img x y c x' y' :
  wfImage img ->
  At (Set_ img x y c) x' y'
  = if bool_decide (x' = x /\ y' = y) && inBounds img x y then c else At img x' y'.
Proof.
  intros Hwf. unfold At at 1. rewrite inBounds_Set.
  destruct (bool_decide_reflect (x' = x /\ y' = y)) as [[-> ->]|Hne]; cbn [andb].
  - unfold Set_. destruct (inBounds img x y) eqn:Hin.
    + cbn [Pix]. rewrite list_lookup_insert_eq by (apply offset_lt; assumption).
      reflexivity.
    + unfold At. rewrite Hin. reflexivity.
  - unfold At. destruct (inBounds img x' y') eqn:Hin'; [|reflexivity].
    unfold Set_. destruct (inBounds img x y) eqn:Hin; [|reflexivity].
    cbn [Pix Dx].
    rewrite list_lookup_insert_ne; [reflexivity|].
    intros Ho. destruct (offset_inj img x y x' y' Hin Hin' Ho). apply Hne. split; congruence.
Qed.

Lemma decide_cons_l (x' x : Z) (xs : list Z) (Q : Prop) `{Decision Q} :
  bool_decide (x' ∈ x :: xs /\ Q) = bool_decide (x' = x /\ Q) || bool_decide (x' ∈ xs /\ Q).
Proof.
  destruct (bool_decide_reflect (x' = x /\ Q)) as [[-> HQ]|Hn1]; cbn [orb].
  - apply bool_decide_eq_true. split; [left | exact HQ].
  - destruct (bool_decide_reflect (x' ∈ xs /\ Q)) as [[Hin HQ]|Hn2].
    + apply bool_decide_eq_true. split; [right; exact Hin | exact HQ].
    + apply bool_decide_eq_false. intros [Hin HQ].
      apply elem_of_cons in Hin as [->|Hin]; [apply Hn1 | apply Hn2]; split; assumption || reflexivity.
Qed.

Lemma decide_cons_r (y' y : Z) (ys : list Z) (Q : Prop) `{Decision Q} :
  bool_decide (Q /\ y' ∈ y :: ys) = bool_decide (Q /\ y' = y) || bool_decide (Q /\ y' ∈ ys).
Proof.
  destruct (bool_decide_reflect (Q /\ y' = y)) as [[HQ ->]|Hn1]; cbn [orb].
  - apply bool_decide_eq_true. split; [exact HQ | left].
  - destruct (bool_decide_reflect (Q /\ y' ∈ ys)) as [[HQ Hin]|Hn2].
    + apply bool_decide_eq_true. split; [exact HQ | right; exact Hin].
    + apply bool_decide_eq_false. intros [HQ Hin].
      apply elem_of_cons in Hin as [->|Hin]; [apply Hn1 | apply Hn2]; split; assumption || reflexivity.
Qed.

(** One row of conditional writes, then rows of rows: the shape of the
    loops of [LineH], [Rect] and [Image]. *)
Lemma paint_row (p : Z -> bool) c y xs : forall img,
  wfImage img ->
  let r := foldl (fun acc x => if p x then Set_ acc x y c else acc) img xs in
  wfImage r /\ Dx r = Dx img /\ Dy r = Dy img
  /\ forall x' y',
       At r x' y'
       = if bool_decide (x' ∈ xs /\ y' = y) && p x' && inBounds img x' y' then c
         else At img x' y'.
Proof.
  induction xs as [|x xs IH]; intros img Hwf; cbn [foldl].
  - repeat split; assumption.
  - set (img1 := if p x then Set_ img x y c else img).
    assert (H1 : wfImage img1 /\ Dx img1 = Dx img /\ Dy img1 = Dy img).
    { unfold img1. destruct (p x); [apply Set_wf; exact Hwf | repeat split; exact Hwf]. }
    destruct H1 as (Hwf1 & Hdx & Hdy).
    destruct (IH img1 Hwf1) as (Hwfr & Hdxr & Hdyr & Hat).
    split; [exact Hwfr|]. split; [congruence|]. split; [congruence|].
    intros x' y'. rewrite Hat.
    assert (Hb : inBounds img1 x' y' = inBounds img x' y')
      by (unfold inBounds; rewrite Hdx, Hdy; reflexivity).
    rewrite Hb.
    assert (Hat1 : At img1 x' y'
                   = if bool_decide (x' = x /\ y' = y) && p x && inBounds img x y then c
                     else At img x' y').
    { unfold img1. destruct (p x).
      - rewrite At_Set by exact Hwf. rewrite andb_true_r. reflexivity.
      - rewrite andb_false_r. reflexivity. }
    rewrite Hat1, decide_cons_l.
    destruct (bool_decide_reflect (x' = x /\ y' = y)) as [[Hx Hy]|_]; cbn [orb andb].
    + subst x' y'. destruct (bool_decide _); cbn [andb];
        destruct (p x); destruct (inBounds img x y); reflexivity.
    + reflexivity.
Qed.

Lemma paint_rows (p : Z -> Z -> bool) c xs ys : forall img,
  wfImage img ->
  let r := foldl (fun acc y => foldl (fun acc x => if p x y then Set_ acc x y c else acc) acc xs)
                 img ys in
  wfImage r /\ Dx r = Dx img /\ Dy r = Dy img
  /\ forall x' y',
       At r x' y'
       = if bool_decide (x' ∈ xs /\ y' ∈ ys) && p x' y' && inBounds img x' y' then c
         else At img x' y'.
Proof.
  induction ys as [|y ys IH]; intros img Hwf; cbn [foldl].
  - repeat split; try assumption. intros x' y'.
    replace (bool_decide (x' ∈ xs /\ y' ∈ [])) with false; [reflexivity|].
    symmetry. apply bool_decide_eq_false. intros [_ Hin].
    apply elem_of_nil in Hin. contradiction.
  - destruct (paint_row (fun x => p x y) c y xs img Hwf) as (Hwf1 & Hdx & Hdy & Hat1).
    set (img1 := foldl _ img xs) in *.
    destruct (IH img1 Hwf1) as (Hwfr & Hdxr & Hdyr & Hat).
    split; [exact Hwfr|]. split; [congruence|]. split; [congruence|].
    intros x' y'. rewrite Hat, Hat1.
    assert (Hb : inBounds img1 x' y' = inBounds img x' y')
      by (unfold inBounds; rewrite Hdx, Hdy; reflexivity).
    rewrite Hb, decide_cons_r.
    destruct (bool_decide_reflect (x' ∈ xs /\ y' = y)) as [[Hx Hy]|_]; cbn [orb andb].
    + subst y'. destruct (bool_decide _); cbn [andb];
        destruct (p x' y); destruct (inBounds img x' y); reflexivity.
    + reflexivity.
Qed.

Lemma clamp_low a : (if a <? 0 then 0 else a) = Z.max a 0.
Proof. destruct (Z.ltb_spec a 0); lia. Qed.

Lemma clamp_high a m : (if m <=? a then m - 1 else a) = Z.min a (m - 1).
Proof. destruct (Z.leb_spec m a); lia. Qed.

(** X9.  [Pixel] paints the one canvas point it is given when that point
    is on the panel (and inside the canvas), and is a no-op otherwise,
    negative coordinates included; it never touches the pixel buffer or
    the bus. *)
Theorem Pixel_paints o x y c :
  wfImage (image o) ->
  buf (Pixel x y c o) = buf o /\ dev (Pixel x y c o) = dev o
  /\ wfImage (image (Pixel x y c o))
  /\ (forall px py,
        At (image (Pixel x y c o)) px py
        = if bool_decide (px = x /\ py = y /\ 0 <= x < w o /\ 0 <= y < h o)
             && inBounds (image o) x y
          then paint c else At (image o) px py)
  /\ (x < 0 \/ w o <= x \/ y < 0 \/ h o <= y -> Pixel x y c o = o).
Proof.
  intros Hwf. unfold Pixel.
  destruct ((x <? 0) || (w o <=? x) || (y <? 0) || (h o <=? y)) eqn:Hout.
  - split; [reflexivity|]. split; [reflexivity|]. split; [exact Hwf|]. split; [|reflexivity].
    intros px py.
    replace (bool_decide (px = x /\ py = y /\ 0 <= x < w o /\ 0 <= y < h o)) with false;
      [reflexivity|].
    symmetry. apply bool_decide_eq_false.
    rewrite !orb_true_iff, !Z.ltb_lt, !Z.leb_le in Hout. lia.
  - rewrite !orb_false_iff, !Z.ltb_ge, !Z.leb_gt in Hout.
    cbn [buf dev image set_image].
    split; [reflexivity|]. split; [reflexivity|]. split; [apply Set_wf, Hwf|]. split; [|lia].
    intros px py. rewrite At_Set by exact Hwf. fold (paint c).
    replace (bool_decide (px = x /\ py = y /\ 0 <= x < w o /\ 0 <= y < h o))
      with (bool_decide (px = x /\ py = y)); [reflexivity|].
    apply bool_decide_ext. lia.
Qed.

Lemma Pixel_paints_witness :
  buf (Pixel 3 4 true (New 0 Bench.bootOled)) = buf (New 0 Bench.bootOled)
  /\ forall px py,
       At (image (Pixel 3 4 true (New 0 Bench.bootOled))) px py
       = if bool_decide (px = 3 /\ py = 4 /\ 0 <= 3 < w (New 0 Bench.bootOled)
                         /\ 0 <= 4 < h (New 0 Bench.bootOled))
            && inBounds (image (New 0 Bench.bootOled)) 3 4
         then paint true else At (image (New 0 Bench.bootOled)) px py.
Proof.
  destruct (Pixel_paints (New 0 Bench.bootOled) 3 4 true) as (Hb & _ & _ & Hat & _).
  - destruct (Canvas.New_spec 0 Bench.bootOled) as (d & ->). reflexivity.
  - exact (conj Hb Hat).
Defined.

(** X10.  [Rect] paints exactly the canvas points of the rectangle clipped
    to the panel, corners included, and nothing when the clipped rectangle
    is empty; it never touches the pixel buffer or the bus. *)
Theorem Rect_paints o X0 Y0 X1 Y1 c :
  wfImage (image o) ->
  buf (Rect X0 Y0 X1 Y1 c o) = buf o /\ dev (Rect X0 Y0 X1 Y1 c o) = dev o
  /\ wfImage (image (Rect X0 Y0 X1 Y1 c o))
  /\ forall px py,
       At (image (Rect X0 Y0 X1 Y1 c o)) px py
       = if bool_decide (Z.max X0 0 <= px <= Z.min X1 (w o - 1)
                         /\ Z.max Y0 0 <= py <= Z.min Y1 (h o - 1))
            && inBounds (image o) px py
         then paint c else At (image o) px py.
Proof.
  intros Hwf. unfold Rect. cbv zeta.
  rewrite !clamp_low, !clamp_high.
  set (x0 := Z.max X0 0). set (y0 := Z.max Y0 0).
  set (x1 := Z.min X1 (w o - 1)). set (y1 := Z.min Y1 (h o - 1)).
  destruct ((x1 <? x0) || (y1 <? y0)) eqn:Hempty.
  - split; [reflexivity|]. split; [reflexivity|]. split; [exact Hwf|].
    intros px py.
    replace (bool_decide (x0 <= px <= x1 /\ y0 <= py <= y1)) with false; [reflexivity|].
    symmetry. apply bool_decide_eq_false.
    rewrite orb_true_iff, !Z.ltb_lt in Hempty. lia.
  - cbn [buf dev image set_image]. fold (paint c).
    change (foldl (fun acc py => foldl (fun acc0 px => Set_ acc0 px py (paint c)) acc
                                       (seqZ x0 (x1 - x0 + 1)))
                  (image o) (seqZ y0 (y1 - y0 + 1)))
      with (foldl (fun acc py =>
                     foldl (fun acc0 px => if (fun _ _ => true) px py
                                           then Set_ acc0 px py (paint c) else acc0)
                           acc (seqZ x0 (x1 - x0 + 1)))
                  (image o) (seqZ y0 (y1 - y0 + 1))).
    destruct (paint_rows (fun _ _ => true) (paint c) (seqZ x0 (x1 - x0 + 1))
                (seqZ y0 (y1 - y0 + 1)) (image o) Hwf) as (Hwf' & _ & _ & Hat).
    split; [reflexivity|]. split; [reflexivity|]. split; [exact Hwf'|].
    intros px py. rewrite Hat, andb_true_r.
    replace (bool_decide (px ∈ seqZ x0 (x1 - x0 + 1) /\ py ∈ seqZ y0 (y1 - y0 + 1)))
      with (bool_decide (x0 <= px <= x1 /\ y0 <= py <= y1)); [reflexivity|].
    apply bool_decide_ext. rewrite !elem_of_seqZ. lia.
Qed.

Lemma Rect_paints_witness :
  buf (Rect (-5) 20 300 36 true (New 0 Bench.bootOled)) = buf (New 0 Bench.bootOled)
  /\ forall px py,
       At (image (Rect (-5) 20 300 36 true (New 0 Bench.bootOled))) px py
       = if bool_decide (Z.max (-5) 0 <= px <= Z.min 300 (w (New 0 Bench.bootOled) - 1)
                         /\ Z.max 20 0 <= py <= Z.min 36 (h (New 0 Bench.bootOled) - 1))
            && inBounds (image (New 0 Bench.bootOled)) px py
         then paint true else At (image (New 0 Bench.bootOled)) px py.
Proof.
  destruct (Rect_paints (New 0 Bench.bootOled) (-5) 20 300 36 true) as (Hb & _ & _ & Hat).
  - destruct (Canvas.New_spec 0 Bench.bootOled) as (d & ->). reflexivity.
  - exact (conj Hb Hat).
Defined.

(** X11.  [LineH] paints the points from the start column (moved to 0 when
    negative) to the start column plus [length], both ends included and cut
    at the last panel column, on a row that is on the panel; on any other
    row it is a no-op.  [LineV] does the same along a column.  A start that
    is negative therefore moves the line instead of shortening it. *)
Theorem Line_paints o x y len c :
  wfImage (image o) ->
  Go.minInt <= Z.max x 0 + len <= Go.maxInt ->
  Go.minInt <= Z.max y 0 + len <= Go.maxInt ->
  (forall px py,
     At (image (LineH x y len c o)) px py
     = if bool_decide (0 <= y < h o /\ py = y
                       /\ Z.max x 0 <= px <= Z.min (Z.max x 0 + len) (w o - 1))
          && inBounds (image o) px py
       then paint c else At (image o) px py)
  /\ (forall px py,
        At (image (LineV x y len c o)) px py
        = if bool_decide (0 <= x < w o /\ px = x
                          /\ Z.max y 0 <= py <= Z.min (Z.max y 0 + len) (h o - 1))
             && inBounds (image o) px py
          then paint c else At (image o) px py)
  /\ buf (LineH x y len c o) = buf o /\ dev (LineH x y len c o) = dev o
  /\ buf (LineV x y len c o) = buf o /\ dev (LineV x y len c o) = dev o.
Proof.
  intros Hwf Hxr Hyr. split; [|split].
  - unfold LineH. cbv zeta. rewrite clamp_low, (wrapInt_small _ Hxr), clamp_high.
    set (x0 := Z.max x 0). set (x1 := Z.min (x0 + len) (w o - 1)).
    destruct ((y <? 0) || (h o <=? y)) eqn:Hrow.
    + intros px py.
      replace (bool_decide (0 <= y < h o /\ py = y /\ x0 <= px <= x1)) with false;
        [reflexivity|].
      symmetry. apply bool_decide_eq_false.
      rewrite orb_true_iff, Z.ltb_lt, Z.leb_le in Hrow. lia.
    + rewrite orb_false_iff, Z.ltb_ge, Z.leb_gt in Hrow.
      cbn [image set_image]. fold (paint c).
      change (foldl (fun acc px => Set_ acc px y (paint c)) (image o) (seqZ x0 (x1 - x0 + 1)))
        with (foldl (fun acc px => if (fun _ => true) px then Set_ acc px y (paint c) else acc)
                    (image o) (seqZ x0 (x1 - x0 + 1))).
      destruct (paint_row (fun _ => true) (paint c) y (seqZ x0 (x1 - x0 + 1)) (image o) Hwf)
        as (_ & _ & _ & Hat).
      intros px py. rewrite Hat, andb_true_r.
      replace (bool_decide (px ∈ seqZ x0 (x1 - x0 + 1) /\ py = y))
        with (bool_decide (0 <= y < h o /\ py = y /\ x0 <= px <= x1)); [reflexivity|].
      apply bool_decide_ext. rewrite elem_of_seqZ. lia.
  - unfold LineV. cbv zeta. rewrite clamp_low, (wrapInt_small _ Hyr), clamp_high.
    set (y0 := Z.max y 0). set (y1 := Z.min (y0 + len) (h o - 1)).
    destruct ((x <? 0) || (w o <=? x)) eqn:Hcol.
    + intros px py.
      replace (bool_decide (0 <= x < w o /\ px = x /\ y0 <= py <= y1)) with false;
        [reflexivity|].
      symmetry. apply bool_decide_eq_false.
      rewrite orb_true_iff, Z.ltb_lt, Z.leb_le in Hcol. lia.
    + rewrite orb_false_iff, Z.ltb_ge, Z.leb_gt in Hcol.
      cbn [image set_image]. fold (paint c).
      change (foldl (fun acc py => Set_ acc x py (paint c)) (image o) (seqZ y0 (y1 - y0 + 1)))
        with (foldl (fun acc py =>
                       foldl (fun acc0 px => if (fun _ _ => true) px py
                                             then Set_ acc0 px py (paint c) else acc0)
                             acc [x])
                    (image o) (seqZ y0 (y1 - y0 + 1))).
      destruct (paint_rows (fun _ _ => true) (paint c) [x] (seqZ y0 (y1 - y0 + 1))
                  (image o) Hwf) as (_ & _ & _ & Hat).
      intros px py. rewrite Hat, andb_true_r.
      replace (bool_decide (px ∈ [x] /\ py ∈ seqZ y0 (y1 - y0 + 1)))
        with (bool_decide (0 <= x < w o /\ px = x /\ y0 <= py <= y1)); [reflexivity|].
      apply bool_decide_ext. rewrite elem_of_seqZ, list_elem_of_singleton. lia.
  - unfold LineH, LineV. cbv zeta.
    destruct ((y <? 0) || (h o <=? y)); destruct ((x <? 0) || (w o <=? x)); repeat split.
Qed.

Lemma Line_paints_witness :
  buf (LineH (-5) 10 10 true (New 0 Bench.bootOled)) = buf (New 0 Bench.bootOled)
  /\ forall px py,
       At (image (LineH (-5) 10 10 true (New 0 Bench.bootOled))) px py
       = if bool_decide (0 <= 10 < h (New 0 Bench.bootOled) /\ py = 10
                         /\ Z.max (-5) 0 <= px
                            <= Z.min (Z.max (-5) 0 + 10) (w (New 0 Bench.bootOled) - 1))
            && inBounds (image (New 0 Bench.bootOled)) px py
         then paint true else At (image (New 0 Bench.bootOled)) px py.
Proof.
  destruct (Line_paints (New 0 Bench.bootOled) (-5) 10 10 true) as (Hat & _ & Hb & _).
  - destruct (Canvas.New_spec 0 Bench.bootOled) as (d & ->). reflexivity.
  - vm_compute. split; discriminate.
  - vm_compute. split; discriminate.
  - exact (conj Hb Hat).
Defined.

End CanvasExtra.

(** ** [Send] copies the thresholded canvas into the buffer; [Image] *)
Module FlushExtra.
Import NanoHatOLED Obs GoFacts PixelBuffer Canvas PixelExtra CanvasExtra.

Lemma sendBit_same o o' x y : sameCanvas o o' -> sendBit o' x y = sendBit o x y.
Proof.
  intros (_ & _ & _ & _ & Himg & _ & Hfs).
  unfold sendBit, getDynamicThreshold. rewrite Himg, Hfs. reflexivity.
Qed.

(** One column of the inner loop of [Send]. *)
Lemma send_column o0 i ys : forall o,
  wfOled o -> sameCanvas o0 o -> 0 <= i < 128 -> (forall j, j ∈ ys -> 0 <= j < 64) ->
  exists o',
    forEach ys (fun j o => setPixel i j (sendBit o i j) o) o = Some (None, o')
    /\ wfOled o' /\ sameCanvas o0 o'
    /\ (forall j, j ∈ ys -> pixelBit o' i j = (sendBit o0 i j =? 1))
    /\ (forall x y, onPanel x y -> ~ (x = i /\ y ∈ ys) -> pixelBit o' x y = pixelBit o x y)
    /\ buf o' !! 0%nat = buf o !! 0%nat
    /\ dev o' = dev o.
Proof.
  induction ys as [|j ys IH]; intros o Hwf Hsame Hi Hys; cbn [forEach].
  - exists o. split; [reflexivity|]. split; [exact Hwf|]. split; [exact Hsame|].
    split; [|split; [reflexivity|split; reflexivity]].
    intros j Hj. apply elem_of_nil in Hj. contradiction.
  - assert (Hj : 0 <= j < 64) by (apply Hys; left).
    assert (Hp : onPanel i j) by (split; assumption).
    pose proof (sendBit_binary o i j) as Hv.
    rewrite (setPixel_in o i j _ Hwf Hi Hj Hv).
    pose proof (setPixel_in o i j _ Hwf Hi Hj Hv) as Hs.
    destruct (setPixel_wf _ _ _ _ _ _ Hwf Hi Hj Hv Hs) as (_ & Hwf1 & Hsame1).
    destruct (setPixel_bits o i j _ Hwf Hp Hv) as (Hbit & Hothers).
    set (o1 := set_buf _ o) in *.
    destruct (IH o1 Hwf1 (sameCanvas_trans _ _ _ Hsame Hsame1) Hi
                (fun j' Hj' => Hys j' (list_elem_of_further _ _ _ Hj')))
      as (o' & Hrun & Hwf' & Hsame' & Hset & Hkeep & Hhead & Hdev).
    exists o'. split; [exact Hrun|]. split; [exact Hwf'|]. split; [exact Hsame'|].
    split; [|split; [|split]].
    + intros j' Hj'. destruct (decide (j' ∈ ys)) as [Hin|Hnin]; [apply Hset, Hin|].
      apply elem_of_cons in Hj' as [->|Hj']; [|contradiction].
      rewrite (Hkeep i j Hp) by (intros [_ Hin]; contradiction).
      rewrite Hbit. rewrite (sendBit_same o0 o i j Hsame). reflexivity.
    + intros x y Hxy Hnot.
      rewrite (Hkeep x y Hxy) by (intros [Hx Hy]; apply Hnot; split; [exact Hx | right; exact Hy]).
      apply Hothers; [exact Hxy|].
      intros [= -> ->]. apply Hnot. split; [reflexivity | left].
    + rewrite Hhead. unfold o1. cbn [buf set_buf].
      pose proof (pixelIndex_range i j Hi Hj).
      rewrite list_lookup_insert_ne by lia. reflexivity.
    + rewrite Hdev. reflexivity.
Qed.

(** The two nested loops of [Send]. *)
Lemma send_columns o0 xs ys : forall o,
  wfOled o -> sameCanvas o0 o ->
  (forall i, i ∈ xs -> 0 <= i < 128) -> (forall j, j ∈ ys -> 0 <= j < 64) ->
  exists o',
    forEach xs (fun i => forEach ys (fun j o => setPixel i j (sendBit o i j) o)) o
    = Some (None, o')
    /\ wfOled o' /\ sameCanvas o0 o'
    /\ (forall i j, i ∈ xs -> j ∈ ys -> pixelBit o' i j = (sendBit o0 i j =? 1))
    /\ (forall x y, onPanel x y -> ~ (x ∈ xs /\ y ∈ ys) -> pixelBit o' x y = pixelBit o x y)
    /\ buf o' !! 0%nat = buf o !! 0%nat
    /\ dev o' = dev o.
Proof.
  induction xs as [|i xs IH]; intros o Hwf Hsame Hxs Hys; cbn [forEach].
  - exists o. split; [reflexivity|]. split; [exact Hwf|]. split; [exact Hsame|].
    split; [|split; [reflexivity|split; reflexivity]].
    intros i j Hi. apply elem_of_nil in Hi. contradiction.
  - assert (Hi : 0 <= i < 128) by (apply Hxs; left).
    destruct (send_column o0 i ys o Hwf Hsame Hi Hys)
      as (o1 & -> & Hwf1 & Hsame1 & Hset1 & Hkeep1 & Hhead1 & Hdev1).
    destruct (IH o1 Hwf1 Hsame1 (fun i' Hi' => Hxs i' (list_elem_of_further _ _ _ Hi')) Hys)
      as (o' & Hrun & Hwf' & Hsame' & Hset & Hkeep & Hhead & Hdev).
    exists o'. split; [exact Hrun|]. split; [exact Hwf'|]. split; [exact Hsame'|].
    split; [|split; [|split]].
    + intros i' j Hi' Hj. destruct (decide (i' ∈ xs)) as [Hin|Hnin]; [apply Hset; assumption|].
      apply elem_of_cons in Hi' as [->|Hi']; [|contradiction].
      rewrite (Hkeep i j) by (first [split; [exact Hi | apply Hys, Hj]
                                     | intros [Hin _]; contradiction]).
      apply Hset1, Hj.
    + intros x y Hxy Hnot.
      rewrite (Hkeep x y Hxy) by (intros [Hx Hy]; apply Hnot; split; [right; exact Hx | exact Hy]).
      apply Hkeep1; [exact Hxy|].
      intros [-> Hy]. apply Hnot. split; [left | exact Hy].
    + rewrite Hhead. exact Hhead1.
    + rewrite Hdev. exact Hdev1.
Qed.

Section WithImaging.
Context `{Imaging}.

Lemma applyRotation_buf o : buf (applyRotation o) = buf o /\ dev (applyRotation o) = dev o.
Proof.
  unfold applyRotation. destruct (negb (rotationState o)); [|split; reflexivity].
  destruct (rotation o =? 90); [split; reflexivity|].
  destruct (rotation o =? 180); [split; reflexivity|].
  destruct (rotation o =? 270); split; reflexivity.
Qed.

(** X12.  After [Send] the buffer mirrors the canvas: for every point in
    the overlap of the (rotated) canvas and the panel, the buffer bit is 1
    exactly when the gray value of the canvas pixel exceeds the dynamic
    threshold; panel pixels outside the overlap and the framing byte keep
    their value; the only thing that can fail is the bus write of [draw],
    made on the finished buffer. *)
Theorem Send_mirrors_canvas o :
  wfOled o ->
  0 <= Dx (image (applyRotation o)) <= Go.maxInt ->
  0 <= Dy (image (applyRotation o)) <= Go.maxInt ->
  exists o1,
    Send o = Some (draw o1)
    /\ buf (snd (draw o1)) = buf o1
    /\ (forall x y,
          0 <= x < Z.min (Dx (image (applyRotation o))) 128 ->
          0 <= y < Z.min (Dy (image (applyRotation o))) 64 ->
          pixelBit o1 x y = (sendBit (applyRotation o) x y =? 1))
    /\ (forall x y, onPanel x y ->
          ~ (x < Dx (image (applyRotation o)) /\ y < Dy (image (applyRotation o))) ->
          pixelBit o1 x y = pixelBit o x y)
    /\ buf o1 !! 0%nat = buf o !! 0%nat
    /\ dev o1 = dev o.
Proof.
  intros Hwf HDx HDy. pose proof (applyRotation_wf o Hwf) as Hwfr.
  destruct (applyRotation_buf o) as (Hbuf & Hdev).
  unfold Send. set (o_r := applyRotation o) in *.
  rewrite !Z.add_0_l, !wrapInt_small
    by (unfold Go.minInt, Go.maxInt, Go.intBits in *; lia).
  destruct Hwfr as (Hw & Hh & Hlen & Hall). rewrite Hw, Hh.
  set (endX := if 128 <=? Dx (image o_r) then 128 else Dx (image o_r)).
  set (endY := if 64 <=? Dy (image o_r) then 64 else Dy (image o_r)).
  assert (HX : endX = Z.min (Dx (image o_r)) 128)
    by (unfold endX; destruct (Z.leb_spec 128 (Dx (image o_r))); lia).
  assert (HY : endY = Z.min (Dy (image o_r)) 64)
    by (unfold endY; destruct (Z.leb_spec 64 (Dy (image o_r))); lia).
  destruct (send_columns o_r (seqZ 0 endX) (seqZ 0 endY) o_r)
    as (o1 & -> & Hwf1 & Hsame1 & Hset & Hkeep & Hhead & Hdev1).
  - repeat split; assumption.
  - apply sameCanvas_refl.
  - intros i Hi. apply elem_of_seqZ in Hi. lia.
  - intros j Hj. apply elem_of_seqZ in Hj. lia.
  - exists o1. split; [reflexivity|].
    split; [destruct (draw_spec o1) as (e & d & ->); reflexivity|].
    split; [|split; [|split]].
    + intros x y Hx Hy. apply Hset; apply elem_of_seqZ; lia.
    + intros x y Hxy Hout. rewrite (Hkeep x y Hxy).
      * unfold pixelBit. rewrite Hbuf. reflexivity.
      * rewrite !elem_of_seqZ. destruct Hxy. lia.
    + rewrite Hhead, Hbuf. reflexivity.
    + rewrite Hdev1. exact Hdev.
Qed.
Lemma fill_At W Hgt c x y :
  wfImage (fill (NewNRGBA W Hgt) c)
  /\ At (fill (NewNRGBA W Hgt) c) x y
     = if inBounds (NewNRGBA W Hgt) x y then c else transparent.
Proof.
  split.
  - unfold wfImage, fill, NewNRGBA. cbn [Pix Dx Dy]. rewrite !length_replicate. reflexivity.
  - unfold At. change (inBounds (fill (NewNRGBA W Hgt) c) x y) with (inBounds (NewNRGBA W Hgt) x y).
    destruct (inBounds (NewNRGBA W Hgt) x y) eqn:Hin; [|reflexivity].
    assert (Hlt : (offset (fill (NewNRGBA W Hgt) c) x y < length (Pix (fill (NewNRGBA W Hgt) c)))%nat).
    { apply offset_lt; [|exact Hin].
      unfold wfImage, fill, NewNRGBA. cbn [Pix Dx Dy]. rewrite !length_replicate. reflexivity. }
    unfold fill in *. cbn [Pix] in *. rewrite length_replicate in Hlt.
    rewrite lookup_replicate_2 by exact Hlt. reflexivity.
Qed.

(** X13.  [Image]: when the file cannot be opened the error is returned
    and the controller is left as it was; otherwise the canvas is replaced
    by an image with the bounds of the fitted grayscale image in which
    every pixel is white when its gray value exceeds the dynamic threshold
    and opaque black otherwise; buffer, bus, rotation and the
    rotation-applied flag are not touched. *)
Theorem Image_binarizes path o :
  (imagingOpen path = None -> Image path o = (Some ErrOpenImage, o))
  /\ (forall img, imagingOpen path = Some img ->
        exists o',
          Image path o = (None, o')
          /\ buf o' = buf o /\ dev o' = dev o
          /\ rotation o' = rotation o /\ rotationState o' = rotationState o
          /\ Dx (image o') = Dx (imagingGrayscale (imagingFit img 128 64))
          /\ Dy (image o') = Dy (imagingGrayscale (imagingFit img 128 64))
          /\ forall x y,
               At (image o') x y
               = if inBounds (imagingGrayscale (imagingFit img 128 64)) x y
                 then (if imageBit o (imagingGrayscale (imagingFit img 128 64)) x y
                       then White else Black)
                 else transparent).
Proof.
  unfold Image. split.
  - intros ->. reflexivity.
  - intros img ->. set (gray := imagingGrayscale (imagingFit img 128 64)).
    destruct (fill_At (Dx gray) (Dy gray) Black 0 0) as (Hwf0 & _).
    destruct (paint_rows (fun x y => imageBit o gray x y) White
                (seqZ 0 (Dx gray)) (seqZ 0 (Dy gray))
                (fill (NewNRGBA (Dx gray) (Dy gray)) Black) Hwf0)
      as (_ & Hdx & Hdy & Hat).
    eexists. split; [reflexivity|]. cbn [buf dev rotation rotationState image set_image].
    split; [reflexivity|]. split; [reflexivity|]. split; [reflexivity|].
    split; [reflexivity|]. split; [exact Hdx|]. split; [exact Hdy|].
    intros x y. rewrite (Hat x y).
    destruct (fill_At (Dx gray) (Dy gray) Black x y) as (_ & ->).
    change (inBounds (fill (NewNRGBA (Dx gray) (Dy gray)) Black) x y)
      with (inBounds gray x y).
    change (inBounds (NewNRGBA (Dx gray) (Dy gray)) x y) with (inBounds gray x y).
    replace (bool_decide (x ∈ seqZ 0 (Dx gray) /\ y ∈ seqZ 0 (Dy gray)))
      with (inBounds gray x y).
    + destruct (inBounds gray x y); cbn [andb]; [|reflexivity].
      rewrite andb_true_r. reflexivity.
    + symmetry. destruct (inBounds gray x y) eqn:Hin.
      * apply bool_decide_eq_true. apply inBounds_spec in Hin.
        rewrite !elem_of_seqZ. lia.
      * apply bool_decide_eq_false. intros Hmem. rewrite !elem_of_seqZ in Hmem.
        assert (inBounds gray x y = true) by (apply inBounds_spec; lia). congruence.
Qed.
End WithImaging.

Lemma Image_binarizes_witness :
  Image "/etc/NanoHatOLED/logo.png" Bench.bootOled = (Some ErrOpenImage, Bench.bootOled).
Proof.
  destruct (@Image_binarizes Bench.imaging "/etc/NanoHatOLED/logo.png" Bench.bootOled)
    as (Hfail & _).
  apply Hfail. reflexivity.
Defined.

Lemma Send_mirrors_canvas_witness :
  exists o1,
    Send (New 0 Bench.bootOled) = Some (draw o1)
    /\ buf (snd (draw o1)) = buf o1
    /\ (forall x y,
          0 <= x < Z.min (Dx (image (applyRotation (New 0 Bench.bootOled)))) 128 ->
          0 <= y < Z.min (Dy (image (applyRotation (New 0 Bench.bootOled)))) 64 ->
          pixelBit o1 x y = (sendBit (applyRotation (New 0 Bench.bootOled)) x y =? 1))
    /\ (forall x y, onPanel x y ->
          ~ (x < Dx (image (applyRotation (New 0 Bench.bootOled)))
             /\ y < Dy (image (applyRotation (New 0 Bench.bootOled)))) ->
          pixelBit o1 x y = pixelBit (New 0 Bench.bootOled) x y)
    /\ buf o1 !! 0%nat = buf (New 0 Bench.bootOled) !! 0%nat
    /\ dev o1 = dev (New 0 Bench.bootOled).
Proof.
  apply (@Send_mirrors_canvas Bench.imaging (New 0 Bench.bootOled)).
  - apply Drawing.New_wf. exact PixelClaims.bootOled_wf.
  - vm_compute. split; discriminate.
  - vm_compute. split; discriminate.
Defined.

End FlushExtra.

(** ** More on the page state machine *)
Module PagesExtra.
Import NanoHatOLED Main Obs GoFacts PixelBuffer Canvas Drawing Pages.

Lemma Text_ok `{Freetype} x y text c o : okOled o -> okOled (Text x y text c o).
Proof. intros Hok. exact Hok. Qed.

Lemma SetFontSize_ok size o : okOled o -> okOled (SetFontSize size o).
Proof. intros Hok. exact Hok. Qed.

Lemma SetBold_ok isBold o : okOled o -> okOled (SetBold isBold o).
Proof. intros Hok. destruct isBold; exact Hok. Qed.

Lemma set_image_ok img o : okOled o -> okOled (set_image img o).
Proof. intros Hok. exact Hok. Qed.

Lemma Rect_ok x0 y0 x1 y1 c o : okOled o -> okOled (Rect x0 y0 x1 y1 c o).
Proof.
  intros Hok. unfold Rect. cbv zeta.
  match goal with |- context [if ?c then o else _] => destruct c end; exact Hok.
Qed.

Lemma Clear_ok o : okOled o -> okOled (snd (Clear o)).
Proof.
  intros (Hwf & Hrot). split; [apply Clear_wf, Hwf|].
  destruct (Clear_spec o) as (e & d & ->). exact Hrot.
Qed.

Lemma New0_ok o : wfOled o -> okOled (New 0 o).
Proof.
  intros Hwf. split; [apply New_wf, Hwf|].
  destruct (New_spec 0 o) as (d & ->). reflexivity.
Qed.

Ltac app_fields :=
  cbn [oled pageIndex pageSleepCount drawing shutdownFlag shutdownSelect lastPageIndex
       lastTimeStr lastShutdownSel staticDrawn logged reads exited
       set_oled set_pageIndex set_pageSleepCount set_drawing set_shutdownFlag
       set_shutdownSelect set_lastPageIndex set_lastTimeStr set_lastShutdownSel
       set_staticDrawn set_reads set_exited].

(** The lemmas above, applied along the syntax of the drawing calls, down
    to the controller the calls start from. *)
Ltac ok_steps Hstart :=
  repeat lazymatch goal with
    | |- okOled (Text _ _ _ _ _) => apply Text_ok
    | |- okOled (Rect _ _ _ _ _ _) => apply Rect_ok
    | |- okOled (SetFontSize _ _) => apply SetFontSize_ok
    | |- okOled (SetBold _ _) => apply SetBold_ok
    | |- okOled (set_image _ _) => apply set_image_ok
    | |- okOled (New 0 _) => apply New0_ok
    | |- okOled (snd (Clear _)) => apply Clear_ok
    | |- wfOled (snd (Clear _)) => apply Clear_wf
    end;
  first [exact Hstart | exact (proj1 Hstart)].

Section WithHost.
Context `{Imaging} `{Freetype} `{Host}.

Lemma applyRotation_rotation o : rotation (applyRotation o) = rotation o.
Proof.
  unfold applyRotation. destruct (negb (rotationState o)); [|reflexivity].
  destruct (rotation o =? 90); [reflexivity|].
  destruct (rotation o =? 180); [reflexivity|].
  destruct (rotation o =? 270); reflexivity.
Qed.

Lemma oledSend_ok a :
  okOled (oled a) -> exists o, oledSend a = Some (set_oled o a) /\ okOled o.
Proof.
  intros (Hwf & Hrot). destruct (Send_spec (oled a) Hwf) as (e & o & Hs & Hwf' & Hsame).
  exists o. unfold oledSend. rewrite Hs. split; [reflexivity|]. split; [exact Hwf'|].
  destruct Hsame as (_ & _ & Hr & _). rewrite Hr, applyRotation_rotation. exact Hrot.
Qed.

End WithHost.

Ltac send_ok Hstart :=
  match goal with
  | |- context [oledSend ?x] =>
      let o' := fresh "o'" in
      let Hok' := fresh "Hok'" in
      destruct (oledSend_ok x ltac:(app_fields; ok_steps Hstart)) as (o' & -> & Hok');
      eexists; split; [reflexivity|]; app_fields;
      split; [exact Hok'|]; repeat split
  end.

Section Painters.
Context `{Imaging} `{Freetype} `{Host}.

(** What the three page painters return, field by field. *)
Lemma drawNonTimePage_fields a :
  wfOled (oled a) ->
  exists a', drawNonTimePage a = Some a' /\ okOled (oled a')
             /\ lastPageIndex a' = pageIndex a /\ lastShutdownSel a' = shutdownSelect a
             /\ pageIndex a' = pageIndex a /\ shutdownSelect a' = shutdownSelect a
             /\ drawing a' = drawing a /\ shutdownFlag a' = shutdownFlag a
             /\ pageSleepCount a' = pageSleepCount a /\ staticDrawn a' = staticDrawn a.
Proof.
  intros Hwf. destruct a as [o pi psc dr sf ss lpi lts lss sd lg rd ex].
  cbn [oled] in Hwf.
  unfold drawNonTimePage, readHost, onOled, oledClear. app_fields.
  destruct (pi =? 1); [|destruct (pi =? 3); [destruct (ss =? 0)|]]; send_ok Hwf.
Qed.

Lemma drawTimePageStatic_fields a :
  wfOled (oled a) ->
  exists a', drawTimePageStatic a = Some a' /\ okOled (oled a')
             /\ staticDrawn a' = true
             /\ lastTimeStr a' = fmtClock (timeNow (S (S (reads a))))
             /\ reads a' = S (S (S (reads a)))
             /\ lastPageIndex a' = lastPageIndex a /\ lastShutdownSel a' = lastShutdownSel a
             /\ pageIndex a' = pageIndex a /\ shutdownSelect a' = shutdownSelect a
             /\ drawing a' = drawing a /\ shutdownFlag a' = shutdownFlag a
             /\ pageSleepCount a' = pageSleepCount a.
Proof.
  intros Hwf. destruct a as [o pi psc dr sf ss lpi lts lss sd lg rd ex].
  cbn [oled] in Hwf.
  unfold drawTimePageStatic, readHost, onOled, oledClear. app_fields.
  send_ok Hwf.
Qed.

Lemma updateTimeOnly_fields a :
  okOled (oled a) ->
  exists a', updateTimeOnly a = Some a' /\ okOled (oled a')
             /\ lastTimeStr a' = fmtClock (timeNow (reads a))
             /\ reads a' = S (reads a)
             /\ (fmtClock (timeNow (reads a)) = lastTimeStr a -> oled a' = oled a)
             /\ staticDrawn a' = staticDrawn a
             /\ lastPageIndex a' = lastPageIndex a /\ lastShutdownSel a' = lastShutdownSel a
             /\ pageIndex a' = pageIndex a /\ shutdownSelect a' = shutdownSelect a
             /\ drawing a' = drawing a /\ shutdownFlag a' = shutdownFlag a
             /\ pageSleepCount a' = pageSleepCount a.
Proof.
  intros Hok. destruct a as [o pi psc dr sf ss lpi lts lss sd lg rd ex].
  cbn [oled] in Hok.
  unfold updateTimeOnly, clearTimeArea, readHost, onOled. app_fields.
  destruct (String.eqb_spec (fmtClock (timeNow rd)) lts) as [Heq|Hne].
  - eexists. split; [reflexivity|]. app_fields. split; [exact Hok|].
    split; [symmetry; exact Heq|]. repeat split.
  - send_ok Hok. intros Heq. contradiction.
Qed.

Lemma wrapInt_le_maxInt z : Go.wrapInt z <= Go.maxInt.
Proof.
  unfold Go.wrapInt, Go.maxInt, Go.intBits.
  pose proof (Z.mod_pos_bound (z + 2 ^ (64 - 1)) (2 ^ 64) ltac:(lia)). lia.
Qed.

(** [drawPage] with the gate open and the countdown running. *)
Lemma drawPage_awake a :
  okOled (oled a) -> drawing a = false -> shutdownFlag a = false ->
  0 < pageSleepCount a ->
  exists a', drawPage a = Some a' /\ okOled (oled a')
    /\ pageSleepCount a' = Go.wrapInt (pageSleepCount a - 1)
    /\ drawing a' = false /\ shutdownFlag a' = false
    /\ pageIndex a' = pageIndex a /\ shutdownSelect a' = shutdownSelect a
    /\ (pageIndex a = 0 -> lastPageIndex a' = 0 /\ staticDrawn a' = true)
    /\ (pageIndex a = 1 \/ pageIndex a = 3 -> lastPageIndex a' = pageIndex a)
    /\ (pageIndex a = 3 -> lastShutdownSel a' = shutdownSelect a).
Proof.
  intros Hok Hd Hf Hc. unfold drawPage. rewrite Hd, Hf. cbn [orb].
  destruct (Z.leb_spec (pageSleepCount a) 0) as [Hle|_]; [lia|].
  cbv zeta.
  set (a0 := set_drawing true (set_pageSleepCount (Go.wrapInt (pageSleepCount a - 1)) a)).
  assert (Hok0 : okOled (oled a0)) by exact Hok.
  change (pageIndex a0) with (pageIndex a).
  change (staticDrawn a0) with (staticDrawn a).
  change (lastPageIndex a0) with (lastPageIndex a).
  change (shutdownSelect a0) with (shutdownSelect a).
  change (lastShutdownSel a0) with (lastShutdownSel a).
  destruct (Z.eqb_spec (pageIndex a) 0) as [Hp0|Hp0].
  - destruct (staticDrawn a) eqn:Hsd; cbn [negb orb].
    + destruct (Z.eqb_spec (lastPageIndex a) 0) as [Hl|Hl]; cbn [negb].
      * destruct (updateTimeOnly_fields a0 Hok0)
          as (a' & -> & Hok' & _ & _ & _ & Hs & Hlp & _ & Hpi & Hss & _ & Hsf & Hpc).
        eexists. split; [reflexivity|]. app_fields.
        rewrite Hpi, Hss, Hsf, Hpc, Hs, Hlp.
        split; [exact Hok'|]. repeat split; try assumption; try reflexivity; intros; lia.
      * destruct (drawTimePageStatic_fields a0 (proj1 Hok0))
          as (a' & -> & Hok' & Hs & _ & _ & _ & _ & Hpi & Hss & _ & Hsf & Hpc).
        eexists. split; [reflexivity|]. app_fields.
        rewrite Hpi, Hss, Hsf, Hpc, Hs.
        split; [exact Hok'|]. repeat split; try assumption; try reflexivity; intros; lia.
    + destruct (drawTimePageStatic_fields a0 (proj1 Hok0))
        as (a' & -> & Hok' & Hs & _ & _ & _ & _ & Hpi & Hss & _ & Hsf & Hpc).
      eexists. split; [reflexivity|]. app_fields.
      rewrite Hpi, Hss, Hsf, Hpc, Hs.
      split; [exact Hok'|]. repeat split; try assumption; try reflexivity; intros; lia.
  - destruct ((pageIndex a =? 1) || (pageIndex a =? 3)) eqn:Hp13.
    + destruct (negb (pageIndex a =? lastPageIndex a)
                || (pageIndex a =? 3) && negb (shutdownSelect a =? lastShutdownSel a)) eqn:Hre.
      * destruct (drawNonTimePage_fields a0 (proj1 Hok0))
          as (a' & -> & Hok' & Hlp & Hls & Hpi & Hss & _ & Hsf & Hpc & _).
        eexists. split; [reflexivity|]. app_fields.
        rewrite Hpi, Hss, Hsf, Hpc, Hlp, Hls.
        split; [exact Hok'|]. repeat split; try assumption; try reflexivity; intros; lia.
      * apply orb_false_iff in Hre. destruct Hre as (Hsame & Hsel).
        apply negb_false_iff, Z.eqb_eq in Hsame.
        eexists. split; [reflexivity|]. subst a0. app_fields.
        split; [exact Hok|]. repeat split; try assumption; try reflexivity;
          try (intros; lia).
    + apply orb_false_iff in Hp13. destruct Hp13 as (Hp1 & Hp3).
      apply Z.eqb_neq in Hp1. apply Z.eqb_neq in Hp3.
      eexists. split; [reflexivity|]. subst a0. app_fields.
      split; [exact Hok|]. repeat split; try assumption; try reflexivity; intros; lia.
Qed.

(** [drawPage] with the gate open and the countdown at 0. *)
Lemma drawPage_at_zero a :
  okOled (oled a) -> drawing a = false -> shutdownFlag a = false ->
  pageSleepCount a = 0 ->
  exists a', drawPage a = Some a' /\ okOled (oled a')
    /\ pageSleepCount a' = -1 /\ lastPageIndex a' = -1 /\ staticDrawn a' = false
    /\ dataCleared (buf (oled a'))
    /\ drawing a' = false /\ shutdownFlag a' = false
    /\ pageIndex a' = pageIndex a /\ shutdownSelect a' = shutdownSelect a.
Proof.
  intros (Hwf & Hrot) Hd Hf Hc.
  destruct (Clear_spec (oled a)) as (e & d & HClear).
  set (o1 := set_dev d (set_buf (zeroData (buf (oled a)))
                                (set_image (freshCanvas (rotation (oled a))) (oled a)))) in *.
  assert (Hwf1 : wfOled o1) by (apply (zeroed_wf (oled a)) in Hwf; exact Hwf).
  assert (HSend : Send o1 = Some (draw o1)).
  { apply Send_blank; [exact Hwf1 | exact Hrot | | apply zeroData_cleared].
    unfold o1. cbn [image set_dev set_buf set_image]. rewrite Hrot. reflexivity. }
  destruct (draw_spec o1) as (e2 & d2 & Hdraw).
  exists (set_pageSleepCount (-1)
            (set_lastPageIndex (-1)
               (set_staticDrawn false (set_oled (set_dev d2 o1) a)))).
  split.
  { unfold drawPage. rewrite Hd, Hf, Hc. cbn [orb Z.leb Z.eqb Z.compare].
    unfold oledClear, oledSend. rewrite HClear. cbn [snd oled set_oled].
    rewrite HSend, Hdraw. reflexivity. }
  app_fields.
  split; [split; [exact Hwf1 | exact Hrot]|].
  repeat split; try assumption. apply zeroData_cleared.
Qed.

(** [drawPage] on any controller [main] can hold: it returns, and what it
    leaves alone. *)
Lemma drawPage_frame a :
  okOled (oled a) ->
  exists a', drawPage a = Some a' /\ okOled (oled a')
    /\ pageIndex a' = pageIndex a /\ shutdownSelect a' = shutdownSelect a
    /\ shutdownFlag a' = shutdownFlag a /\ drawing a' = drawing a
    /\ pageSleepCount a' <= pageSleepCount a.
Proof.
  intros Hok.
  assert (Hsame : drawPage a = Some a ->
            exists a', drawPage a = Some a' /\ okOled (oled a')
              /\ pageIndex a' = pageIndex a /\ shutdownSelect a' = shutdownSelect a
              /\ shutdownFlag a' = shutdownFlag a /\ drawing a' = drawing a
              /\ pageSleepCount a' <= pageSleepCount a).
  { intros Hr. exists a. split; [exact Hr|]. split; [exact Hok|].
    repeat split; lia. }
  destruct (drawing a) eqn:Hd;
    [apply Hsame, drawPage_gate; left; exact Hd|].
  destruct (shutdownFlag a) eqn:Hf;
    [apply Hsame, drawPage_gate; right; exact Hf|].
  destruct (Z.lt_trichotomy (pageSleepCount a) 0) as [Hc|[Hc|Hc]].
  - apply Hsame.
    unfold drawPage. rewrite Hd, Hf. cbn [orb].
    replace (pageSleepCount a <=? 0) with true by (symmetry; apply Z.leb_le; lia).
    replace (pageSleepCount a =? 0) with false by (symmetry; apply Z.eqb_neq; lia).
    reflexivity.
  - destruct (drawPage_at_zero a Hok Hd Hf Hc)
      as (a' & Hr & Hok' & Hc' & _ & _ & _ & Hd' & Hf' & Hp' & Hs').
    exists a'. split; [exact Hr|]. split; [exact Hok'|].
    repeat split; try assumption; lia.
  - destruct (drawPage_awake a Hok Hd Hf Hc)
      as (a' & Hr & Hok' & Hc' & Hd' & Hf' & Hp' & Hs' & _).
    exists a'. split; [exact Hr|]. split; [exact Hok'|].
    repeat split; try assumption.
    rewrite Hc'. destruct (Z.le_gt_cases (pageSleepCount a) Go.maxInt) as [Hle|Hgt].
    + rewrite wrapInt_small; [lia|]. unfold Go.minInt, Go.maxInt, Go.intBits in *. lia.
    + pose proof (wrapInt_le_maxInt (pageSleepCount a - 1)). lia.
Qed.

Lemma press_page_range b a :
  pageIndex (press b a) = 0 \/ pageIndex (press b a) = 1 \/ pageIndex (press b a) = 3.
Proof.
  destruct b; unfold press, handleK1, handleK2, handleK3, handleK1_locked,
    handleK2_locked, handleK3_locked, resetSleepCount, logPrintln;
    cbn [pageIndex shutdownSelect set_staticDrawn set_pageSleepCount];
    destruct (Z.eqb_spec (pageIndex a) 3) as [Hp|Hp];
    try destruct (shutdownSelect a =? 0); cbn; lia.
Qed.

Lemma press_select_range b a :
  shutdownSelect a = 0 \/ shutdownSelect a = 1 ->
  shutdownSelect (press b a) = 0 \/ shutdownSelect (press b a) = 1.
Proof.
  intros Hsel.
  destruct b; unfold press, handleK1, handleK2, handleK3, handleK1_locked,
    handleK2_locked, handleK3_locked, resetSleepCount, logPrintln;
    cbn [pageIndex shutdownSelect set_staticDrawn set_pageSleepCount];
    destruct (Z.eqb_spec (pageIndex a) 3) as [Hp|Hp];
    try destruct (shutdownSelect a =? 0); cbn; try rewrite (toggle_select _ Hsel); lia.
Qed.

Lemma heartbeats_add n : forall m a,
  heartbeats (n + m) a
  = match heartbeats n a with Some a' => heartbeats m a' | None => None end.
Proof.
  induction n as [|n IH]; intros m a; simpl; [reflexivity|].
  destruct (drawPage a); [apply IH | reflexivity].
Qed.

Lemma heartbeats_countdown k : forall a,
  okOled (oled a) -> drawing a = false -> shutdownFlag a = false ->
  Z.of_nat k <= pageSleepCount a <= Go.maxInt ->
  exists ak, heartbeats k a = Some ak /\ okOled (oled ak)
    /\ drawing ak = false /\ shutdownFlag ak = false
    /\ pageSleepCount ak = pageSleepCount a - Z.of_nat k
    /\ pageIndex ak = pageIndex a /\ shutdownSelect ak = shutdownSelect a.
Proof.
  induction k as [|k IH]; intros a Hok Hd Hf Hc.
  - exists a. simpl. split; [reflexivity|]. split; [exact Hok|].
    repeat split; try assumption; lia.
  - destruct (drawPage_awake a Hok Hd Hf ltac:(lia))
      as (a' & Hr & Hok' & Hc' & Hd' & Hf' & Hp' & Hs' & _).
    rewrite wrapInt_small in Hc'
      by (unfold Go.minInt, Go.maxInt, Go.intBits in *; lia).
    destruct (IH a' Hok' Hd' Hf' ltac:(lia))
      as (ak & Hrk & Hokk & Hdk & Hfk & Hck & Hpk & Hsk).
    exists ak. simpl heartbeats. rewrite Hr.
    split; [exact Hrk|]. split; [exact Hokk|].
    repeat split; try assumption; try congruence; lia.
Qed.

(** X14.  A press raises the shutdown flag exactly when it is K2 on the
    confirmation page (page 3) with Yes selected ([shutdownSelect = 0]):
    no other button, page or selection starts a shutdown. *)
Theorem only_K2_confirms b a :
  shutdownFlag a = false ->
  (shutdownFlag (press b a) = true
   <-> b = BtnK2 /\ pageIndex a = 3 /\ shutdownSelect a = 0).
Proof.
  intros Hf.
  destruct b; unfold press, handleK1, handleK2, handleK3, handleK1_locked,
    handleK2_locked, handleK3_locked, resetSleepCount, logPrintln;
    cbn [pageIndex shutdownSelect set_staticDrawn set_pageSleepCount];
    destruct (Z.eqb_spec (pageIndex a) 3) as [Hp|Hp];
    try destruct (Z.eqb_spec (shutdownSelect a) 0) as [Hs|Hs];
    cbn; rewrite ?Hf; split; intros Hx;
    try discriminate; try (destruct Hx as (Hb & Hp' & Hs'); congruence);
    repeat split; assumption.
Qed.

(** X15.  Whatever the buttons and the ticker do, one after the other,
    the program does not panic: every sequence of presses and heartbeats
    runs to its end on a well-formed controller, leaves it well formed
    with no rotation, keeps [shutdownSelect] in {0, 1}, keeps the page in
    {0, 1, 3} once it is there, and never changes [drawing]. *)
Theorem events_never_panic evs : forall a,
  okOled (oled a) ->
  shutdownSelect a = 0 \/ shutdownSelect a = 1 ->
  exists a',
    runEvents evs a = Some a' /\ okOled (oled a')
    /\ (shutdownSelect a' = 0 \/ shutdownSelect a' = 1)
    /\ (pageIndex a = 0 \/ pageIndex a = 1 \/ pageIndex a = 3 ->
        pageIndex a' = 0 \/ pageIndex a' = 1 \/ pageIndex a' = 3)
    /\ drawing a' = drawing a.
Proof.
  induction evs as [|ev evs IH]; intros a Hok Hsel.
  - exists a. simpl. split; [reflexivity|]. split; [exact Hok|].
    split; [exact Hsel|]. split; [tauto | reflexivity].
  - destruct ev as [b|]; simpl runEvents; unfold handleEvent.
    + destruct (press_rearms b a) as (_ & _ & Ho & Hdr & _).
      destruct (drawPage_frame (press b a)) as (a1 & -> & Hok1 & Hp1 & Hs1 & _ & Hd1 & _);
        [rewrite Ho; exact Hok|].
      destruct (IH a1 Hok1) as (a' & Hr & Hok' & Hs' & Hp' & Hd');
        [rewrite Hs1; apply press_select_range, Hsel|].
      exists a'. split; [exact Hr|]. split; [exact Hok'|]. split; [exact Hs'|].
      split; [|congruence].
      intros _. apply Hp'. rewrite Hp1. apply press_page_range.
    + destruct (drawPage_frame a Hok) as (a1 & -> & Hok1 & Hp1 & Hs1 & _ & Hd1 & _).
      destruct (IH a1 Hok1) as (a' & Hr & Hok' & Hs' & Hp' & Hd');
        [rewrite Hs1; exact Hsel|].
      exists a'. split; [exact Hr|]. split; [exact Hok'|]. split; [exact Hs'|].
      split; [|congruence].
      intros Hp. apply Hp'. rewrite Hp1. exact Hp.
Qed.

(** X16.  The countdown to sleep.  With the gate open and the countdown
    at [n >= 0], each of the next [n] heartbeats lowers it by one and
    keeps the page; the heartbeat after those clears the data bytes of
    the buffer, marks that no page is drawn ([lastPageIndex = -1]) and
    pins the countdown at -1. *)
Theorem sleeps_after_countdown a :
  okOled (oled a) -> drawing a = false -> shutdownFlag a = false ->
  0 <= pageSleepCount a <= Go.maxInt ->
  (forall k, (k <= Z.to_nat (pageSleepCount a))%nat ->
     exists ak, heartbeats k a = Some ak
                /\ pageSleepCount ak = pageSleepCount a - Z.of_nat k
                /\ pageIndex ak = pageIndex a)
  /\ exists a1, heartbeats (Z.to_nat (pageSleepCount a) + 1) a = Some a1
                /\ pageSleepCount a1 = -1 /\ lastPageIndex a1 = -1
                /\ dataCleared (buf (oled a1)) /\ pageIndex a1 = pageIndex a.
Proof.
  intros Hok Hd Hf Hc. split.
  - intros k Hk.
    destruct (heartbeats_countdown k a Hok Hd Hf ltac:(lia))
      as (ak & Hr & _ & _ & _ & Hck & Hpk & _).
    exists ak. repeat split; assumption.
  - destruct (heartbeats_countdown (Z.to_nat (pageSleepCount a)) a Hok Hd Hf ltac:(lia))
      as (an & Hr & Hokn & Hdn & Hfn & Hcn & Hpn & _).
    destruct (drawPage_at_zero an Hokn Hdn Hfn ltac:(lia))
      as (a1 & Hr1 & _ & Hc1 & Hl1 & _ & Hcl & _ & _ & Hp1 & _).
    exists a1. rewrite heartbeats_add, Hr. simpl heartbeats. rewrite Hr1.
    repeat split; try assumption. congruence.
Qed.

(** X17.  A press shows the page it selects.  With the gate open, a
    press followed by its [drawPage] leaves the page last drawn equal to
    the selected page (so a sleeping screen wakes up), the selection last
    drawn equal to [shutdownSelect] on page 3, the static part of the
    clock page drawn on page 0, and [pageSleep - 1] draws to go. *)
Theorem press_shows_selected_page b a :
  okOled (oled a) -> drawing a = false -> shutdownFlag (press b a) = false ->
  exists a', handleEvent (Pressed b) a = Some a'
    /\ pageIndex a' = pageIndex (press b a)
    /\ lastPageIndex a' = pageIndex a'
    /\ (pageIndex a' = 3 -> lastShutdownSel a' = shutdownSelect a')
    /\ (pageIndex a' = 0 -> staticDrawn a' = true)
    /\ pageSleepCount a' = pageSleep - 1.
Proof.
  intros Hok Hd Hf. unfold handleEvent.
  destruct (press_rearms b a) as (Hc & _ & Ho & Hdr & _).
  destruct (drawPage_awake (press b a)) as
    (a' & -> & _ & Hc' & _ & _ & Hp' & Hs' & Hzero & Hinfo & Hconf);
    [rewrite Ho; exact Hok | congruence | exact Hf | rewrite Hc; reflexivity|].
  exists a'. split; [reflexivity|]. split; [exact Hp'|].
  rewrite Hp', Hs', Hc', Hc. repeat split.
  - destruct (press_page_range b a) as [Hp|[Hp|Hp]].
    + rewrite Hp. apply Hzero, Hp.
    + apply Hinfo. left. exact Hp.
    + apply Hinfo. right. exact Hp.
  - exact Hconf.
  - intros Hp. apply Hzero, Hp.
Qed.

(** X18.  The clock page is redrawn only when the clock string changes.
    On page 0 with the static part drawn, [drawPage] reads the time once
    and remembers its string; when the string is the one already shown,
    nothing is drawn and nothing is sent: the controller is as before. *)
Theorem clock_redrawn_on_change a :
  okOled (oled a) -> drawing a = false -> shutdownFlag a = false ->
  0 < pageSleepCount a ->
  pageIndex a = 0 -> staticDrawn a = true -> lastPageIndex a = 0 ->
  exists a', drawPage a = Some a'
    /\ lastTimeStr a' = fmtClock (timeNow (reads a))
    /\ reads a' = S (reads a)
    /\ (fmtClock (timeNow (reads a)) = lastTimeStr a -> oled a' = oled a)
    /\ staticDrawn a' = true /\ lastPageIndex a' = 0.
Proof.
  intros Hok Hd Hf Hc Hp Hs Hl. unfold drawPage. rewrite Hd, Hf. cbn [orb].
  replace (pageSleepCount a <=? 0) with false by (symmetry; apply Z.leb_gt; lia).
  cbv zeta.
  set (a0 := set_drawing true (set_pageSleepCount (Go.wrapInt (pageSleepCount a - 1)) a)).
  change (pageIndex a0) with (pageIndex a).
  change (staticDrawn a0) with (staticDrawn a).
  change (lastPageIndex a0) with (lastPageIndex a).
  rewrite Hp, Hs, Hl. cbn [Z.eqb negb orb].
  destruct (updateTimeOnly_fields a0 Hok)
    as (a' & -> & _ & Ht & Hr & Ho & Hs' & Hl' & _).
  eexists. split; [reflexivity|]. app_fields.
  rewrite Ht, Hr, Hs', Hl'. try subst a0. app_fields. rewrite Hs, Hl.
  repeat split. exact Ho.
Qed.

(** X19.  A page other than the clock is drawn once.  While the page
    and, on page 3, the selection are the ones last drawn, [drawPage]
    only lowers the countdown: the system figures on page 1 are not read
    again, and nothing is drawn or sent.  The same holds for a page index
    outside {0, 1, 3}. *)
Theorem page_drawn_once a :
  drawing a = false -> shutdownFlag a = false -> 0 < pageSleepCount a ->
  pageIndex a <> 0 ->
  (pageIndex a = 1 \/ pageIndex a = 3 ->
   lastPageIndex a = pageIndex a
   /\ (pageIndex a = 3 -> lastShutdownSel a = shutdownSelect a)) ->
  drawPage a = Some (set_pageSleepCount (Go.wrapInt (pageSleepCount a - 1)) a).
Proof.
  intros Hd Hf Hc Hp0 Hsame. unfold drawPage. rewrite Hd, Hf. cbn [orb].
  replace (pageSleepCount a <=? 0) with false by (symmetry; apply Z.leb_gt; lia).
  cbv zeta. app_fields.
  replace (pageIndex a =? 0) with false by (symmetry; apply Z.eqb_neq; exact Hp0).
  assert (Hdone : forall x : App, drawing x = false ->
            set_drawing false (set_drawing true x) = x)
    by (intros [] Hx; cbn in Hx; subst; reflexivity).
  destruct (Z.eqb_spec (pageIndex a) 1) as [Hp1|Hp1];
    [|destruct (Z.eqb_spec (pageIndex a) 3) as [Hp3|Hp3]]; cbn [orb andb].
  - destruct (Hsame (or_introl Hp1)) as (Hl & _).
    replace (pageIndex a =? 3) with false by (symmetry; apply Z.eqb_neq; lia).
    rewrite Hl, Z.eqb_refl. cbn [negb orb andb].
    f_equal. apply (Hdone (set_pageSleepCount _ a)). exact Hd.
  - destruct (Hsame (or_intror Hp3)) as (Hl & Hs). specialize (Hs Hp3).
    rewrite Hl, Hs, !Z.eqb_refl. cbn [negb orb andb].
    f_equal. apply (Hdone (set_pageSleepCount _ a)). exact Hd.
  - f_equal. apply (Hdone (set_pageSleepCount _ a)). exact Hd.
Qed.
End Painters.

Lemma only_K2_confirms_witness :
  shutdownFlag (press BtnK2 (presses [BtnK3; BtnK1] Bench.bootApp)) = true
  <-> BtnK2 = BtnK2 /\ pageIndex (presses [BtnK3; BtnK1] Bench.bootApp) = 3
      /\ shutdownSelect (presses [BtnK3; BtnK1] Bench.bootApp) = 0.
Proof.
  apply (only_K2_confirms BtnK2 (presses [BtnK3; BtnK1] Bench.bootApp)). reflexivity.
Defined.

Lemma bootApp_ok : okOled (oled Bench.bootApp).
Proof. split; [exact PixelClaims.bootOled_wf | reflexivity]. Qed.

Lemma events_never_panic_witness :
  exists a',
    runEvents [Pressed BtnK3; Tick; Pressed BtnK1; Pressed BtnK2] Bench.bootApp = Some a'
    /\ okOled (oled a')
    /\ (shutdownSelect a' = 0 \/ shutdownSelect a' = 1)
    /\ (pageIndex Bench.bootApp = 0 \/ pageIndex Bench.bootApp = 1
        \/ pageIndex Bench.bootApp = 3 ->
        pageIndex a' = 0 \/ pageIndex a' = 1 \/ pageIndex a' = 3)
    /\ drawing a' = drawing Bench.bootApp.
Proof.
  apply (@events_never_panic Bench.imaging Bench.freetype Bench.host
           [Pressed BtnK3; Tick; Pressed BtnK1; Pressed BtnK2] Bench.bootApp);
    [exact bootApp_ok | right; reflexivity].
Defined.

Lemma sleeps_after_countdown_witness :
  (forall k, (k <= Z.to_nat (pageSleepCount Bench.bootApp))%nat ->
     exists ak, heartbeats k Bench.bootApp = Some ak
                /\ pageSleepCount ak = pageSleepCount Bench.bootApp - Z.of_nat k
                /\ pageIndex ak = pageIndex Bench.bootApp)
  /\ exists a1, heartbeats (Z.to_nat (pageSleepCount Bench.bootApp) + 1) Bench.bootApp
                = Some a1
                /\ pageSleepCount a1 = -1 /\ lastPageIndex a1 = -1
                /\ dataCleared (buf (oled a1)) /\ pageIndex a1 = pageIndex Bench.bootApp.
Proof.
  apply (@sleeps_after_countdown Bench.imaging Bench.freetype Bench.host Bench.bootApp);
    [exact bootApp_ok | reflexivity | reflexivity | vm_compute; split; discriminate].
Defined.

Lemma press_shows_selected_page_witness :
  exists a', handleEvent (Pressed BtnK3) Bench.bootApp = Some a'
    /\ pageIndex a' = pageIndex (press BtnK3 Bench.bootApp)
    /\ lastPageIndex a' = pageIndex a'
    /\ (pageIndex a' = 3 -> lastShutdownSel a' = shutdownSelect a')
    /\ (pageIndex a' = 0 -> staticDrawn a' = true)
    /\ pageSleepCount a' = pageSleep - 1.
Proof.
  apply (@press_shows_selected_page Bench.imaging Bench.freetype Bench.host
           BtnK3 Bench.bootApp);
    [exact bootApp_ok | reflexivity | reflexivity].
Defined.

Lemma clock_redrawn_on_change_witness :
  exists a',
    drawPage (set_lastTimeStr "00:00:00" (set_lastPageIndex 0 (set_staticDrawn true Bench.bootApp)))
    = Some a'
    /\ lastTimeStr a' = fmtClock (timeNow 0)
    /\ reads a' = 1%nat
    /\ (fmtClock (timeNow 0) = "00:00:00"%string -> oled a' = Bench.bootOled)
    /\ staticDrawn a' = true /\ lastPageIndex a' = 0.
Proof.
  apply (@clock_redrawn_on_change Bench.imaging Bench.freetype Bench.host
           (set_lastTimeStr "00:00:00"
              (set_lastPageIndex 0 (set_staticDrawn true Bench.bootApp))));
    [exact bootApp_ok | reflexivity | reflexivity | reflexivity
    | reflexivity | reflexivity | reflexivity].
Defined.

Lemma page_drawn_once_witness :
  drawPage (set_lastPageIndex 1 (set_pageIndex 1 Bench.bootApp))
  = Some (set_pageSleepCount (Go.wrapInt (pageSleep - 1))
            (set_lastPageIndex 1 (set_pageIndex 1 Bench.bootApp))).
Proof.
  apply (@page_drawn_once Bench.imaging Bench.freetype Bench.host
           (set_lastPageIndex 1 (set_pageIndex 1 Bench.bootApp)));
    [reflexivity | reflexivity | reflexivity | discriminate |].
  intros _. split; [reflexivity | discriminate].
Defined.

End PagesExtra.

(** ** Start, main loop and shutdown *)
Module ProcessExtra.
Import NanoHatOLED Main Obs Sched GoFacts PixelBuffer Canvas Drawing Pages Locking PagesExtra.

Section WithHost.
Context `{Imaging} `{Freetype} `{Host}.

(** [Clear] followed by [Send], with no rotation configured: the bus
    gets the cleared buffer twice and the canvas is the blank one. *)
Lemma Clear_Send_blank o :
  okOled o ->
  exists e o', Send (snd (Clear o)) = Some (e, o') /\ okOled o'
    /\ dataCleared (buf o') /\ image o' = freshCanvas 0
    /\ buf o' !! 0%nat = buf o !! 0%nat.
Proof.
  intros (Hwf & Hrot).
  destruct (Clear_spec o) as (e & d & HClear).
  set (o1 := set_dev d (set_buf (zeroData (buf o))
                                (set_image (freshCanvas (rotation o)) o))) in *.
  assert (Hwf1 : wfOled o1) by (apply (zeroed_wf o) in Hwf; exact Hwf).
  assert (Himg : image o1 = freshCanvas 0)
    by (unfold o1; cbn [image set_dev set_buf set_image]; rewrite Hrot; reflexivity).
  assert (HSend : Send o1 = Some (draw o1))
    by (apply Send_blank; [exact Hwf1 | exact Hrot | exact Himg | apply zeroData_cleared]).
  destruct (draw_spec o1) as (e2 & d2 & Hdraw).
  exists e2, (set_dev d2 o1). rewrite HClear. cbn [snd]. rewrite HSend, Hdraw.
  split; [reflexivity|]. split; [split; [exact Hwf1 | exact Hrot]|].
  split; [apply zeroData_cleared|]. split; [exact Himg | apply zeroData_head].
Qed.

(** What [doShutdown] returns, field by field. *)
Lemma doShutdown_fields a :
  wfOled (oled a) ->
  exists a', doShutdown a = Some a' /\ okOled (oled a') /\ exited a' = true
    /\ dataCleared (buf (oled a')) /\ image (oled a') = freshCanvas 0
    /\ logged a' = logged a ++ ["Executing shutdown..."%string]
    /\ pageIndex a' = pageIndex a /\ shutdownFlag a' = shutdownFlag a
    /\ drawing a' = drawing a.
Proof.
  intros Hwf. destruct a as [o pi psc dr sf ss lpi lts lss sd lg rd ex].
  cbn [oled] in Hwf.
  unfold doShutdown, onOled, oledClear, logPrintln. app_fields.
  match goal with
  | |- context [oledSend ?x] =>
      destruct (oledSend_ok x ltac:(app_fields; ok_steps Hwf)) as (o1 & -> & Hok1)
  end.
  unfold oledSend. app_fields.
  destruct (Clear_Send_blank o1 Hok1) as (e & o2 & -> & Hok2 & Hcl & Himg & _).
  eexists. split; [reflexivity|]. app_fields.
  split; [exact Hok2|]. repeat split; assumption.
Qed.

(** No locked section panics on a controller [main] can hold. *)
Lemma action_ok t s a :
  okOled (oled a) -> exists a', action t s a = Some a' /\ okOled (oled a').
Proof.
  intros Hok. destruct s; cbn [action].
  - exists (resetSleepCount a). split; [reflexivity | exact Hok].
  - destruct t; eexists; (split; [reflexivity|]);
      unfold handleK1_locked, handleK2_locked, handleK3_locked;
      try destruct (pageIndex a =? 3); try destruct (shutdownSelect a =? 0); exact Hok.
  - destruct (drawPage_frame a Hok) as (a' & Hr & Hok' & _). exists a'. split; assumption.
  - exists a. split; [reflexivity | exact Hok].
  - destruct (doShutdown_fields a (proj1 Hok)) as (a' & Hr & Hok' & _).
    exists a'. split; assumption.
Qed.

Lemma step_ok t m m' :
  okOled (oled (app m)) -> step t m = Some m' -> okOled (oled (app m')).
Proof.
  intros Hok Hstep. unfold step in Hstep.
  destruct (exited (app m)); [discriminate|].
  destruct (pcs m t) as [| |s [| |]].
  - injection Hstep as <-. exact Hok.
  - injection Hstep as <-. exact Hok.
  - destruct (holder m); [discriminate|]. injection Hstep as <-. exact Hok.
  - destruct (action_ok t s (app m) Hok) as (a' & Ha & Hok').
    rewrite Ha in Hstep. injection Hstep as <-. exact Hok'.
  - injection Hstep as <-. exact Hok.
Qed.

Lemma reachable_ok a m : okOled (oled a) -> reachable a m -> okOled (oled (app m)).
Proof.
  intros Hok. induction 1 as [|m t m' _ IH Hstep]; [exact Hok|].
  eapply step_ok; eassumption.
Qed.


(** X21.  From [main]'s start to the first page.  On a well-formed
    controller [main] reaches its loop with page 0 selected, the
    countdown at [pageSleep], [shutdownSelect = 1] and the gate open; the
    first [drawPage] then draws the whole clock page, remembers the clock
    string it drew and leaves [pageSleep - 1] draws to go. *)
Theorem startup_then_clock o :
  wfOled o ->
  exists a a',
    startup o = Some a /\ okOled (oled a)
    /\ pageIndex a = 0 /\ pageSleepCount a = pageSleep /\ shutdownSelect a = 1
    /\ drawing a = false /\ shutdownFlag a = false
    /\ drawPage a = Some a'
    /\ staticDrawn a' = true /\ lastPageIndex a' = 0
    /\ pageSleepCount a' = pageSleep - 1 /\ pageIndex a' = 0.
Proof.
  intros Hwf.
  assert (Hstart : exists a, startup o = Some a /\ okOled (oled a)
            /\ pageIndex a = 0 /\ pageSleepCount a = pageSleep /\ shutdownSelect a = 1
            /\ drawing a = false /\ shutdownFlag a = false).
  { unfold startup, onOled, oledClear, logPrintln. app_fields.
    destruct (negb logoPresent).
    - send_ok Hwf.
    - unfold Image. destruct (imagingOpen _); app_fields; send_ok Hwf. }
  destruct Hstart as (a & Hr & Hok & Hp & Hc & Hs & Hd & Hf).
  destruct (drawPage_awake a Hok Hd Hf ltac:(rewrite Hc; reflexivity))
    as (a' & Hr' & _ & Hc' & _ & _ & Hp' & _ & Hzero & _).
  destruct (Hzero Hp) as (Hl' & Hs').
  exists a, a'. rewrite Hc', Hc, Hp', Hp.
  split; [exact Hr|]. split; [exact Hok|].
  repeat split; try assumption.
Qed.

(** X22.  The goroutines never get stuck.  In every state the four
    goroutines can reach from the start of the main loop, on a controller
    that was well formed then: the controller is still well formed, and
    while the process has not exited, the goroutine that holds
    [pageMutex] can take its next step (no locked section panics or
    blocks), and when nobody holds it every goroutine can. *)
Theorem scheduler_never_stuck a m :
  okOled (oled a) -> reachable a m ->
  okOled (oled (app m))
  /\ (exited (app m) = false ->
      (forall t, holder m = Some t -> exists m', step t m = Some m')
      /\ (holder m = None -> forall t, exists m', step t m = Some m')).
Proof.
  intros Hok Hreach.
  pose proof (reachable_ok a m Hok Hreach) as Hokm.
  pose proof (lockInv_reachable a m Hreach) as Hinv.
  split; [exact Hokm|]. intros Hex. split.
  - intros t Hh. apply Hinv in Hh. unfold step. rewrite Hex.
    destruct (pcs m t) as [| |s [| |]]; try discriminate.
    + destruct (action_ok t s (app m) Hokm) as (a' & -> & _). eexists. reflexivity.
    + eexists. reflexivity.
  - intros Hh t. unfold step. rewrite Hex.
    destruct (pcs m t) as [| |s [| |]] eqn:Hpc; try (eexists; reflexivity).
    + rewrite Hh. eexists. reflexivity.
    + assert (Hl : holder m = Some t) by (apply Hinv; rewrite Hpc; reflexivity).
      congruence.
Qed.

(** X23.  The main loop obeys the flag.  When the ticker fires with the
    mutex free and [shutdownFlag] set, the heartbeat goroutine reads the
    flag under the lock and runs [doShutdown], not [drawPage]: after its
    six steps the trace has grown by the check and the shutdown, and the
    process has exited with the data bytes of the buffer cleared. *)
Theorem heartbeat_shuts_down m :
  okOled (oled (app m)) -> exited (app m) = false -> shutdownFlag (app m) = true ->
  holder m = None -> pcs m Heartbeat = Idle ->
  exists m',
    run (replicate 6 Heartbeat) m = Some m'
    /\ trace m' = trace m ++ [(Heartbeat, SecCheck); (Heartbeat, SecShutdown)]
    /\ exited (app m') = true
    /\ dataCleared (buf (oled (app m'))).
Proof.
  intros Hok Hex Hf Hh Hpc.
  destruct m as [a h pcs0 isd tr]. cbn [app holder pcs trace] in *. subst h.
  destruct (doShutdown_fields a (proj1 Hok)) as (a' & Hr & _ & Hex' & Hcl & _).
  exists (mkMachine a' (Some Heartbeat)
            (set_pc Heartbeat (In SecShutdown Release)
               (set_pc Heartbeat (In SecShutdown Run)
                  (set_pc Heartbeat (In SecShutdown Acquire)
                     (set_pc Heartbeat (In SecCheck Release)
                        (set_pc Heartbeat (In SecCheck Run)
                           (set_pc Heartbeat (In SecCheck Acquire) pcs0))))))
            true ((tr ++ [(Heartbeat, SecCheck)]) ++ [(Heartbeat, SecShutdown)])).
  split.
  - cbn [replicate run]. unfold step at 1. cbn [app holder pcs isShutdown trace].
    rewrite Hex, Hpc.
    unfold step at 1. cbn [app holder pcs isShutdown trace]. rewrite Hex, set_pc_same.
    unfold step at 1. cbn [app holder pcs isShutdown trace]. rewrite Hex, set_pc_same.
    cbn [action]. rewrite Hf.
    destruct (decide (SecCheck = SecCheck)) as [_|Hne]; [|congruence].
    unfold step at 1. cbn [app holder pcs isShutdown trace]. rewrite Hex, set_pc_same.
    cbn [next].
    unfold step at 1. cbn [app holder pcs isShutdown trace]. rewrite Hex, set_pc_same.
    unfold step at 1. cbn [app holder pcs isShutdown trace]. rewrite Hex, set_pc_same.
    cbn [action]. rewrite Hr.
    destruct (decide (SecShutdown = SecCheck)) as [Heq|_]; [discriminate|].
    reflexivity.
  - cbn [trace app]. rewrite <- app_assoc. repeat split; assumption.
Qed.

(** The painters and [drawPage] do not end the process. *)
Lemma drawNonTimePage_exited a a' : drawNonTimePage a = Some a' -> exited a' = exited a.
Proof.
  destruct a as [o pi psc dr sf ss lpi lts lss sd lg rd ex].
  unfold drawNonTimePage, readHost, onOled, oledClear. app_fields.
  destruct (pi =? 1); [|destruct (pi =? 3); [destruct (ss =? 0)|]];
    match goal with
    | |- context [oledSend ?x] => destruct (oledSend x) as [a2|] eqn:Hs; [|discriminate]
    end;
    intros [= <-]; apply oledSend_spec in Hs as (o2 & ->); reflexivity.
Qed.

Lemma drawTimePageStatic_exited a a' :
  drawTimePageStatic a = Some a' -> exited a' = exited a.
Proof.
  destruct a as [o pi psc dr sf ss lpi lts lss sd lg rd ex].
  unfold drawTimePageStatic, readHost, onOled, oledClear. app_fields.
  match goal with
  | |- context [oledSend ?x] => destruct (oledSend x) as [a2|] eqn:Hs; [|discriminate]
  end.
  intros [= <-]. apply oledSend_spec in Hs as (o2 & ->). reflexivity.
Qed.

Lemma updateTimeOnly_exited a a' : updateTimeOnly a = Some a' -> exited a' = exited a.
Proof.
  destruct a as [o pi psc dr sf ss lpi lts lss sd lg rd ex].
  unfold updateTimeOnly, clearTimeArea, readHost, onOled. app_fields.
  destruct (String.eqb _ lts); [intros [= <-]; reflexivity|].
  match goal with
  | |- context [oledSend ?x] => destruct (oledSend x) as [a2|] eqn:Hs; [|discriminate]
  end.
  intros [= <-]. apply oledSend_spec in Hs as (o2 & ->). reflexivity.
Qed.

Lemma drawPage_exited a a' : drawPage a = Some a' -> exited a' = exited a.
Proof.
  unfold drawPage.
  destruct (drawing a || shutdownFlag a); [intros [= <-]; reflexivity|].
  destruct (pageSleepCount a <=? 0).
  - destruct (pageSleepCount a =? 0); [|intros [= <-]; reflexivity].
    destruct (oledSend (oledClear a)) as [a2|] eqn:Hs; [|discriminate].
    intros [= <-]. apply oledSend_spec in Hs as (o & ->). reflexivity.
  - cbv zeta.
    set (a0 := set_drawing true (set_pageSleepCount (Go.wrapInt (pageSleepCount a - 1)) a)).
    change (exited a) with (exited a0).
    destruct (pageIndex a0 =? 0).
    + destruct (negb (staticDrawn a0) || negb (lastPageIndex a0 =? 0)).
      * destruct (drawTimePageStatic a0) as [a2|] eqn:Hs; [|discriminate].
        intros [= <-]. apply drawTimePageStatic_exited in Hs. exact Hs.
      * destruct (updateTimeOnly a0) as [a2|] eqn:Hs; [|discriminate].
        intros [= <-]. apply updateTimeOnly_exited in Hs. exact Hs.
    + destruct ((pageIndex a0 =? 1) || (pageIndex a0 =? 3));
        [|intros [= <-]; reflexivity].
      destruct (negb (pageIndex a0 =? lastPageIndex a0)
                || (pageIndex a0 =? 3) && negb (shutdownSelect a0 =? lastShutdownSel a0));
        [|intros [= <-]; reflexivity].
      destruct (drawNonTimePage a0) as [a2|] eqn:Hs; [|discriminate].
      intros [= <-]. apply drawNonTimePage_exited in Hs. exact Hs.
Qed.

Lemma run_app l1 : forall l2 m,
  run (l1 ++ l2) m = match run l1 m with Some m' => run l2 m' | None => None end.
Proof.
  induction l1 as [|t l1 IH]; intros l2 m; simpl; [reflexivity|].
  destruct (step t m); [apply IH | reflexivity].
Qed.

(** A goroutine that finds the mutex free goes through one locked
    section in three steps. *)
Lemma run_section t s m a' :
  exited (app m) = false -> holder m = None -> pcs m t = In s Acquire ->
  action t s (app m) = Some a' -> exited a' = false ->
  exists m',
    run [t; t; t] m = Some m' /\ app m' = a' /\ holder m' = None
    /\ isShutdown m' = (if decide (s = SecCheck) then shutdownFlag a' else isShutdown m)
    /\ pcs m' t = next t s (isShutdown m')
    /\ (forall t', t' <> t -> pcs m' t' = pcs m t')
    /\ trace m' = trace m ++ [(t, s)].
Proof.
  intros Hex Hh Hpc Hact Hex'.
  destruct m as [a h pcs0 isd tr]. cbn [app holder pcs isShutdown trace] in *. subst h.
  eexists. split.
  - cbn [run]. unfold step at 1. cbn [app holder pcs isShutdown trace]. rewrite Hex, Hpc.
    unfold step at 1. cbn [app holder pcs isShutdown trace]. rewrite Hex, set_pc_same, Hact.
    unfold step at 1. cbn [app holder pcs isShutdown trace]. rewrite Hex', set_pc_same.
    reflexivity.
  - cbn [app holder pcs isShutdown trace]. rewrite set_pc_same.
    repeat split. intros t' Hne. rewrite !set_pc_other by exact Hne. reflexivity.
Qed.

(** X24.  An event served without interference is the sequential model.
    When a goroutine finds the mutex free and no other goroutine moves
    before it is idle again, a button goroutine (log, countdown reset,
    locked part of the handler, [drawPage]: 11 steps) and the main loop
    with the flag clear (flag check, [drawPage]: 7 steps) leave the
    package variables as the handler followed by [drawPage], respectively
    [drawPage] alone, computes them; the mutex is free again, the other
    goroutines are where they were, and the trace has grown by exactly
    the sections of this goroutine. *)
Theorem event_alone_is_sequential ev m :
  okOled (oled (app m)) -> exited (app m) = false -> shutdownFlag (app m) = false ->
  holder m = None -> pcs m (eventThread ev) = Idle ->
  exists a' m',
    handleEvent ev (app m) = Some a'
    /\ run (replicate (eventSteps ev) (eventThread ev)) m = Some m'
    /\ app m' = a' /\ holder m' = None /\ pcs m' (eventThread ev) = Idle
    /\ (forall t, t <> eventThread ev -> pcs m' t = pcs m t)
    /\ trace m' = trace m ++ map (fun s => (eventThread ev, s)) (eventSections ev).
Proof.
  intros Hok Hex Hf Hh Hpc. destruct ev as [b|].
  - set (t := eventThread (Pressed b)) in *.
    assert (Ht : t <> Heartbeat) by (destruct b; discriminate).
    set (a1 := logPrintln (pressMessage t) (app m)).
    set (a2 := resetSleepCount a1).
    assert (Hact : exists a3, action t SecHandle a2 = Some a3 /\ a3 = press b (app m)
                              /\ exited a3 = false /\ okOled (oled a3)).
    { destruct (press_rearms b (app m)) as (_ & _ & Ho & _).
      exists (press b (app m)). split; [destruct b; reflexivity|]. split; [reflexivity|].
      split; [|rewrite Ho; exact Hok].
      destruct b; unfold press, handleK1, handleK2, handleK3, handleK1_locked,
        handleK2_locked, handleK3_locked, resetSleepCount, logPrintln;
        cbn [pageIndex shutdownSelect set_staticDrawn set_pageSleepCount];
        destruct (pageIndex (app m) =? 3); try destruct (shutdownSelect (app m) =? 0);
        exact Hex. }
    destruct Hact as (a3 & Hact & Ha3 & Hex3 & Hok3).
    destruct (drawPage_frame a3 Hok3) as (a4 & Hdraw & _).
    pose proof (drawPage_exited a3 a4 Hdraw) as Hex4. rewrite Hex3 in Hex4.
    (* the call and the log line *)
    set (m1 := mkMachine a1 None
                 (set_pc t (In SecReset Acquire) (set_pc t Entered (pcs m)))
                 (isShutdown m) (trace m)).
    assert (H1' : run [t; t] m = Some m1).
    { destruct m as [a h pcs0 isd tr]. cbn [app holder pcs isShutdown trace] in *. subst h.
      cbn [run]. unfold step at 1. cbn [app holder pcs isShutdown trace]. rewrite Hex, Hpc.
      replace (match t with Heartbeat => In SecCheck Acquire | _ => Entered end)
        with Entered by (destruct b; reflexivity).
      unfold step at 1. cbn [app holder pcs isShutdown trace]. rewrite Hex, set_pc_same.
      reflexivity. }
    destruct (run_section t SecReset m1 a2) as (m2 & Hr2 & Ha2 & Hh2 & _ & Hp2 & Ho2 & Ht2);
      [exact Hex | reflexivity | apply set_pc_same | reflexivity | exact Hex|].
    destruct (run_section t SecHandle m2 a3) as (m3 & Hr3 & Ha3' & Hh3 & _ & Hp3 & Ho3 & Ht3);
      [rewrite Ha2; exact Hex | exact Hh2 | exact Hp2 | rewrite Ha2; exact Hact | exact Hex3|].
    destruct (run_section t SecDraw m3 a4) as (m4 & Hr4 & Ha4 & Hh4 & _ & Hp4 & Ho4 & Ht4);
      [rewrite Ha3'; exact Hex3 | exact Hh3 | exact Hp3
      | rewrite Ha3'; exact Hdraw | exact Hex4|].
    exists a4, m4. split; [unfold handleEvent; rewrite <- Ha3; exact Hdraw|].
    split.
    { change (replicate (eventSteps (Pressed b)) t)
        with ([t; t] ++ [t; t; t] ++ [t; t; t] ++ [t; t; t]).
      rewrite run_app, H1', run_app, Hr2, run_app, Hr3. exact Hr4. }
    split; [exact Ha4|]. split; [exact Hh4|]. split; [exact Hp4|]. split.
    + intros t' Hne. rewrite (Ho4 t' Hne), (Ho3 t' Hne), (Ho2 t' Hne).
      unfold m1. cbn [pcs]. rewrite !set_pc_other by exact Hne. reflexivity.
    + rewrite Ht4, Ht3, Ht2. unfold m1. cbn [trace eventSections map].
      rewrite <- !app_assoc. reflexivity.
  - cbn [eventThread] in *.
    destruct (drawPage_frame (app m) Hok) as (a2 & Hdraw & _).
    pose proof (drawPage_exited (app m) a2 Hdraw) as Hex2. rewrite Hex in Hex2.
    set (m1 := mkMachine (app m) None (set_pc Heartbeat (In SecCheck Acquire) (pcs m))
                 (isShutdown m) (trace m)).
    assert (H1' : run [Heartbeat] m = Some m1).
    { destruct m as [a h pcs0 isd tr]. cbn [app holder pcs isShutdown trace] in *. subst h.
      cbn [run]. unfold step at 1. cbn [app holder pcs isShutdown trace]. rewrite Hex, Hpc.
      reflexivity. }
    destruct (run_section Heartbeat SecCheck m1 (app m))
      as (m2 & Hr2 & Ha2 & Hh2 & Hs2 & Hp2 & Ho2 & Ht2);
      [exact Hex | reflexivity | apply set_pc_same | reflexivity | exact Hex|].
    rewrite Hs2 in Hp2. rewrite Hf in Hp2.
    destruct (decide (SecCheck = SecCheck)) as [_|Hne]; [|congruence].
    cbn [next] in Hp2.
    destruct (run_section Heartbeat SecDraw m2 a2)
      as (m3 & Hr3 & Ha3 & Hh3 & _ & Hp3 & Ho3 & Ht3);
      [rewrite Ha2; exact Hex | exact Hh2 | exact Hp2 | rewrite Ha2; exact Hdraw
      | exact Hex2|].
    exists a2, m3. split; [exact Hdraw|]. split.
    { change (replicate (eventSteps Tick) Heartbeat)
        with ([Heartbeat] ++ [Heartbeat; Heartbeat; Heartbeat]
              ++ [Heartbeat; Heartbeat; Heartbeat]).
      rewrite run_app, H1', run_app, Hr2. exact Hr3. }
    split; [exact Ha3|]. split; [exact Hh3|]. split; [exact Hp3|]. split.
    + intros t' Hne. rewrite (Ho3 t' Hne), (Ho2 t' Hne).
      unfold m1. cbn [pcs]. rewrite set_pc_other by exact Hne. reflexivity.
    + rewrite Ht3, Ht2. unfold m1. cbn [trace eventSections map].
      rewrite <- !app_assoc. reflexivity.
Qed.

Lemma doShutdown_page a a' :
  doShutdown a = Some a' ->
  pageIndex a' = pageIndex a /\ shutdownSelect a' = shutdownSelect a
  /\ pageSleepCount a' = pageSleepCount a.
Proof.
  unfold doShutdown. intros Hrun.
  match type of Hrun with
  | match oledSend ?x with _ => _ end = _ =>
      destruct (oledSend x) as [a2|] eqn:Hs1; [|discriminate]
  end.
  destruct (oledSend (oledClear a2)) as [a3|] eqn:Hs2; [|discriminate].
  injection Hrun as <-.
  apply oledSend_spec in Hs1 as (o1 & ->). apply oledSend_spec in Hs2 as (o2 & ->).
  repeat split.
Qed.

Lemma drawPage_page a a' :
  okOled (oled a) -> drawPage a = Some a' -> pageStateOk a -> pageStateOk a'.
Proof.
  intros Hok Hrun (Hsel & Hpage & Hcnt).
  destruct (drawPage_frame a Hok) as (a2 & Hr2 & _ & Hp & Hs & _ & _ & Hle).
  assert (a2 = a') by congruence. subst a2.
  split; [rewrite Hs; exact Hsel|]. split; [rewrite Hp; exact Hpage|].
  split; [|lia].
  destruct (drawing a) eqn:Hd;
    [rewrite (drawPage_gate a (or_introl Hd)) in Hrun; injection Hrun as <-; lia|].
  destruct (shutdownFlag a) eqn:Hf;
    [rewrite (drawPage_gate a (or_intror Hf)) in Hrun; injection Hrun as <-; lia|].
  destruct (Z.lt_trichotomy (pageSleepCount a) 0) as [Hc|[Hc|Hc]].
  - assert (Hsame : drawPage a = Some a).
    { unfold drawPage. rewrite Hd, Hf. cbn [orb].
      replace (pageSleepCount a <=? 0) with true by (symmetry; apply Z.leb_le; lia).
      replace (pageSleepCount a =? 0) with false by (symmetry; apply Z.eqb_neq; lia).
      reflexivity. }
    rewrite Hsame in Hrun. injection Hrun as <-. lia.
  - destruct (drawPage_at_zero a Hok Hd Hf Hc) as (a3 & Hr3 & _ & Hc3 & _).
    assert (a3 = a') by congruence. subst a3. lia.
  - destruct (drawPage_awake a Hok Hd Hf Hc) as (a3 & Hr3 & _ & Hc3 & _).
    assert (a3 = a') by congruence. subst a3. rewrite Hc3.
    rewrite wrapInt_small; [lia|].
    unfold pageSleep in Hcnt. unfold Go.minInt, Go.maxInt, Go.intBits. lia.
Qed.

Lemma action_page t s a a' :
  okOled (oled a) -> action t s a = Some a' -> pageStateOk a -> pageStateOk a'.
Proof.
  intros Hok. destruct s; cbn [action]; intros Hact Hst.
  - injection Hact as <-. destruct Hst as (Hsel & Hpage & Hcnt).
    split; [exact Hsel|]. split; [exact Hpage|].
    cbn. unfold pageSleep. lia.
  - destruct Hst as (Hsel & Hpage & Hcnt).
    destruct t; injection Hact as <-;
      unfold handleK1_locked, handleK2_locked, handleK3_locked, pageStateOk;
      destruct (Z.eqb_spec (pageIndex a) 3) as [Hp|Hp];
      try destruct (shutdownSelect a =? 0);
      cbn [pageIndex shutdownSelect pageSleepCount set_pageIndex set_shutdownSelect
           set_shutdownFlag];
      try rewrite (toggle_select _ Hsel); (split; [|split]); try assumption; lia.
  - eapply drawPage_page; eassumption.
  - injection Hact as <-. exact Hst.
  - destruct (doShutdown_page a a' Hact) as (Hp & Hs & Hc).
    unfold pageStateOk. rewrite Hp, Hs, Hc. exact Hst.
Qed.

(** X25.  The page variables stay in range under every interleaving.
    In every state the button goroutines and the main loop can reach,
    whatever the order in which they take the mutex, [shutdownSelect] is
    0 or 1, the page is 0, 1 or 3, and the countdown lies between -1 and
    [pageSleep] (so its decrement never wraps). *)
Theorem reachable_page_state a m :
  okOled (oled a) -> pageStateOk a -> reachable a m -> pageStateOk (app m).
Proof.
  intros Hok Hst Hreach.
  induction Hreach as [|m t m' Hreach IH Hstep]; [exact Hst|].
  pose proof (reachable_ok a m Hok Hreach) as Hokm.
  unfold step in Hstep.
  destruct (exited (app m)); [discriminate|].
  destruct (pcs m t) as [| |s [| |]].
  - injection Hstep as <-. exact IH.
  - injection Hstep as <-. exact IH.
  - destruct (holder m); [discriminate|]. injection Hstep as <-. exact IH.
  - destruct (action t s (app m)) as [a'|] eqn:Ha; [|discriminate].
    injection Hstep as <-. cbn [app]. eapply action_page; eassumption.
  - injection Hstep as <-. exact IH.
Qed.
End WithHost.

Lemma reachable_page_state_witness :
  pageStateOk (app (machineAfter [K3; K3; K3; K3] Bench.bootApp)).
Proof.
  apply (@reachable_page_state Bench.imaging Bench.freetype Bench.host Bench.bootApp
           (machineAfter [K3; K3; K3; K3] Bench.bootApp)).
  - exact bootApp_ok.
  - split; [right; reflexivity|]. split; [left; reflexivity|].
    vm_compute. split; discriminate.
  - apply (run_reachable Bench.bootApp [K3; K3; K3; K3] (boot Bench.bootApp));
      [apply reach_boot | vm_compute; reflexivity].
Defined.

Lemma event_alone_is_sequential_witness :
  exists a' m',
    handleEvent (Pressed BtnK3) (app (boot Bench.bootApp)) = Some a'
    /\ run (replicate (eventSteps (Pressed BtnK3)) (eventThread (Pressed BtnK3)))
           (boot Bench.bootApp) = Some m'
    /\ app m' = a' /\ holder m' = None /\ pcs m' (eventThread (Pressed BtnK3)) = Idle
    /\ (forall t, t <> eventThread (Pressed BtnK3) -> pcs m' t = pcs (boot Bench.bootApp) t)
    /\ trace m' = trace (boot Bench.bootApp)
                  ++ map (fun s => (eventThread (Pressed BtnK3), s))
                         (eventSections (Pressed BtnK3)).
Proof.
  apply (@event_alone_is_sequential Bench.imaging Bench.freetype Bench.host
           (Pressed BtnK3) (boot Bench.bootApp));
    [exact bootApp_ok | reflexivity | reflexivity | reflexivity | reflexivity].
Defined.


Lemma startup_then_clock_witness :
  exists a a',
    startup Bench.bootOled = Some a /\ okOled (oled a)
    /\ pageIndex a = 0 /\ pageSleepCount a = pageSleep /\ shutdownSelect a = 1
    /\ drawing a = false /\ shutdownFlag a = false
    /\ drawPage a = Some a'
    /\ staticDrawn a' = true /\ lastPageIndex a' = 0
    /\ pageSleepCount a' = pageSleep - 1 /\ pageIndex a' = 0.
Proof.
  apply (@startup_then_clock Bench.imaging Bench.freetype Bench.host Bench.bootOled).
  exact PixelClaims.bootOled_wf.
Defined.

Lemma scheduler_never_stuck_witness :
  okOled (oled (app (machineAfter [K2; K2; K2; K2] Bench.bootApp)))
  /\ (exited (app (machineAfter [K2; K2; K2; K2] Bench.bootApp)) = false ->
      (forall t, holder (machineAfter [K2; K2; K2; K2] Bench.bootApp) = Some t ->
                 exists m', step t (machineAfter [K2; K2; K2; K2] Bench.bootApp) = Some m')
      /\ (holder (machineAfter [K2; K2; K2; K2] Bench.bootApp) = None ->
          forall t, exists m',
            step t (machineAfter [K2; K2; K2; K2] Bench.bootApp) = Some m')).
Proof.
  apply (@scheduler_never_stuck Bench.imaging Bench.freetype Bench.host Bench.bootApp
           (machineAfter [K2; K2; K2; K2] Bench.bootApp));
    [exact bootApp_ok|].
  apply (run_reachable Bench.bootApp [K2; K2; K2; K2] (boot Bench.bootApp));
    [apply reach_boot | vm_compute; reflexivity].
Defined.

Lemma heartbeat_shuts_down_witness :
  exists m',
    run (replicate 6 Heartbeat) (boot (set_shutdownFlag true Bench.bootApp)) = Some m'
    /\ trace m' = [(Heartbeat, SecCheck); (Heartbeat, SecShutdown)]
    /\ exited (app m') = true
    /\ dataCleared (buf (oled (app m'))).
Proof.
  apply (@heartbeat_shuts_down Bench.imaging Bench.freetype Bench.host
           (boot (set_shutdownFlag true Bench.bootApp)));
    [exact bootApp_ok | reflexivity | reflexivity | reflexivity | reflexivity].
Defined.

End ProcessExtra.
